(** * EnDora conditional training and sampling drivers

    A shallow embedding of [train_cond.py] and [sample/sample_cond.py].
    The two scripts are drivers: they wire external collaborators (the
    diffusion backbone, the VAE, the feature extractor, torch's random
    number generator, the file system) together.  The drivers are embedded
    as programs in a small trace-and-failure monad: every call to a
    collaborator is recorded as an event, every way a Python process can
    stop early ([exit], an uncaught exception) is a result of its own, and
    the collaborators' answers are read from an explicit environment. *)

From Stdlib Require Import ZArith List String Bool Lia FinFun.
From Stdlib Require Import SpecFloat DecimalString Ascii.
Import ListNotations.
Open Scope Z_scope.

(** ** Python floats

    A Python [float] is an IEEE-754 binary64 number.  Tensor elements are
    kept in the same format: the drivers only ever scale a tensor by a
    Python float, and nothing proved below depends on the narrower element
    types torch may pick. *)
Module PyFloat.

Definition prec : Z := 53.
Definition emax : Z := 1024.

Definition float : Type := spec_float.

Definition of_Z (z : Z) : float := binary_normalize prec emax z 0 false.

Definition add : float -> float -> float := SFadd prec emax.
Definition mul : float -> float -> float := SFmul prec emax.
Definition div : float -> float -> float := SFdiv prec emax.

(** [x > y], [x <= y], [x != y]; every ordered comparison with a NaN is
    false and [!=] with a NaN is true, as in Python. *)
Definition gtb (x y : float) : bool := SFltb y x.
Definition eqb (x y : float) : bool := SFeqb x y.
Definition neqb (x y : float) : bool := negb (SFeqb x y).

Definition one : float := of_Z 1.
Definition minus_one : float := of_Z (-1).

(** The decimal literal [n / 10^k], correctly rounded. *)
Definition decimal (n : Z) (k : Z) : float := div (of_Z n) (of_Z (10 ^ k)).

End PyFloat.

Definition float : Type := PyFloat.float.

(** A tensor is its row-major data.  On that view [rearrange] between
    ['b f c h w'] and ['(b f) c h w'] is the identity, [torch.cat(_, 0)] is
    [++], and a scalar operation is a [map]. *)
Definition tensor : Type := list float.

Definition tensor_mul (x : tensor) (k : float) : tensor :=
  map (fun v => PyFloat.mul v k) x.

Definition tensor_div (x : tensor) (k : float) : tensor :=
  map (fun v => PyFloat.div v k) x.

Definition tensor_cat (xs : list tensor) : tensor := List.concat xs.

(** The latent scaling constant written [0.18215] in both drivers. *)
Definition latent_scale : float := PyFloat.decimal 18215 5.

(** ** Programs: a trace of events and a result *)

Inductive exn : Type :=
| FileNotFoundError
| KeyError (key : string)
| AssertionError
| UnboundLocalError (var : string)
| AttributeError (attr : string)
| ZeroDivisionError
| RuntimeError (what : string).

Inductive result (A : Type) : Type :=
| Ok (a : A)
| Exit (code : Z)
| Raise (e : exn).

Arguments Ok {A} a.
Arguments Exit {A} code.
Arguments Raise {A} e.

(** The status the operating system sees: [exit(n)] is truncated to a
    byte, an uncaught exception gives 1, a normal return 0. *)
Definition exit_status {A : Type} (r : result A) : Z :=
  match r with
  | Ok _ => 0
  | Exit code => code mod 256
  | Raise _ => 1
  end.

Section Prog.

Context {event : Type}.

Definition prog (A : Type) : Type := list event * result A.

Definition ret {A : Type} (a : A) : prog A := ([], Ok a).

Definition emit (e : event) : prog unit := ([e], Ok tt).

Definition exit_with {A : Type} (code : Z) : prog A := ([], Exit code).

Definition raise {A : Type} (e : exn) : prog A := ([], Raise e).

Definition bind {A B : Type} (m : prog A) (f : A -> prog B) : prog B :=
  match m with
  | (t, Ok a) => let (t', r) := f a in (t ++ t', r)
  | (t, Exit code) => (t, Exit code)
  | (t, Raise e) => (t, Raise e)
  end.

(** [for x in xs: body x] *)
Fixpoint for_each {A : Type} (xs : list A) (body : A -> prog unit)
  : prog unit :=
  match xs with
  | [] => ret tt
  | x :: rest => bind (body x) (fun _ => for_each rest body)
  end.

(** An external call that either answers or raises. *)
Definition from_option {A : Type} (o : option A) (e : exn) : prog A :=
  match o with
  | Some a => ret a
  | None => raise e
  end.

Definition when (b : bool) (m : prog unit) : prog unit :=
  if b then m else ret tt.

Definition trace {A : Type} (m : prog A) : list event := fst m.
Definition outcome {A : Type} (m : prog A) : result A := snd m.

(** The program does not stop through [exit]. *)
Definition never_exits {A : Type} (m : prog A) : Prop :=
  forall code, outcome m <> Exit code.

End Prog.

Arguments prog : clear implicits.

Declare Scope prog_scope.
Delimit Scope prog_scope with prog.
Notation "x <- m ;; k" := (bind m (fun x => k))
  (at level 61, m at next level, right associativity) : prog_scope.
Notation "m ;;; k" := (bind m (fun _ => k))
  (at level 61, right associativity) : prog_scope.

(** [range(lo, hi)] *)
Definition range (lo hi : Z) : list Z :=
  map (fun i => lo + Z.of_nat i) (seq 0 (Z.to_nat (hi - lo))).

(** * [sample/sample_cond.py] *)
Module SampleCond.

(** The config object handed to [main]. *)
Record args : Type := {
  ckpt : option string;          (* [None] is Python's None *)
  cfg_scale : float;
  image_size : Z;
  model : string;
  use_compile : bool;
  use_fp16 : bool;
  num_sampling_steps : Z;
  num_frames : Z;
  frame_interval : Z;
  num_classes : Z;
  sample_method : string;
  save_video_path : string
}.

(** The bound method handed to a sampler loop. *)
Inductive sample_fn : Type :=
| forward
| forward_with_cfg.

Inductive sampler : Type :=
| ddim_sample_loop
| p_sample_loop.

(** [model_kwargs]: [cfg_scale] is a key of the guided dict only. *)
Record model_kwargs : Type := {
  kw_y : option (list Z);
  kw_cfg_scale : option float;
  kw_use_fp16 : bool;
  kw_y_image : tensor
}.

Inductive event : Type :=
| EPrint (msg : string)
| EGetModels (latent_size : Z)
| ECompile
| ETorchLoad (path : string)
| ELoadStateDict
| ECreateDiffusion (timestep_respacing : Z)
| EVaeFromPretrained (name : string)
| EToHalf
| EReadVideo (idx : Z)
| EVaeEncode (x : tensor)
| ESampleLoop (s : sampler) (fn : sample_fn) (z : tensor)
    (clip_denoised : bool) (kw : model_kwargs)
| EVaeDecode (x : tensor)
| EMakedirs (path : string)
| EWriteVideo (dir : string) (idx : Z) (video : tensor).

(** What the collaborators answer.  A [None] is the call raising; a call
    without that option ([get_models], [load_state_dict], the codec, the
    sampler loops, the video writer) is taken to return. *)
Record env : Type := {
  (* [torch.load(path)]: the keys of the pickled mapping *)
  torch_load : string -> option (list string);
  (* [torch.randn(...)] for clip [idx] *)
  randn : Z -> tensor;
  (* what [torch.randint(0, num_classes, (1,))] draws for clip [idx],
     when the range is not empty *)
  randint : Z -> Z -> Z;
  (* [torchvision.io.read_video] of the mask clip [idx] *)
  read_video : Z -> option (list tensor);
  (* [TemporalRandomCrop(size)(total_frames)] *)
  temporal_sample : Z -> Z -> Z * Z;
  (* [np.linspace], frame selection and [transform_col] *)
  select_frames : list tensor -> Z -> Z -> Z -> tensor;
  (* [vae.encode(c).latent_dist.sample()] *)
  vae_encode : tensor -> tensor;
  (* [vae.decode(x).sample] *)
  vae_decode : tensor -> tensor;
  (* the two sampler loops of the diffusion object *)
  run_sampler : sampler -> sample_fn -> tensor -> bool -> model_kwargs
                -> tensor;
  (* the pixel post-processing before [imageio.mimwrite] *)
  to_uint8 : tensor -> tensor;
  (* [os.path.exists] *)
  path_exists : string -> bool
}.

Definition M : Type -> Type := prog event.

Local Open Scope prog_scope.
Local Open Scope string_scope.

Section Main.

Variable E : env.
Variable a : args.

(** Line 93. *)
Definition using_cfg : bool := PyFloat.gtb (cfg_scale a) PyFloat.one.

(** Lines 156-166: the guidance set-up for one clip.  [torch.randint]
    refuses an empty range. *)
Definition setup_guidance (idx : Z) (z c : tensor)
  : M (tensor * model_kwargs * sample_fn) :=
  if using_cfg then
    emit (EPrint "using cfg") ;;;
    let z := tensor_cat [z; c] in
    y <- (if (num_classes a <=? 0)%Z then raise (RuntimeError "randint")
          else ret [randint E idx (num_classes a)]) ;;
    let y_null := [101] in
    let y := (y ++ y_null)%list in
    ret (z,
         {| kw_y := Some y; kw_cfg_scale := Some (cfg_scale a);
            kw_use_fp16 := use_fp16 a; kw_y_image := c |},
         forward_with_cfg)
  else
    ret (z,
         {| kw_y := None; kw_cfg_scale := None;
            kw_use_fp16 := use_fp16 a; kw_y_image := c |},
         forward).

(** Lines 171-178: [samples] is bound only by the two branches. *)
Definition run_sample_method (fn : sample_fn) (z : tensor)
    (kw : model_kwargs) : M (option tensor) :=
  if String.eqb (sample_method a) "ddim" then
    emit (ESampleLoop ddim_sample_loop fn z false kw) ;;;
    ret (Some (run_sampler E ddim_sample_loop fn z false kw))
  else if String.eqb (sample_method a) "ddpm" then
    emit (ESampleLoop p_sample_loop fn z false kw) ;;;
    ret (Some (run_sampler E p_sample_loop fn z false kw))
  else
    ret None.

(** Lines 126-197: the body of the loop over the sixteen clips.  Element
    types are not modelled, so the half-precision casts of lines 127 and
    182 leave no mark. *)
Definition sample_clip (idx : Z) : M unit :=
  let z := randn E idx in
  emit (EReadVideo idx) ;;;
  vframes_m <- from_option (read_video E idx) FileNotFoundError ;;
  let total_frames := Z.of_nat (List.length vframes_m) in
  let '(start_frame_ind, end_frame_ind) :=
    temporal_sample E (num_frames a * frame_interval a) total_frames in
  (if end_frame_ind - start_frame_ind >=? num_frames a
   then ret tt else raise AssertionError) ;;;
  let video_m :=
    select_frames E vframes_m start_frame_ind (end_frame_ind - 1)
      (num_frames a) in
  let c := video_m in
  emit (EVaeEncode c) ;;;
  let c := tensor_mul (vae_encode E c) latent_scale in
  g <- setup_guidance idx z c ;;
  let '(z, kw, fn) := g in
  bound <- run_sample_method fn z kw ;;
  samples <- from_option bound (UnboundLocalError "samples") ;;
  emit (EPrint "samples.shape") ;;;
  emit (EVaeDecode (tensor_div samples latent_scale)) ;;;
  let samples := vae_decode E (tensor_div samples latent_scale) in
  when (negb (path_exists E (save_video_path a)))
    (emit (EMakedirs (save_video_path a))) ;;;
  emit (EPrint "samples.shape !!!") ;;;
  let video_ := to_uint8 E samples in
  emit (EPrint "video_save_path") ;;;
  emit (EWriteVideo (save_video_path a) idx video_) ;;;
  emit (EPrint "save path").

(** Lines 70-197. *)
Definition main : M unit :=
  match ckpt a with
  | None =>
      emit (EPrint "ckpt Path Not available") ;;;
      exit_with (-1)
  | Some path =>
      let latent_size := image_size a / 8 in
      emit (EPrint (model a)) ;;;
      emit (EGetModels latent_size) ;;;
      when (use_compile a) (emit ECompile) ;;;
      emit (ETorchLoad path) ;;;
      states <- from_option (torch_load E path) FileNotFoundError ;;
      (if existsb (String.eqb "ema") states
       then ret tt else raise (KeyError "ema")) ;;;
      emit ELoadStateDict ;;;
      emit (ECreateDiffusion (num_sampling_steps a)) ;;;
      emit (EVaeFromPretrained "stabilityai/sd-vae-ft-ema") ;;;
      when (use_fp16 a)
        (emit (EPrint "WARNING: using half percision for inferencing!") ;;;
         emit EToHalf) ;;;
      for_each (range 1 17) sample_clip
  end.

End Main.

(** Lines 200-210: the command line.  [--ckpt] and [--save_video_path]
    are string options with string defaults; the parsed values overwrite
    the fields of the loaded config. *)
Definition default_ckpt : string := "".
Definition default_save_video_path : string := "/home/work/polypgen/".

Definition with_cli (conf : args) (ckpt_flag save_flag : option string)
  : args :=
  {| ckpt := Some (match ckpt_flag with Some p => p | None => default_ckpt end);
     cfg_scale := cfg_scale conf;
     image_size := image_size conf;
     model := model conf;
     use_compile := use_compile conf;
     use_fp16 := use_fp16 conf;
     num_sampling_steps := num_sampling_steps conf;
     num_frames := num_frames conf;
     frame_interval := frame_interval conf;
     num_classes := num_classes conf;
     sample_method := sample_method conf;
     save_video_path :=
       match save_flag with
       | Some p => p
       | None => default_save_video_path
       end |}.

Definition script (E : env) (conf : args)
    (ckpt_flag save_flag : option string) : M unit :=
  main E (with_cli conf ckpt_flag save_flag).

End SampleCond.

(** * [train_cond.py] *)
Module TrainCond.

(** ** Python dicts with string keys, in insertion order *)
Section Dict.

Context {V : Type}.

Definition dict : Type := list (string * V).

Definition keys (d : dict) : list string := map fst d.

(** [k in d] *)
Definition dict_mem (k : string) (d : dict) : bool :=
  existsb (String.eqb k) (keys d).

(** [d[k]] *)
Fixpoint dict_get (k : string) (d : dict) : option V :=
  match d with
  | [] => None
  | (k', v) :: rest => if String.eqb k k' then Some v else dict_get k rest
  end.

(** [d[k] = v]: an existing key keeps its place, a new one goes last. *)
Fixpoint dict_set (k : string) (v : V) (d : dict) : dict :=
  match d with
  | [] => [(k, v)]
  | (k', v') :: rest =>
      if String.eqb k k' then (k', v) :: rest
      else (k', v') :: dict_set k v rest
  end.

(** [d.update(upd)] *)
Definition dict_update (d upd : dict) : dict :=
  fold_left (fun acc kv => dict_set (fst kv) (snd kv) acc) upd d.

End Dict.

Arguments dict : clear implicits.

(** A parameter tensor of a state dict. *)
Record param : Type := { p_shape : list Z; p_data : tensor }.

(** What [torch.load] may hand back under a key: a tensor, or a nested
    mapping such as the ["ema"] entry written by this script. *)
Inductive pyval : Type :=
| PTensor (p : param)
| PDict (d : dict param).

Definition state_dict : Type := dict param.

Definition lift_state_dict (d : state_dict) : dict pyval :=
  map (fun kv => (fst kv, PTensor (snd kv))) d.

Definition list_Z_eqb (xs ys : list Z) : bool :=
  if list_eq_dec Z.eq_dec xs ys then true else false.

(** The config object handed to [main], with the command-line values. *)
Record args : Type := {
  pretrained : option string;
  resume_from_checkpoint : option string;
  extras : Z;
  use_image_num : Z;
  start_clip_iter : Z;
  log_every : Z;
  ckpt_every : Z;
  max_train_steps : Z;
  mode : string;
  prr_weight : float
}.

(** Python truthiness of an optional string. *)
Definition truthy (o : option string) : option string :=
  match o with
  | Some s => if String.eqb s "" then None else Some s
  | None => None
  end.

(** A tensor whose leading dimension is the batch. *)
Record batched : Type := { dim0 : Z; flat : tensor }.

Record video_data : Type := {
  video : batched;
  video_mask : batched;
  video_name : list string
}.

Record model_kwargs : Type := {
  kw_y : option (list string);
  kw_use_image_num : option Z;
  kw_attentions : list tensor;
  kw_special_list : list Z;
  kw_mode : string;
  kw_y_image : option batched
}.

(** The dict returned by [diffusion.training_losses]. *)
Record loss_dict : Type := {
  ld_loss : tensor;
  ld_prr : float;
  ld_mse : tensor;
  ld_vb : tensor
}.

Inductive log_msg : Type :=
| UsingEma
| Ignoring (k : string)
| LoadedPercent (kept total : Z)
| LoadedModel (path : string)
| Resuming
| StepSummary (train_steps epoch : Z) (avg_loss : float)
| SavedCheckpoint (train_steps : Z)
| Done.

Inductive event : Type :=
| ELog (m : log_msg)
| ETorchLoad (path : string)
| ELoadStateDict (d : dict pyval)
| ESetEpoch (epoch : Z)
| EDinoLayers (special_list : list Z)
| EVaeEncode (x : tensor)
| ETrainingLosses (x : batched) (t : list Z) (kw : model_kwargs)
| EBackward (loss : float)
| EClipGradNorm (clip_grad : bool)
| EOptStep
| ELrStep
| EZeroGrad
| EUpdateEma
| ESynchronize
| EAllReduce (avg_loss : float)
| ESave (train_steps : Z) (checkpoint : dict state_dict)
| EBarrier.

(** What the collaborators answer.  A [None] is the call raising. *)
Record env : Type := {
  (* [torch.load] *)
  torch_load : string -> option (dict pyval);
  (* the rank the process runs as, read from the environment *)
  rank : Z;
  (* [diffusion.num_timesteps] *)
  num_timesteps : Z;
  (* [len(loader)] and the batches of an epoch *)
  loader_len : nat;
  loader : Z -> list video_data;
  (* [dino.get_special_layers] on the cropped frames *)
  dino_layers : tensor -> list Z -> list tensor;
  (* [vae.encode(x).latent_dist.sample()] *)
  vae_encode : tensor -> tensor;
  (* which of the equally likely outcomes of [torch.randint] is drawn
     at a given optimizer step *)
  rng : Z -> nat;
  (* [diffusion.training_losses(model, x, t, model_kwargs)] *)
  training_losses : batched -> list Z -> model_kwargs -> loss_dict;
  (* [ema.state_dict()] once so many optimizer steps have been taken *)
  ema_state_dict : Z -> state_dict
}.

Definition M : Type -> Type := prog event.

Local Open Scope prog_scope.
Local Open Scope string_scope.

(** ** Loading a pretrained checkpoint (lines 115-134) *)

(** [model.load_state_dict(d)], strict: the keys are those of the live
    model, every value is a tensor of the live shape. *)
Definition loadable (live : state_dict) (d : dict pyval) : bool :=
  (if list_eq_dec string_dec (keys d) (keys live) then true else false)
  && forallb (fun kv =>
                match snd kv, dict_get (fst kv) live with
                | PTensor p, Some q => list_Z_eqb (p_shape p) (p_shape q)
                | _, _ => false
                end) d.

Definition load_state_dict (live : state_dict) (d : dict pyval)
  : M state_dict :=
  emit (ELoadStateDict d) ;;;
  if loadable live d then
    ret (map (fun kv => (fst kv,
                         match snd kv with
                         | PTensor p => p
                         | PDict _ => {| p_shape := []; p_data := [] |}
                         end)) d)
  else raise (RuntimeError "load_state_dict").

(** Lines 123-128: the filtering loop, with its log lines. *)
Fixpoint filter_keys (model_dict : dict pyval) (items : dict pyval)
    (pretrained_dict : dict pyval) : M (dict pyval) :=
  match items with
  | [] => ret pretrained_dict
  | (k, v) :: rest =>
      if dict_mem k model_dict then
        filter_keys model_dict rest (dict_set k v pretrained_dict)
      else
        emit (ELog (Ignoring k)) ;;;
        filter_keys model_dict rest pretrained_dict
  end.

(** The items of the mapping kept in [checkpoint] after line 119. *)
Definition unwrap_ema (checkpoint : dict pyval) : M (dict pyval) :=
  if dict_mem "ema" checkpoint then
    emit (ELog UsingEma) ;;;
    match dict_get "ema" checkpoint with
    | Some (PDict d) => ret (lift_state_dict d)
    | _ => raise (AttributeError "items")
    end
  else ret checkpoint.

Definition load_pretrained (E : env) (a : args) (live : state_dict)
  : M state_dict :=
  match truthy (pretrained a) with
  | None => ret live
  | Some path =>
      emit (ETorchLoad path) ;;;
      checkpoint <- from_option (torch_load E path) FileNotFoundError ;;
      checkpoint <- unwrap_ema checkpoint ;;
      let model_dict := lift_state_dict live in
      pretrained_dict <- filter_keys model_dict checkpoint [] ;;
      (if (Z.of_nat (List.length checkpoint) =? 0)%Z
       then raise ZeroDivisionError
       else emit (ELog (LoadedPercent
                          (Z.of_nat (List.length pretrained_dict))
                          (Z.of_nat (List.length checkpoint))))) ;;;
      let model_dict := dict_update model_dict pretrained_dict in
      live' <- load_state_dict live model_dict ;;
      emit (ELog (LoadedModel path)) ;;;
      ret live'
  end.


(** ** Resuming (lines 204-224) *)

(** The loop counters the script keeps in local variables. *)
Record state : Type := {
  train_steps : Z;
  log_steps : Z;
  running_loss : float
}.

Record schedule : Type := {
  first_epoch : Z;
  num_train_epochs : Z
}.

(** [math.ceil(m / n)] for a positive [n]. *)
Definition ceil_div (m n : Z) : Z := - ((- m) / n).

Definition resumed_train_steps : Z := 20000.

Definition resume_setup (E : env) (a : args) (live : state_dict)
  : M (state * schedule * state_dict) :=
  let num_update_steps_per_epoch := Z.of_nat (loader_len E) in
  (if (num_update_steps_per_epoch =? 0)%Z
   then raise ZeroDivisionError else ret tt) ;;;
  let num_train_epochs :=
    ceil_div (max_train_steps a) num_update_steps_per_epoch in
  match truthy (resume_from_checkpoint a) with
  | Some path =>
      emit (ELog Resuming) ;;;
      emit (ETorchLoad path) ;;;
      states <- from_option (torch_load E path) FileNotFoundError ;;
      ema <- from_option (dict_get "ema" states) (KeyError "ema") ;;
      live' <- match ema with
               | PDict d => load_state_dict live (lift_state_dict d)
               | PTensor _ => raise (AttributeError "keys")
               end ;;
      let train_steps := resumed_train_steps in
      let first_epoch := train_steps / num_update_steps_per_epoch in
      ret ({| train_steps := train_steps; log_steps := 0;
              running_loss := PyFloat.of_Z 0 |},
           {| first_epoch := first_epoch;
              num_train_epochs := num_train_epochs |},
           live')
  | None =>
      ret ({| train_steps := 0; log_steps := 0;
              running_loss := PyFloat.of_Z 0 |},
           {| first_epoch := 0; num_train_epochs := num_train_epochs |},
           live)
  end.

(** ** [torch.randint(low, high, (size,))]

    The call draws each of the [size] entries uniformly from
    [low .. high-1], independently.  The equally likely outcomes are
    listed; the environment says which one comes out. *)
Fixpoint vectors (vals : list Z) (size : nat) : list (list Z) :=
  match size with
  | O => [[]]
  | S size' =>
      flat_map (fun v => map (cons v) (vectors vals size')) vals
  end.

Definition randint_outcomes (low high : Z) (size : nat) : list (list Z) :=
  vectors (range low high) size.

Definition randint (E : env) (step : Z) (low high : Z) (size : nat)
  : M (list Z) :=
  let outcomes := randint_outcomes low high size in
  if (high <=? low)%Z then raise (RuntimeError "randint")
  else from_option
         (nth_error outcomes (rng E step mod List.length outcomes)%nat)
         (RuntimeError "randint").

(** ** One optimizer step (lines 228-327) *)

Definition special_list : list Z := [2; 5; 8; 11].

Definition tensor_sum (x : tensor) : float :=
  fold_left PyFloat.add x (PyFloat.of_Z 0).

(** [x.mean()] *)
Definition tensor_mean (x : tensor) : float :=
  PyFloat.div (tensor_sum x) (PyFloat.of_Z (Z.of_nat (List.length x))).

(** Lines 277-282. *)
Definition total_loss (a : args) (ld : loss_dict) : float :=
  let loss_mse := tensor_mean (ld_loss ld) in
  let loss_prr := ld_prr ld in
  if PyFloat.neqb loss_prr PyFloat.minus_one then
    PyFloat.add loss_mse (PyFloat.mul (prr_weight a) loss_prr)
  else
    loss_mse.

(** Lines 254-262: map a pixel batch to the latent space. *)
Definition encode_latent (E : env) (x : batched) : M batched :=
  emit (EVaeEncode (flat x)) ;;;
  ret {| dim0 := dim0 x;
         flat := tensor_mul (vae_encode E (flat x)) latent_scale |}.

(** Lines 299-315.  The wall clock is not modelled: [steps_per_sec] is
    left out of the log line. *)
Definition log_phase (a : args) (epoch : Z) (st : state) : M state :=
  if (log_every a =? 0)%Z then raise ZeroDivisionError
  else if (train_steps st mod log_every a =? 0)%Z then
    emit ESynchronize ;;;
    let avg_loss :=
      PyFloat.div (running_loss st) (PyFloat.of_Z (log_steps st)) in
    emit (EAllReduce avg_loss) ;;;
    emit (ELog (StepSummary (train_steps st) epoch avg_loss)) ;;;
    ret {| train_steps := train_steps st; log_steps := 0;
           running_loss := PyFloat.of_Z 0 |}
  else ret st.

(** Lines 318-327. *)
Definition checkpoint_phase (E : env) (a : args) (st : state) : M unit :=
  if (ckpt_every a =? 0)%Z then raise ZeroDivisionError
  else
    when ((train_steps st mod ckpt_every a =? 0)%Z
          && (train_steps st >? 0)%Z)
      (when (rank E =? 0)%Z
         (let checkpoint := [("ema", ema_state_dict E (train_steps st))] in
          emit (ESave (train_steps st) checkpoint) ;;;
          emit (ELog (SavedCheckpoint (train_steps st)))) ;;;
       emit EBarrier).

Definition train_step (E : env) (a : args) (epoch : Z) (st : state)
    (vd : video_data) : M state :=
  let x := video vd in
  emit (EDinoLayers special_list) ;;;
  let attentions := dino_layers E (flat x) special_list in
  x <- encode_latent E x ;;
  c <- (if (extras a =? 3)%Z
        then c <- encode_latent E (video_mask vd) ;; ret (Some c)
        else ret None) ;;
  let model_kwargs :=
    {| kw_y := if (extras a =? 2)%Z then Some (video_name vd) else None;
       kw_use_image_num :=
         if (extras a =? 2)%Z then None else Some (use_image_num a);
       kw_attentions := attentions;
       kw_special_list := special_list;
       kw_mode := mode a;
       kw_y_image := c |} in
  t <- randint E (train_steps st) 0 (num_timesteps E)
         (Z.to_nat (dim0 x)) ;;
  emit (ETrainingLosses x t model_kwargs) ;;;
  let loss_dict := training_losses E x t model_kwargs in
  let loss := total_loss a loss_dict in
  emit (EBackward loss) ;;;
  emit (EClipGradNorm (negb (train_steps st <? start_clip_iter a)%Z)) ;;;
  emit EOptStep ;;;
  emit ELrStep ;;;
  emit EZeroGrad ;;;
  emit EUpdateEma ;;;
  let st := {| train_steps := train_steps st + 1;
               log_steps := log_steps st + 1;
               running_loss := PyFloat.add (running_loss st) loss |} in
  st <- log_phase a epoch st ;;
  checkpoint_phase E a st ;;;
  ret st.

(** Lines 226-228: the two nested loops. *)
Fixpoint run_batches (E : env) (a : args) (epoch : Z)
    (batches : list video_data) (st : state) : M state :=
  match batches with
  | [] => ret st
  | vd :: rest =>
      st <- train_step E a epoch st vd ;;
      run_batches E a epoch rest st
  end.

Fixpoint run_epochs (E : env) (a : args) (epochs : list Z) (st : state)
  : M state :=
  match epochs with
  | [] => ret st
  | epoch :: rest =>
      emit (ESetEpoch epoch) ;;;
      st <- run_batches E a epoch (loader E epoch) st ;;
      run_epochs E a rest st
  end.

(** Lines 115-333 of [main], from the pretrained load on.  The wrapping
    of the model, the optimizer, the data loader and the scheduler (lines
    136-201) are set up by collaborators and leave no event. *)
Definition main (E : env) (a : args) (live : state_dict) : M state :=
  live <- load_pretrained E a live ;;
  r <- resume_setup E a live ;;
  let '(st, sch, _) := r in
  st <- run_epochs E a (range (first_epoch sch) (num_train_epochs sch)) st ;;
  emit (ELog Done) ;;;
  ret st.

End TrainCond.

(** * Concrete runs *)
Module Demo.

Local Open Scope string_scope.

Definition sample_env : SampleCond.env :=
  {| SampleCond.torch_load :=
       fun path => if String.eqb path "ema.pt" then Some ["ema"] else None;
     SampleCond.randn := fun idx => [PyFloat.of_Z idx];
     SampleCond.randint := fun _ _ => 7;
     SampleCond.read_video :=
       fun _ => Some [[PyFloat.one]; [PyFloat.one]];
     SampleCond.temporal_sample := fun _ total => (0, total);
     SampleCond.select_frames := fun frames _ _ _ => tensor_cat frames;
     SampleCond.vae_encode := fun x => x;
     SampleCond.vae_decode := fun x => x;
     SampleCond.run_sampler := fun _ _ z _ _ => z;
     SampleCond.to_uint8 := fun x => x;
     SampleCond.path_exists := fun _ => true |}.

(** An encoder that answers with unit latents and a sampler that hands
    back its conditioning latent. *)
Definition unit_env : SampleCond.env :=
  {| SampleCond.torch_load := SampleCond.torch_load sample_env;
     SampleCond.randn := SampleCond.randn sample_env;
     SampleCond.randint := SampleCond.randint sample_env;
     SampleCond.read_video := SampleCond.read_video sample_env;
     SampleCond.temporal_sample := SampleCond.temporal_sample sample_env;
     SampleCond.select_frames := SampleCond.select_frames sample_env;
     SampleCond.vae_encode := fun x => map (fun _ => PyFloat.one) x;
     SampleCond.vae_decode := SampleCond.vae_decode sample_env;
     SampleCond.run_sampler := fun _ _ _ _ kw => SampleCond.kw_y_image kw;
     SampleCond.to_uint8 := SampleCond.to_uint8 sample_env;
     SampleCond.path_exists := SampleCond.path_exists sample_env |}.

Definition sample_args (scale : float) (method : string)
  : SampleCond.args :=
  {| SampleCond.ckpt := Some "ema.pt";
     SampleCond.cfg_scale := scale;
     SampleCond.image_size := 256;
     SampleCond.model := "EnDora-XL/2";
     SampleCond.use_compile := false;
     SampleCond.use_fp16 := false;
     SampleCond.num_sampling_steps := 250;
     SampleCond.num_frames := 2;
     SampleCond.frame_interval := 1;
     SampleCond.num_classes := 101;
     SampleCond.sample_method := method;
     SampleCond.save_video_path := "out/" |}.

End Demo.

(** * Specification predicates over traces *)
Module SampleSpec.

Import SampleCond.
Local Open Scope string_scope.

Definition method_name (s : sampler) : string :=
  match s with
  | ddim_sample_loop => "ddim"
  | p_sample_loop => "ddpm"
  end.

(** Everything the driver fixes about a sampler call and a decode. *)
Definition clip_event_ok (E : env) (a : args) (e : event) : Prop :=
  match e with
  | ESampleLoop s fn z clip_denoised kw =>
      clip_denoised = false
      /\ sample_method a = method_name s
      /\ exists idx c,
           kw_y_image kw = tensor_mul (vae_encode E c) latent_scale
           /\ kw_use_fp16 kw = use_fp16 a
           /\ if PyFloat.gtb (cfg_scale a) PyFloat.one then
                fn = forward_with_cfg
                /\ kw_cfg_scale kw = Some (cfg_scale a)
                /\ z = tensor_cat [randn E idx; kw_y_image kw]
                /\ kw_y kw = Some [randint E idx (num_classes a); 101]
              else
                fn = forward
                /\ kw_cfg_scale kw = None
                /\ kw_y kw = None
                /\ z = randn E idx
  | EVaeDecode x => exists samples, x = tensor_div samples latent_scale
  | _ => True
  end.




(** A sampler loop is entered only for its own method name, and never
    asked to clip. *)
Definition no_clipping (a : args) (e : event) : Prop :=
  match e with
  | ESampleLoop s _ _ clip_denoised _ =>
      clip_denoised = false /\ sample_method a = method_name s
  | _ => True
  end.

Definition is_sample_loop (e : event) : bool :=
  match e with
  | ESampleLoop _ _ _ _ _ => true
  | _ => false
  end.

Definition is_output (e : event) : bool :=
  match e with
  | EWriteVideo _ _ _ => true
  | _ => false
  end.






Definition is_decode (e : event) : bool :=
  match e with
  | EVaeDecode _ => true
  | _ => false
  end.

End SampleSpec.
Module TrainSpec.

Import TrainCond.
Local Open Scope string_scope.

Definition is_training_losses (e : event) : bool :=
  match e with
  | ETrainingLosses _ _ _ => true
  | _ => false
  end.

Definition is_loss_event (e : event) : bool :=
  match e with
  | ETrainingLosses _ _ _ | EBackward _ => true
  | _ => false
  end.

Definition is_save (e : event) : bool :=
  match e with
  | ESave _ _ => true
  | _ => false
  end.

(** The events of the set-up and of the loop headers. *)
Definition is_setup (e : event) : bool :=
  match e with
  | ELog _ | ETorchLoad _ | ELoadStateDict _ | ESetEpoch _ => true
  | _ => false
  end.

(** What a checkpoint write looks like: rank 0, a positive step count
    that [ckpt_every] divides, the one key ["ema"]. *)
Definition save_ok (E : env) (a : args) (e : event) : Prop :=
  match e with
  | ESave n checkpoint =>
      rank E = 0
      /\ 0 < n
      /\ n mod ckpt_every a = 0
      /\ checkpoint = [("ema", ema_state_dict E n)]
  | _ => True
  end.






(** The latent and the keyword arguments one step hands to the loss. *)
Definition step_latent (E : env) (x : batched) : batched :=
  {| dim0 := dim0 x;
     flat := tensor_mul (vae_encode E (flat x)) latent_scale |}.

Definition step_kwargs (E : env) (a : args) (vd : video_data)
  : model_kwargs :=
  {| kw_y := if (extras a =? 2)%Z then Some (video_name vd) else None;
     kw_use_image_num :=
       if (extras a =? 2)%Z then None else Some (use_image_num a);
     kw_attentions := dino_layers E (flat (video vd)) special_list;
     kw_special_list := special_list;
     kw_mode := mode a;
     kw_y_image :=
       if (extras a =? 3)%Z then Some (step_latent E (video_mask vd))
       else None |}.



(** The timestep vectors handed to the loss, call by call. *)
Fixpoint timesteps_of (t : list event) : list (list Z) :=
  match t with
  | [] => []
  | ETrainingLosses _ ts _ :: rest => ts :: timesteps_of rest
  | _ :: rest => timesteps_of rest
  end.

(** The environment with the random generator in state [r]. *)
Definition reseed (E : env) (r : nat) : env :=
  {| torch_load := torch_load E;
     rank := rank E;
     num_timesteps := num_timesteps E;
     loader_len := loader_len E;
     loader := loader E;
     dino_layers := dino_layers E;
     vae_encode := vae_encode E;
     rng := fun _ => r;
     training_losses := training_losses E;
     ema_state_dict := ema_state_dict E |}.

Definition timesteps_eqb (u v : list (list Z)) : bool :=
  if list_eq_dec (list_eq_dec Z.eq_dec) u v then true else false.

(** Among the generator states [0 .. n-1], those in which the step draws
    the vector [v]. *)
Definition seeds_drawing (E : env) (a : args) (epoch : Z) (st : state)
    (vd : video_data) (n : nat) (v : list Z) : list nat :=
  filter (fun r =>
            timesteps_eqb
              (timesteps_of (trace (train_step (reseed E r) a epoch st vd)))
              [v])
    (seq 0 n).

(** The test that entry [i] of a vector is [k]. *)
Definition entry_is (i : nat) (k : Z) (v : list Z) : bool :=
  match nth_error v i with
  | Some ti => (ti =? k)%Z
  | None => false
  end.

(** Among the generator states [0 .. n-1], those in which the step draws
    [k] for batch element [i]. *)
Definition seeds_with_entry (E : env) (a : args) (epoch : Z) (st : state)
    (vd : video_data) (n : nat) (i : nat) (k : Z) : list nat :=
  filter (fun r =>
            match timesteps_of
                    (trace (train_step (reseed E r) a epoch st vd)) with
            | [ts] => entry_is i k ts
            | _ => false
            end)
    (seq 0 n).

End TrainSpec.

Module TrainDemo.

Import TrainCond.
Local Open Scope string_scope.

Definition weight : param :=
  {| p_shape := [1]; p_data := [PyFloat.one] |}.

Definition live : state_dict := [("w", weight)].

Definition clip : batched :=
  {| dim0 := 2; flat := [PyFloat.one; PyFloat.one] |}.

Definition batch : video_data :=
  {| video := clip; video_mask := clip; video_name := ["a"; "b"] |}.

Definition losses (prr : float) : loss_dict :=
  {| ld_loss := [PyFloat.one; PyFloat.of_Z 3];
     ld_prr := prr;
     ld_mse := [PyFloat.one; PyFloat.of_Z 3];
     ld_vb := [] |}.

Definition train_env (r : Z) (prr : float) : env :=
  {| torch_load :=
       fun path =>
         if String.eqb path "empty.pt" then Some []
         else if String.eqb path "ema.pt"
              then Some [("ema", PDict [("w", weight)])]
              else None;
     rank := r;
     num_timesteps := 4;
     loader_len := 3;
     loader := fun _ => [batch; batch; batch];
     dino_layers := fun _ _ => [];
     vae_encode := fun x => x;
     rng := fun step => Z.to_nat step;
     training_losses := fun _ _ _ => losses prr;
     ema_state_dict := fun _ => live |}.

Definition train_args (pre resume : option string) : args :=
  {| pretrained := pre;
     resume_from_checkpoint := resume;
     extras := 3;
     use_image_num := 0;
     start_clip_iter := 100;
     log_every := 2;
     ckpt_every := 2;
     max_train_steps := 6;
     mode := "type_cnn";
     prr_weight := PyFloat.decimal 1 1 |}.

Definition start : state :=
  {| train_steps := 0; log_steps := 0; running_loss := PyFloat.of_Z 0 |}.

End TrainDemo.

(** * Further predicates and inputs for the sampling driver *)
Module SampleRuns.

Import SampleCond.
Local Open Scope string_scope.

(** The directory and clip index of a written video. *)
Definition written_clip (e : event) : option (string * Z) :=
  match e with
  | EWriteVideo dir idx _ => Some (dir, idx)
  | _ => None
  end.

Fixpoint written (t : list event) : list (string * Z) :=
  match t with
  | [] => []
  | e :: rest =>
      match written_clip e with
      | Some w => w :: written rest
      | None => written rest
      end
  end.

(** The events that move data: everything but messages and the creation
    of the output directory. *)
Definition is_pipeline (e : event) : bool :=
  match e with
  | EPrint _ | EMakedirs _ => false
  | _ => true
  end.

(** The events of one clip, as opposed to those of the set-up. *)
Definition is_clip_work (e : event) : bool :=
  match e with
  | EReadVideo _ | EVaeEncode _ | ESampleLoop _ _ _ _ _ | EVaeDecode _
  | EWriteVideo _ _ _ => true
  | _ => false
  end.

(** The set-up of lines 96-120, as events. *)
Definition prelude (a : args) (path : string) : list event :=
  [EPrint (model a); EGetModels (image_size a / 8)]
  ++ (if use_compile a then [ECompile] else [])
  ++ [ETorchLoad path; ELoadStateDict;
      ECreateDiffusion (num_sampling_steps a);
      EVaeFromPretrained "stabilityai/sd-vae-ft-ema"]
  ++ (if use_fp16 a
      then [EPrint "WARNING: using half percision for inferencing!"; EToHalf]
      else []).

(** An environment whose mask clips from [missing] on cannot be read. *)
Definition env_missing_from (missing : Z) : env :=
  {| torch_load := torch_load Demo.sample_env;
     randn := randn Demo.sample_env;
     randint := randint Demo.sample_env;
     read_video :=
       fun idx => if (idx <? missing)%Z then read_video Demo.sample_env idx
                  else None;
     temporal_sample := temporal_sample Demo.sample_env;
     select_frames := select_frames Demo.sample_env;
     vae_encode := vae_encode Demo.sample_env;
     vae_decode := vae_decode Demo.sample_env;
     run_sampler := run_sampler Demo.sample_env;
     to_uint8 := to_uint8 Demo.sample_env;
     path_exists := path_exists Demo.sample_env |}.

(** An environment whose crop comes out one frame long. *)
Definition env_short_crop : env :=
  {| torch_load := torch_load Demo.sample_env;
     randn := randn Demo.sample_env;
     randint := randint Demo.sample_env;
     read_video := read_video Demo.sample_env;
     temporal_sample := fun _ _ => (0, 1);
     select_frames := select_frames Demo.sample_env;
     vae_encode := vae_encode Demo.sample_env;
     vae_decode := vae_decode Demo.sample_env;
     run_sampler := run_sampler Demo.sample_env;
     to_uint8 := to_uint8 Demo.sample_env;
     path_exists := path_exists Demo.sample_env |}.

(** The demo arguments with another checkpoint path. *)
Definition args_with_ckpt (path : string) : args :=
  {| ckpt := Some path;
     cfg_scale := PyFloat.one;
     image_size := 256;
     model := "EnDora-XL/2";
     use_compile := false;
     use_fp16 := false;
     num_sampling_steps := 250;
     num_frames := 2;
     frame_interval := 1;
     num_classes := 101;
     sample_method := "ddim";
     save_video_path := "out/" |}.

(** An environment whose checkpoint file lacks the ["ema"] entry. *)
Definition env_no_ema : env :=
  {| torch_load := fun _ => Some ["model"; "opt"];
     randn := randn Demo.sample_env;
     randint := randint Demo.sample_env;
     read_video := read_video Demo.sample_env;
     temporal_sample := temporal_sample Demo.sample_env;
     select_frames := select_frames Demo.sample_env;
     vae_encode := vae_encode Demo.sample_env;
     vae_decode := vae_decode Demo.sample_env;
     run_sampler := run_sampler Demo.sample_env;
     to_uint8 := to_uint8 Demo.sample_env;
     path_exists := path_exists Demo.sample_env |}.

End SampleRuns.

(** * Further predicates and inputs for the training driver *)
Module TrainRuns.

Import TrainCond.
Local Open Scope string_scope.
Local Open Scope list_scope.

Definition is_optimizer (e : event) : bool :=
  match e with
  | EBackward _ | EClipGradNorm _ | EOptStep | ELrStep | EZeroGrad
  | EUpdateEma => true
  | _ => false
  end.

Definition is_encode (e : event) : bool :=
  match e with
  | EVaeEncode _ => true
  | _ => false
  end.

Definition is_barrier (e : event) : bool :=
  match e with
  | EBarrier => true
  | _ => false
  end.

(** The step counts of the checkpoints written, in order. *)
Fixpoint saved_steps (t : list event) : list Z :=
  match t with
  | [] => []
  | ESave n _ :: rest => n :: saved_steps rest
  | _ :: rest => saved_steps rest
  end.

(** The test of line 318 on a step count. *)
Definition due (a : args) (n : Z) : bool :=
  ((n mod ckpt_every a =? 0) && (n >? 0))%Z.

(** The step counts [s+1 .. s+k]. *)
Definition steps_after (s : Z) (k : nat) : list Z :=
  map (fun i => (s + Z.of_nat i)%Z) (seq 1 k).




(** The counters after the optimizer step, before the log phase. *)
Definition stepped (st : state) (loss : float) : state :=
  {| train_steps := train_steps st + 1;
     log_steps := log_steps st + 1;
     running_loss := PyFloat.add (running_loss st) loss |}.

(** The demo arguments with other intervals. *)
Definition args_with_intervals (log ckpt : Z) : args :=
  {| pretrained := None;
     resume_from_checkpoint := None;
     extras := 3;
     use_image_num := 0;
     start_clip_iter := 2;
     log_every := log;
     ckpt_every := ckpt;
     max_train_steps := 6;
     mode := "type_cnn";
     prr_weight := PyFloat.decimal 1 1 |}.

(** Two more parameters: a bias of another shape, and a weight of the
    demo weight's shape with another value. *)
Definition bias : param :=
  {| p_shape := [2]; p_data := [PyFloat.of_Z 0; PyFloat.of_Z 0] |}.

Definition stale : param :=
  {| p_shape := [1]; p_data := [PyFloat.of_Z 7] |}.

(** The demo collaborators with a loader that yields no batch. *)
Definition empty_loader_env : env :=
  {| torch_load := torch_load (TrainDemo.train_env 0 PyFloat.minus_one);
     rank := 0;
     num_timesteps := 4;
     loader_len := 0;
     loader := fun _ => [];
     dino_layers := dino_layers (TrainDemo.train_env 0 PyFloat.minus_one);
     vae_encode := vae_encode (TrainDemo.train_env 0 PyFloat.minus_one);
     rng := rng (TrainDemo.train_env 0 PyFloat.minus_one);
     training_losses :=
       training_losses (TrainDemo.train_env 0 PyFloat.minus_one);
     ema_state_dict :=
       ema_state_dict (TrainDemo.train_env 0 PyFloat.minus_one) |}.

End TrainRuns.

(** * [load_model], the loader of the frozen feature extractor

    The function is the same in both scripts (lines 43-64 of
    [train_cond.py], lines 47-68 of [sample/sample_cond.py]). *)
Module LoadModel.

Import TrainCond.
Local Open Scope string_scope.

(** [s.replace(old, "")]: the occurrences of [old] are cut out from left
    to right, without overlap.  [skip] counts the characters of the
    occurrence being cut that are still to drop. *)
Fixpoint remove_from (old : string) (skip : nat) (s : string) : string :=
  match s with
  | EmptyString => EmptyString
  | String c rest =>
      match skip with
      | S n => remove_from old n rest
      | O =>
          if String.prefix old s
          then remove_from old (String.length old - 1) rest
          else String c (remove_from old 0 rest)
      end
  end.

Definition remove_all (old s : string) : string :=
  match old with
  | EmptyString => s
  | String _ _ => remove_from old 0 s
  end.

(** [old in s] *)
Fixpoint occurs (old s : string) : bool :=
  String.prefix old s
  || match s with
     | EmptyString => false
     | String _ rest => occurs old rest
     end.

(** [s.find(old)] *)
Fixpoint find (old s : string) : option nat :=
  if String.prefix old s then Some 0%nat
  else match s with
       | EmptyString => None
       | String _ rest => option_map S (find old rest)
       end.

(** [{f(k): v for k, v in d.items()}] *)
Definition rename_with {V : Type} (f : string -> string) (d : dict V)
  : dict V :=
  fold_left (fun acc kv => dict_set (f (fst kv)) (snd kv) acc) d [].

(** Lines 54-56: the two renaming passes. *)
Definition rename_keys {V : Type} (d : dict V) : dict V :=
  rename_with (remove_all "backbone.") (rename_with (remove_all "module.") d).

(** What the two passes make of one key. *)
Definition rename_key (k : string) : string :=
  remove_all "backbone." (remove_all "module." k).

(** The message of [load_state_dict(..., strict=False)]. *)
Record incompatible_keys : Type := {
  missing_keys : list string;
  unexpected_keys : list string
}.

Inductive event : Type :=
| EVitSmall (patch_size num_classes : Z)
| EFreeze
| EEval
| ETo
| ETorchLoad (path : string)
| ELoadStateDict (d : state_dict)
| EPrint (path : string) (msg : incompatible_keys).

Definition M : Type -> Type := prog event.

Local Open Scope prog_scope.

(** [model.load_state_dict(d, strict=False)]: a key of one side only is
    reported, a shared key must carry a tensor of the live shape. *)
Definition fits (live d : state_dict) : bool :=
  forallb (fun kv =>
             match dict_get (fst kv) live with
             | Some q => list_Z_eqb (p_shape (snd kv)) (p_shape q)
             | None => true
             end) d.

Definition load_state_dict_lenient (live d : state_dict)
  : M (state_dict * incompatible_keys) :=
  emit (ELoadStateDict d) ;;;
  if fits live d then
    ret (map (fun kv => (fst kv,
                         match dict_get (fst kv) d with
                         | Some p => p
                         | None => snd kv
                         end)) live,
         {| missing_keys :=
              filter (fun k => negb (dict_mem k d)) (keys live);
            unexpected_keys :=
              filter (fun k => negb (dict_mem k live)) (keys d) |})
  else raise (RuntimeError "load_state_dict").

(** Lines 43-64; [fresh] is the state dict of the new ViT and
    [torch_load] the file system. *)
Definition load_model (torch_load : string -> option state_dict)
    (fresh : state_dict) (pretrained_path : string) : M state_dict :=
  emit (EVitSmall 8 0) ;;;
  emit EFreeze ;;;
  emit EEval ;;;
  emit ETo ;;;
  emit (ETorchLoad pretrained_path) ;;;
  state_dict <- from_option (torch_load pretrained_path) FileNotFoundError ;;
  let state_dict := rename_keys state_dict in
  r <- load_state_dict_lenient fresh state_dict ;;
  let '(model, msg) := r in
  emit (EPrint pretrained_path msg) ;;;
  ret model.

(** A state dict as a wrapped model saves it. *)
Definition wrapped {V : Type} (d : dict V) : dict V :=
  map (fun kv => ("module.backbone." ++ fst kv, snd kv)) d.

(** A small feature extractor and a file system for it. *)
Definition vit : state_dict :=
  [("cls_token", TrainDemo.weight); ("blocks.0.norm1.bias", TrainRuns.bias)].

Definition vit_trained : state_dict :=
  [("cls_token", TrainRuns.stale);
   ("blocks.0.norm1.bias",
    {| p_shape := [2]; p_data := [PyFloat.one; PyFloat.one] |})].

Definition files (path : string) : option state_dict :=
  if String.eqb path "dino.pth" then Some (wrapped vit_trained) else None.

End LoadModel.

(** * The set-up of [train_cond.py] (lines 67-201) and the whole [main] *)
Module TrainScript.

Local Open Scope string_scope.

(** [str(n)] for an integer. *)
Definition str (n : Z) : string := NilZero.string_of_int (Z.to_int n).

(** [s.replace("/", "-")] *)
Fixpoint dash_slashes (s : string) : string :=
  match s with
  | EmptyString => EmptyString
  | String c rest =>
      String (if Ascii.eqb c "/" then "-"%char else c) (dash_slashes rest)
  end.

(** [name.endswith(suffix)] *)
Fixpoint ends_with (suffix s : string) : bool :=
  String.eqb s suffix
  || match s with
     | EmptyString => false
     | String _ rest => ends_with suffix rest
     end.

(** [os.path.join(dir, name)] for a relative [name]. *)
Definition path_join (dir name : string) : string :=
  if String.eqb dir "" then name
  else if ends_with "/" dir then dir ++ name
       else dir ++ "/" ++ name.

(** The fields of the config and of the command line that the set-up
    reads; [train] holds those the loop reads. *)
Record args : Type := {
  port : Z;
  pretrained_weights : string;
  global_seed : Z;
  results_dir : string;
  model : string;
  num_frames : Z;
  frame_interval : Z;
  dataset : string;
  image_size : Z;
  pretrained_model_path : string;
  use_compile : bool;
  enable_xformers_memory_efficient_attention : bool;
  gradient_checkpointing : bool;
  fixed_spatial : bool;
  train : TrainCond.args
}.

Inductive log_msg : Type :=
| ExperimentDirectory (dir : string)
| UsingXformers
| UsingGradientCheckpointing
| OnlyTrain (name : string)
| OnlyTrainModules
| ModelParameters
| DatasetContains.

Inductive event : Type :=
| ESetPort (port : string)
| ESetupDistributed
| EManualSeed (seed : Z)
| ESetDevice (local_rank : Z)
| EPrintStart (rank seed : Z)
| EMakedirs (path : string)
| ECreateLogger (dir : option string)
| ESaveConfig (path : string)
| ELog (m : log_msg)
| EGetModels (latent_size : Z)
| EDeepcopyEma
| EDino (e : LoadModel.event)
| EFreezeEma
| ECreateDiffusion
| EVaeFromPretrained (name : string) (subfolder : option string)
| EClipModel
| EClipProcessor
| ECompile
| EXformers
| EGradientCheckpointing
| EFreezeModel
| EUnfreeze (module : string) (param : nat)
| EDDP
| EAdamW
| EFreezeVae
| EFreezeClip
| EGetDataset
| ESampler (rank seed : Z)
| ELoader
| EScheduler
| EInitEma
| EModelTrain
| EEmaEval
| ETrain (e : TrainCond.event)
| EModelEval
| ECleanup.

(** What the collaborators of the set-up answer; [base] are those of the
    loop. *)
Record env : Type := {
  cuda_available : bool;
  (* [get_experiment_dir] *)
  experiment_dir_of : string -> string;
  (* [model.named_modules()], with the number of parameters of each *)
  named_modules : list (string * nat);
  (* the file system and the new ViT of [load_model] *)
  dino_files : string -> option TrainCond.state_dict;
  dino_fresh : TrainCond.state_dict;
  (* the state dict of the new diffusion model *)
  model_fresh : TrainCond.state_dict;
  base : TrainCond.env
}.

Definition M : Type -> Type := prog event.

(** A program of another component, run inside this one. *)
Definition lift {E' A : Type} (inj : E' -> event) (m : prog E' A) : M A :=
  (map inj (trace m), outcome m).

Local Open Scope prog_scope.

(** Lines 83-96. *)
Definition experiment_folder (E : env) (a : args) (rank : Z) : M unit :=
  if (rank =? 0)%Z then
    emit (EMakedirs (results_dir a)) ;;;
    let model_string_name := dash_slashes (model a) in
    let num_frame_string :=
      "F" ++ str (num_frames a) ++ "S" ++ str (frame_interval a) in
    let experiment_dir :=
      results_dir a ++ "/" ++ "001" ++ "-" ++ model_string_name ++ "-"
      ++ num_frame_string ++ "-" ++ dataset a in
    let experiment_dir := experiment_dir_of E experiment_dir in
    let checkpoint_dir := experiment_dir ++ "/checkpoints" in
    emit (EMakedirs checkpoint_dir) ;;;
    emit (ECreateLogger (Some experiment_dir)) ;;;
    emit (ESaveConfig (path_join experiment_dir "config.yaml")) ;;;
    emit (ELog (ExperimentDirectory experiment_dir))
  else
    emit (ECreateLogger None).

(** Lines 147-157. *)
Definition unfreeze_temporal (E : env) : M unit :=
  emit EFreezeModel ;;;
  for_each (named_modules E)
    (fun nm =>
       when (ends_with "attn_temp" (fst nm))
         (for_each (seq 0 (snd nm))
            (fun i =>
               emit (ELog (OnlyTrain (fst nm))) ;;;
               emit (EUnfreeze (fst nm) i)))) ;;;
  emit (ELog OnlyTrainModules).

(** Lines 68-201: everything before the loop counters.  The result is
    the state dict of the model. *)
Definition prepare (E : env) (a : args) : M TrainCond.state_dict :=
  (if cuda_available E then ret tt else raise AssertionError) ;;;
  emit (ESetPort (str (port a))) ;;;
  emit ESetupDistributed ;;;
  let rank := TrainCond.rank (base E) in
  let local_rank := rank in
  let seed := (global_seed a + rank)%Z in
  emit (EManualSeed seed) ;;;
  emit (ESetDevice local_rank) ;;;
  emit (EPrintStart rank seed) ;;;
  experiment_folder E a rank ;;;
  (if (image_size a mod 8 =? 0)%Z then ret tt else raise AssertionError) ;;;
  let sample_size := (image_size a / 8)%Z in
  emit (EGetModels sample_size) ;;;
  emit EDeepcopyEma ;;;
  dino <- lift EDino
            (LoadModel.load_model (dino_files E) (dino_fresh E)
               (pretrained_weights a)) ;;
  emit EFreezeEma ;;;
  emit ECreateDiffusion ;;;
  s_vae_m_bound <-
    (if (TrainCond.extras (train a) =? 78)%Z then
       emit (EVaeFromPretrained (pretrained_model_path a) (Some "vae")) ;;;
       ret false
     else
       emit (EVaeFromPretrained "stabilityai/sd-vae-ft-mse" None) ;;;
       emit EClipModel ;;;
       emit EClipProcessor ;;;
       ret true) ;;
  live <- lift ETrain
            (TrainCond.load_pretrained (base E) (train a) (model_fresh E)) ;;
  when (use_compile a) (emit ECompile) ;;;
  when (enable_xformers_memory_efficient_attention a)
    (emit (ELog UsingXformers) ;;; emit EXformers) ;;;
  when (gradient_checkpointing a)
    (emit (ELog UsingGradientCheckpointing) ;;;
     emit EGradientCheckpointing) ;;;
  when (fixed_spatial a) (unfreeze_temporal E) ;;;
  emit EDDP ;;;
  emit (ELog ModelParameters) ;;;
  emit EAdamW ;;;
  emit EFreezeVae ;;;
  (if s_vae_m_bound : bool then emit EFreezeClip
   else raise (UnboundLocalError "s_vae_m")) ;;;
  emit EGetDataset ;;;
  emit (ESampler rank (global_seed a)) ;;;
  emit ELoader ;;;
  emit (ELog DatasetContains) ;;;
  emit EScheduler ;;;
  emit EInitEma ;;;
  emit EModelTrain ;;;
  emit EEmaEval ;;;
  ret live.

(** Lines 204-327: the counters, the resume and the two loops. *)
Definition train_loops (E : TrainCond.env) (a : TrainCond.args)
    (live : TrainCond.state_dict) : TrainCond.M TrainCond.state :=
  r <- TrainCond.resume_setup E a live ;;
  let '(st, sch, _) := r in
  TrainCond.run_epochs E a
    (range (TrainCond.first_epoch sch) (TrainCond.num_train_epochs sch)) st.

(** Lines 67-333. *)
Definition main (E : env) (a : args) : M TrainCond.state :=
  live <- prepare E a ;;
  st <- lift ETrain (train_loops (base E) (train a) live) ;;
  emit EModelEval ;;;
  emit (ETrain (TrainCond.ELog TrainCond.Done)) ;;;
  emit ECleanup ;;;
  ret st.

(** The events of the loop component inside a trace of the script. *)
Fixpoint train_events (t : list event) : list TrainCond.event :=
  match t with
  | [] => []
  | ETrain e :: rest => e :: train_events rest
  | _ :: rest => train_events rest
  end.

Definition touches_files (e : event) : bool :=
  match e with
  | EMakedirs _ | ESaveConfig _ => true
  | ETrain (TrainCond.ESave _ _) => true
  | _ => false
  end.

Definition builds_model (e : event) : bool :=
  match e with
  | EGetModels _ | EDeepcopyEma | EDino _ | EVaeFromPretrained _ _
  | EClipModel | EDDP | EAdamW => true
  | _ => false
  end.

Definition is_train (e : event) : bool :=
  match e with
  | ETrain _ => true
  | _ => false
  end.

Definition is_unfreeze (e : event) : bool :=
  match e with
  | EUnfreeze _ _ => true
  | _ => false
  end.

Definition is_step (e : event) : bool :=
  match e with
  | ETrain (TrainCond.ETrainingLosses _ _ _) => true
  | ETrain (TrainCond.EBackward _) => true
  | ETrain TrainCond.EOptStep => true
  | _ => false
  end.

(** The events that change which parameters of the model train. *)
Definition is_freezing (e : event) : bool :=
  match e with
  | EFreezeModel | EUnfreeze _ _ => true
  | _ => false
  end.

(** The parameters lines 152-155 unfreeze: those of the modules whose
    name ends with ["attn_temp"], in the order of [named_modules]. *)
Definition temporal_params (E : env) : list (string * nat) :=
  flat_map (fun nm =>
              if ends_with "attn_temp" (fst nm)
              then map (pair (fst nm)) (seq 0 (snd nm))
              else [])
    (named_modules E).

(** The parameters unfrozen, module by module. *)
Fixpoint unfrozen (t : list event) : list (string * nat) :=
  match t with
  | [] => []
  | EUnfreeze name i :: rest => (name, i) :: unfrozen rest
  | _ :: rest => unfrozen rest
  end.

(** Concrete inputs. *)
Definition demo_env (r : Z) (cuda : bool) : env :=
  {| cuda_available := cuda;
     experiment_dir_of := fun dir => dir;
     named_modules :=
       [("", 0%nat); ("blocks.0.attn", 2%nat); ("blocks.0.attn_temp", 2%nat);
        ("blocks.1.attn_temp", 1%nat); ("attn_temp.proj", 1%nat)];
     dino_files := LoadModel.files;
     dino_fresh := LoadModel.vit;
     model_fresh := TrainDemo.live;
     base := TrainDemo.train_env r PyFloat.minus_one |}.

Definition demo_train_args (x : Z) : TrainCond.args :=
  {| TrainCond.pretrained := None;
     TrainCond.resume_from_checkpoint := None;
     TrainCond.extras := x;
     TrainCond.use_image_num := 0;
     TrainCond.start_clip_iter := 100;
     TrainCond.log_every := 2;
     TrainCond.ckpt_every := 2;
     TrainCond.max_train_steps := 6;
     TrainCond.mode := "type_cnn";
     TrainCond.prr_weight := PyFloat.decimal 1 1 |}.

Definition demo_args (size x : Z) (spatial : bool) : args :=
  {| port := 6035;
     pretrained_weights := "dino.pth";
     global_seed := 3407;
     results_dir := "results";
     model := "EnDora-XL/2";
     num_frames := 16;
     frame_interval := 1;
     dataset := "polyp";
     image_size := size;
     pretrained_model_path := "sd";
     use_compile := false;
     enable_xformers_memory_efficient_attention := false;
     gradient_checkpointing := true;
     fixed_spatial := spatial;
     train := demo_train_args x |}.

End TrainScript.

(** * Reasoning about programs *)
Section ProgFacts.

Context {event : Type}.
Implicit Types P : event -> Prop.

Lemma trace_bind {A B : Type} (m : prog event A) (f : A -> prog event B) :
  trace (bind m f)
  = trace m ++ match outcome m with
               | Ok x => trace (f x)
               | _ => []
               end.
Proof.
  destruct m as [t [x | code | e]]; cbn.
  - destruct (f x); reflexivity.
  - now rewrite app_nil_r.
  - now rewrite app_nil_r.
Qed.

Lemma outcome_bind {A B : Type} (m : prog event A) (f : A -> prog event B) :
  outcome (bind m f)
  = match outcome m with
    | Ok x => outcome (f x)
    | Exit code => Exit code
    | Raise e => Raise e
    end.
Proof.
  destruct m as [t [x | code | e]]; cbn; try reflexivity.
  destruct (f x); reflexivity.
Qed.

Lemma Forall_bind P {A B : Type} (m : prog event A) (f : A -> prog event B) :
  Forall P (trace m) ->
  (forall x, outcome m = Ok x -> Forall P (trace (f x))) ->
  Forall P (trace (bind m f)).
Proof.
  intros Hm Hf. rewrite trace_bind. apply Forall_app. split; [exact Hm|].
  destruct (outcome m); auto.
Qed.

Lemma Forall_emit P (e : event) : P e -> Forall P (trace (emit e)).
Proof. intros H. cbn. auto. Qed.

Lemma Forall_silent P {A : Type} (m : prog event A) :
  trace m = [] -> Forall P (trace m).
Proof. intros ->. constructor. Qed.

Lemma Forall_when P (b : bool) (m : prog event unit) :
  Forall P (trace m) -> Forall P (trace (when b m)).
Proof. destruct b; cbn; auto. Qed.

Lemma Forall_for_each P {A : Type} (xs : list A) (body : A -> prog event unit) :
  (forall x, In x xs -> Forall P (trace (body x))) ->
  Forall P (trace (for_each xs body)).
Proof.
  induction xs as [| x rest IH]; intros H; cbn [for_each].
  - constructor.
  - apply Forall_bind.
    + apply H. now left.
    + intros _ _. apply IH. intros y Hy. apply H. now right.
Qed.

Lemma from_option_silent {A : Type} (o : option A) (e : exn) :
  trace (from_option (event := event) o e) = [].
Proof. destruct o; reflexivity. Qed.

(** A loop whose first round fails has failed. *)
Lemma for_each_first_fails {A : Type} (x : A) (rest : list A)
    (body : A -> prog event unit) :
  (forall u, outcome (body x) <> Ok u) ->
  outcome (for_each (x :: rest) body) = match outcome (body x) with
                                        | Ok _ => Ok tt
                                        | Exit c => Exit c
                                        | Raise e => Raise e
                                        end.
Proof.
  intros H. cbn [for_each]. rewrite outcome_bind.
  destruct (outcome (body x)) as [u | |]; [destruct (H u); reflexivity| |];
    reflexivity.
Qed.

Lemma never_exits_bind {A B : Type} (m : prog event A)
    (f : A -> prog event B) :
  never_exits m -> (forall x, never_exits (f x)) -> never_exits (bind m f).
Proof.
  intros Hm Hf code. rewrite outcome_bind.
  destruct (outcome m) as [x | c |] eqn:Ho.
  - apply Hf.
  - destruct (Hm c). exact Ho.
  - discriminate.
Qed.

Lemma never_exits_emit (e : event) : never_exits (emit e).
Proof. intros code. discriminate. Qed.

Lemma never_exits_ret {A : Type} (x : A) :
  never_exits (ret (event := event) x).
Proof. intros code. discriminate. Qed.

Lemma never_exits_raise {A : Type} (e : exn) :
  never_exits (raise (event := event) (A := A) e).
Proof. intros code. discriminate. Qed.

Lemma never_exits_from_option {A : Type} (o : option A) (e : exn) :
  never_exits (from_option (event := event) o e).
Proof. intros code. destruct o; discriminate. Qed.

Lemma never_exits_when (b : bool) (m : prog event unit) :
  never_exits m -> never_exits (when b m).
Proof. destruct b; [auto | intros _; apply never_exits_ret]. Qed.

Lemma never_exits_for_each {A : Type} (xs : list A)
    (body : A -> prog event unit) :
  (forall x, never_exits (body x)) -> never_exits (for_each xs body).
Proof.
  intros H. induction xs as [| x rest IH]; cbn [for_each].
  - apply never_exits_ret.
  - apply never_exits_bind; auto.
Qed.

End ProgFacts.

Ltac step_exit :=
  first
    [ apply never_exits_bind; [| intros ? ]
    | apply never_exits_emit
    | apply never_exits_ret
    | apply never_exits_raise
    | apply never_exits_from_option
    | apply never_exits_when ].


(** Split the trace of a sequence and discharge the silent parts. *)
Ltac step_trace :=
  first
    [ apply Forall_bind; [| intros _ _ ]
    | apply Forall_when
    | apply Forall_emit
    | apply Forall_silent; first [ reflexivity | apply from_option_silent ] ].

(** The same for a step whose value is used afterwards. *)
Tactic Notation "step_trace" "as" ident(x) ident(H) :=
  apply Forall_bind; [| intros x H ].



(** * The sampling driver *)
Section SampleFacts.

Import SampleCond SampleSpec.
Local Open Scope string_scope.

Variable E : env.
Variable a : args.

Lemma setup_guidance_silent_or_print (P : event -> Prop) (idx : Z)
    (z c : tensor) :
  (forall msg, P (EPrint msg)) ->
  Forall P (trace (setup_guidance E a idx z c)).
Proof.
  intros HP. unfold setup_guidance.
  destruct (using_cfg a).
  - step_trace; [step_trace; apply HP |].
    step_trace as y Hy; [destruct (num_classes a <=? 0)%Z |]; step_trace.
  - step_trace.
Qed.

Lemma setup_guidance_result (idx : Z) (z c z' : tensor)
    (kw : model_kwargs) (fn : sample_fn) :
  outcome (setup_guidance E a idx z c) = Ok (z', kw, fn) ->
  kw_y_image kw = c
  /\ kw_use_fp16 kw = use_fp16 a
  /\ if PyFloat.gtb (cfg_scale a) PyFloat.one then
       fn = forward_with_cfg
       /\ kw_cfg_scale kw = Some (cfg_scale a)
       /\ z' = tensor_cat [z; c]
       /\ kw_y kw = Some [randint E idx (num_classes a); 101]
     else
       fn = forward /\ kw_cfg_scale kw = None /\ kw_y kw = None /\ z' = z.
Proof.
  unfold setup_guidance, using_cfg.
  destruct (PyFloat.gtb (cfg_scale a) PyFloat.one);
    [destruct (num_classes a <=? 0)%Z; [discriminate |] |];
    cbn; intros [= <- <- <-]; cbn; repeat split; reflexivity.
Qed.

Lemma run_sample_method_trace (P : event -> Prop) (fn : sample_fn)
    (z : tensor) (kw : model_kwargs) :
  (forall s, sample_method a = method_name s ->
             P (ESampleLoop s fn z false kw)) ->
  Forall P (trace (run_sample_method E a fn z kw)).
Proof.
  intros H. unfold run_sample_method.
  destruct (String.eqb_spec (sample_method a) "ddim") as [Hd | Hd].
  - step_trace; [| step_trace]. step_trace.
    apply (H ddim_sample_loop). exact Hd.
  - destruct (String.eqb_spec (sample_method a) "ddpm") as [Hp | Hp].
    + step_trace; [| step_trace]. step_trace.
      apply (H p_sample_loop). exact Hp.
    + step_trace.
Qed.

Lemma sample_clip_events (idx : Z) :
  Forall (clip_event_ok E a) (trace (sample_clip E a idx)).
Proof.
  unfold sample_clip.
  step_trace; [step_trace; exact I |].
  step_trace as vframes_m Hv; [step_trace |].
  destruct (temporal_sample E _ _) as [start_frame_ind end_frame_ind].
  step_trace; [destruct (_ >=? _); step_trace |].
  step_trace; [step_trace; exact I |].
  step_trace as g Hg;
    [apply setup_guidance_silent_or_print; intros; exact I |].
  destruct g as [[z kw] fn].
  apply setup_guidance_result in Hg. destruct Hg as (Hc & Hfp & Hg).
  step_trace as bound Hb.
  { apply run_sample_method_trace. intros s Hs. unfold clip_event_ok.
    split; [reflexivity |]. split; [exact Hs |].
    exists idx. eexists. split; [exact Hc |]. split; [exact Hfp |].
    destruct (PyFloat.gtb (cfg_scale a) PyFloat.one).
    - destruct Hg as (-> & -> & -> & ->). rewrite Hc. auto.
    - destruct Hg as (-> & -> & -> & ->). auto. }
  step_trace as samples Hs; [step_trace |].
  step_trace; [step_trace; exact I |].
  step_trace; [step_trace; cbn; eexists; reflexivity |].
  step_trace; [step_trace; step_trace; exact I |].
  repeat (step_trace; [step_trace; exact I |]).
  step_trace. exact I.
Qed.

Lemma main_events : Forall (clip_event_ok E a) (trace (main E a)).
Proof.
  unfold main. destruct (ckpt a) as [path |].
  - repeat (step_trace; [step_trace; exact I |]).
    step_trace; [step_trace; step_trace; exact I |].
    step_trace; [step_trace; exact I |].
    step_trace as states Hs; [step_trace |].
    step_trace; [destruct (existsb _ _); step_trace |].
    repeat (step_trace; [step_trace; exact I |]).
    step_trace.
    { step_trace. step_trace; step_trace; exact I. }
    apply Forall_for_each. intros idx _. apply sample_clip_events.
  - step_trace; [step_trace; exact I | step_trace].
Qed.

End SampleFacts.

Section SampleClaims.

Import SampleCond SampleSpec.
Local Open Scope string_scope.

Lemma Forall_filter_nil {A : Type} (f : A -> bool) (l : list A) :
  Forall (fun x => f x = false) l -> filter f l = [].
Proof.
  induction 1 as [| x l Hx _ IH]; cbn; [reflexivity |].
  now rewrite Hx.
Qed.



(** The trace predicates are not vacuous: a run samples sixteen clips. *)
Example demo_run_samples_sixteen_clips :
  List.length
    (filter is_sample_loop
       (trace (main Demo.sample_env (Demo.sample_args PyFloat.one "ddim"))))
  = 16%nat
  /\ outcome (main Demo.sample_env (Demo.sample_args PyFloat.one "ddim"))
     = Ok tt.
Proof. split; vm_compute; reflexivity. Qed.

(** C9: the accelerated loop is entered exactly for the method ['ddim'],
    the ancestral loop exactly for ['ddpm'], and every sampler call of
    every run passes [clip_denoised=False]. *)
Theorem samplers_never_clip (E : env) (a : args) (fn : sample_fn)
    (z : tensor) (kw : model_kwargs) :
  (sample_method a = "ddim" ->
   trace (run_sample_method E a fn z kw)
   = [ESampleLoop ddim_sample_loop fn z false kw])
  /\ (sample_method a = "ddpm" ->
      trace (run_sample_method E a fn z kw)
      = [ESampleLoop p_sample_loop fn z false kw])
  /\ Forall (no_clipping a) (trace (main E a)).
Proof.
  unfold run_sample_method. split; [| split].
  - intros ->. reflexivity.
  - intros ->. reflexivity.
  - eapply Forall_impl; [| apply main_events].
    intros [] H; try exact I. cbn in H |- *.
    destruct H as (Hc & Hm & _). now split.
Qed.

Lemma samplers_never_clip_witness :
  trace (run_sample_method Demo.sample_env
           (Demo.sample_args PyFloat.one "ddim") forward [] 
           {| kw_y := None; kw_cfg_scale := None; kw_use_fp16 := false;
              kw_y_image := [] |})
  = [ESampleLoop ddim_sample_loop forward [] false
       {| kw_y := None; kw_cfg_scale := None; kw_use_fp16 := false;
          kw_y_image := [] |}]
  /\ trace (run_sample_method Demo.sample_env
              (Demo.sample_args PyFloat.one "ddpm") forward []
              {| kw_y := None; kw_cfg_scale := None; kw_use_fp16 := false;
                 kw_y_image := [] |})
     = [ESampleLoop p_sample_loop forward [] false
          {| kw_y := None; kw_cfg_scale := None; kw_use_fp16 := false;
             kw_y_image := [] |}].
Proof.
  split.
  - apply (samplers_never_clip Demo.sample_env
             (Demo.sample_args PyFloat.one "ddim")).
    reflexivity.
  - apply (samplers_never_clip Demo.sample_env
             (Demo.sample_args PyFloat.one "ddpm")).
    reflexivity.
Defined.

End SampleClaims.

Section SampleFailures.

Import SampleCond SampleSpec.
Local Open Scope string_scope.

Variable E : env.
Variable a : args.

Lemma run_sample_method_unknown (fn : sample_fn) (z : tensor)
    (kw : model_kwargs) :
  sample_method a <> "ddim" -> sample_method a <> "ddpm" ->
  run_sample_method E a fn z kw = ret None.
Proof.
  intros Hd Hp. unfold run_sample_method.
  destruct (String.eqb_spec (sample_method a) "ddim"); [contradiction |].
  destruct (String.eqb_spec (sample_method a) "ddpm"); [contradiction |].
  reflexivity.
Qed.

(** With an unknown method a clip never gets past the first use of
    [samples]. *)
Lemma sample_clip_unknown (idx : Z) :
  sample_method a <> "ddim" -> sample_method a <> "ddpm" ->
  Forall (fun e => is_output e = false) (trace (sample_clip E a idx))
  /\ (forall u, outcome (sample_clip E a idx) <> Ok u).
Proof.
  intros Hd Hp. unfold sample_clip, setup_guidance.
  destruct (read_video E idx) as [vframes_m |]; cbn.
  2: { split; [repeat constructor | discriminate]. }
  destruct (temporal_sample E _ _) as [s e].
  destruct (e - s >=? num_frames a); cbn.
  2: { split; [repeat constructor | discriminate]. }
  destruct (using_cfg a); [destruct (num_classes a <=? 0)%Z |]; cbn;
    rewrite ?(run_sample_method_unknown _ _ _ Hd Hp); cbn;
    (split; [repeat constructor | discriminate]).
Qed.

(** A guided clip with no class to draw from stops at the draw. *)
Lemma sample_clip_empty_range (idx : Z) :
  using_cfg a = true -> (num_classes a <=? 0)%Z = true ->
  Forall (fun e => is_output e = false) (trace (sample_clip E a idx))
  /\ (forall u, outcome (sample_clip E a idx) <> Ok u).
Proof.
  intros Hcfg Hn. unfold sample_clip, setup_guidance.
  destruct (read_video E idx) as [vframes_m |]; cbn.
  2: { split; [repeat constructor | discriminate]. }
  destruct (temporal_sample E _ _) as [s e].
  destruct (e - s >=? num_frames a); cbn.
  2: { split; [repeat constructor | discriminate]. }
  rewrite Hcfg, Hn. cbn. split; [repeat constructor | discriminate].
Qed.



End SampleFailures.


Section SampleCheckpointPath.

Import SampleCond SampleSpec.
Local Open Scope string_scope.

Variable E : env.

(** The guard of lines 89-91 on its own: a config whose [ckpt] is None
    stops the process with status 255 after the one message. *)
Lemma missing_ckpt_exits (a : args) :
  ckpt a = None ->
  main E a = ([EPrint "ckpt Path Not available"], Exit (-1))
  /\ exit_status (outcome (main E a)) = 255.
Proof.
  intros H. unfold main. rewrite H. split; reflexivity.
Qed.

Lemma sample_clip_never_exits (a : args) (idx : Z) :
  never_exits (sample_clip E a idx).
Proof.
  unfold sample_clip, setup_guidance, run_sample_method.
  apply never_exits_bind; [step_exit | intros _].
  apply never_exits_bind; [step_exit | intros vframes_m].
  destruct (temporal_sample E _ _) as [s e].
  apply never_exits_bind; [destruct (_ >=? _); step_exit | intros _].
  apply never_exits_bind; [step_exit | intros _].
  apply never_exits_bind; [| intros [[z kw] fn]].
  { destruct (using_cfg a); [| step_exit].
    apply never_exits_bind; [step_exit | intros _].
    apply never_exits_bind; [| intros y; step_exit].
    destruct (num_classes a <=? 0)%Z; step_exit. }
  apply never_exits_bind; [| intros bound; repeat step_exit].
  destruct (String.eqb _ _); [repeat step_exit |].
  destruct (String.eqb _ _); repeat step_exit.
Qed.

(** C3, at the command-line default: without [--ckpt] the config holds
    the empty string, the guard does not fire, the model is built, and
    the run never ends through [exit]. *)
Theorem cli_default_ckpt_skips_guard (conf : args)
    (save_flag : option string) :
  ckpt (with_cli conf None save_flag) = Some ""
  /\ (exists rest,
        trace (script E conf None save_flag)
        = EPrint (model conf) :: EGetModels (image_size conf / 8)
            :: rest)
  /\ (forall code, outcome (script E conf None save_flag) <> Exit code).
Proof.
  split; [reflexivity |]. unfold script, main. cbn [ckpt with_cli].
  split.
  - rewrite !trace_bind. cbn. eexists. reflexivity.
  - do 2 (apply never_exits_bind; [step_exit | intros _]).
    apply never_exits_bind; [repeat step_exit | intros _].
    apply never_exits_bind; [step_exit | intros _].
    apply never_exits_bind; [step_exit | intros states].
    apply never_exits_bind;
      [destruct (existsb _ _); step_exit | intros _].
    do 3 (apply never_exits_bind; [step_exit | intros _]).
    apply never_exits_bind; [repeat step_exit | intros _].
    apply never_exits_for_each. apply sample_clip_never_exits.
Qed.

End SampleCheckpointPath.

(** * The training driver *)

(** ** [range] and the outcomes of [torch.randint] *)
Lemma in_range (lo hi x : Z) : In x (range lo hi) <-> lo <= x < hi.
Proof.
  unfold range. rewrite in_map_iff. split.
  - intros (i & <- & Hi%in_seq). lia.
  - intros H. exists (Z.to_nat (x - lo)). split; [lia |].
    apply in_seq. lia.
Qed.

Lemma NoDup_range (lo hi : Z) : NoDup (range lo hi).
Proof.
  unfold range. apply Injective_map_NoDup.
  - intros i j H. lia.
  - apply seq_NoDup.
Qed.

Lemma NoDup_cons_product (xs : list Z) (ws : list (list Z)) :
  NoDup xs -> NoDup ws ->
  NoDup (flat_map (fun v => map (cons v) ws) xs).
Proof.
  intros Hxs Hws. induction Hxs as [| x rest Hx Hrest IH].
  - constructor.
  - cbn [flat_map]. apply NoDup_app.
    + apply Injective_map_NoDup; [| exact Hws].
      intros u w H. now injection H.
    + exact IH.
    + intros v Hv Hin. apply in_map_iff in Hv.
      destruct Hv as (w & <- & _). apply in_flat_map in Hin.
      destruct Hin as (y & Hy & Hyw). apply in_map_iff in Hyw.
      destruct Hyw as (w' & Heq & _). injection Heq as -> _.
      contradiction.
Qed.

Section Vectors.

Import TrainCond.

Variable vals : list Z.

Lemma in_vectors (size : nat) (v : list Z) :
  In v (vectors vals size)
  <-> List.length v = size /\ Forall (fun x => In x vals) v.
Proof.
  revert v. induction size as [| size IH]; intros v; cbn [vectors].
  - split.
    + intros [<- | []]. split; [reflexivity | constructor].
    + intros [Hlen _]. left. symmetry. now apply length_zero_iff_nil.
  - rewrite in_flat_map. split.
    + intros (x & Hx & Hv). apply in_map_iff in Hv.
      destruct Hv as (w & <- & Hw). apply IH in Hw. destruct Hw as [Hl Hf].
      split; [cbn; now rewrite Hl | now constructor].
    + intros [Hlen Hf]. destruct v as [| x w]; [discriminate |].
      inversion Hf as [| ? ? Hx Hw]; subst.
      exists x. split; [exact Hx |]. apply in_map. apply IH.
      split; [now injection Hlen | exact Hw].
Qed.

Lemma NoDup_vectors (size : nat) : NoDup vals -> NoDup (vectors vals size).
Proof.
  intros Hvals. induction size as [| size IH]; cbn [vectors].
  - constructor; [intros [] | constructor].
  - now apply NoDup_cons_product.
Qed.

Lemma vectors_nonempty (size : nat) : vals <> [] -> vectors vals size <> [].
Proof.
  intros Hvals. destruct vals as [| x rest] eqn:Hv; [contradiction |].
  assert (H : In (repeat x size) (vectors vals size)).
  { apply in_vectors. split; [apply repeat_length |].
    apply Forall_forall. intros y Hy%repeat_spec. subst. now left. }
  rewrite Hv in H. intros Hnil. rewrite Hnil in H. exact H.
Qed.

End Vectors.

Section Randint.

Import TrainCond.

Variable E : env.

(** With a non-empty range the draw succeeds, silently, with one of the
    listed outcomes. *)
Lemma randint_draws (step low high : Z) (size : nat) :
  low < high ->
  exists t, randint E step low high size = ([], Ok t)
            /\ In t (randint_outcomes low high size).
Proof.
  intros Hlt. unfold randint.
  destruct (high <=? low) eqn:Hle; [lia |].
  set (outcomes := randint_outcomes low high size).
  assert (Hne : outcomes <> []).
  { apply vectors_nonempty. intros Hnil.
    assert (Hin : In low (range low high)) by (apply in_range; lia).
    rewrite Hnil in Hin. exact Hin. }
  destruct (nth_error outcomes (rng E step mod List.length outcomes))
    as [t |] eqn:Hnth.
  - exists t. split; [reflexivity |]. eapply nth_error_In. exact Hnth.
  - apply nth_error_None in Hnth.
    assert (List.length outcomes <> 0%nat).
    { destruct outcomes; [contradiction | discriminate]. }
    pose proof (Nat.mod_upper_bound (rng E step) (List.length outcomes)).
    lia.
Qed.

End Randint.

Section TrainStep.

Import TrainCond TrainSpec.

Variable E : env.
Variable a : args.

Lemma randint_silent (step low high : Z) (size : nat) :
  trace (randint E step low high size) = [].
Proof.
  unfold randint. destruct (high <=? low); [reflexivity |].
  apply from_option_silent.
Qed.

Lemma log_phase_events (P : event -> Prop) (epoch : Z) (st : state) :
  P ESynchronize ->
  (forall avg, P (EAllReduce avg)) ->
  (forall m, P (ELog m)) ->
  Forall P (trace (log_phase a epoch st)).
Proof.
  intros Hs Hr Hl. unfold log_phase.
  destruct (log_every a =? 0); [step_trace |].
  destruct (_ =? 0); [| step_trace].
  step_trace; [step_trace; exact Hs |].
  step_trace; [step_trace; apply Hr |].
  step_trace; [step_trace; apply Hl | step_trace].
Qed.

(** The checkpoint phase, event by event. *)
Lemma checkpoint_phase_trace (st : state) :
  trace (checkpoint_phase E a st)
  = if ckpt_every a =? 0 then []
    else if (train_steps st mod ckpt_every a =? 0) && (train_steps st >? 0)
         then (if rank E =? 0
               then [ESave (train_steps st)
                       [("ema"%string, ema_state_dict E (train_steps st))];
                     ELog (SavedCheckpoint (train_steps st))]
               else []) ++ [EBarrier]
         else [].
Proof.
  unfold checkpoint_phase.
  destruct (ckpt_every a =? 0); [reflexivity |].
  destruct (_ && _); [| reflexivity].
  destruct (rank E =? 0); reflexivity.
Qed.

Lemma train_step_trace (epoch : Z) (st : state) (vd : video_data) :
  0 < num_timesteps E ->
  exists t tail,
    In t (randint_outcomes 0 (num_timesteps E)
            (Z.to_nat (dim0 (video vd))))
    /\ trace (train_step E a epoch st vd)
       = [EDinoLayers special_list; EVaeEncode (flat (video vd))]
         ++ (if extras a =? 3 then [EVaeEncode (flat (video_mask vd))]
             else [])
         ++ [ETrainingLosses (step_latent E (video vd)) t (step_kwargs E a vd);
             EBackward
               (total_loss a
                  (training_losses E (step_latent E (video vd)) t
                     (step_kwargs E a vd)))]
         ++ tail
    /\ Forall (fun e => is_loss_event e = false) tail.
Proof.
  intros HT.
  destruct (randint_draws E (train_steps st) 0 (num_timesteps E)
              (Z.to_nat (dim0 (video vd))) HT) as (t & Hdraw & Hin).
  exists t. unfold train_step, encode_latent, step_kwargs, step_latent.
  destruct (extras a =? 3);
    repeat (rewrite ?trace_bind, ?outcome_bind;
            cbn [trace outcome emit ret fst snd app dim0];
            rewrite ?Hdraw).
  all: eexists; (split; [exact Hin |]); (split; [reflexivity |]).
  all: do 5 (constructor; [reflexivity |]).
  all: apply Forall_app; split;
    [apply log_phase_events; intros; reflexivity |].
  all: match goal with
       | |- context [outcome ?m] => destruct (outcome m) as [st' | |]
       end; try constructor.
  all: rewrite ?trace_bind; apply Forall_app; split;
    [| destruct (outcome _); constructor].
  all: rewrite checkpoint_phase_trace;
    destruct (ckpt_every a =? 0); [constructor |];
    destruct (_ && _); [| constructor];
    destruct (rank E =? 0); repeat (constructor; try reflexivity).
Qed.

(** C2: the loss handed to backpropagation in a step is the mean of
    [loss_dict["loss"]] plus [prr_weight] times [loss_dict["prr"]] when
    that term differs from the sentinel -1, and the mean alone when it
    equals the sentinel. *)
Theorem backprop_loss_adds_weighted_prr (epoch : Z) (st : state)
    (vd : video_data) :
  0 < num_timesteps E ->
  (exists x t kw,
     filter is_loss_event (trace (train_step E a epoch st vd))
     = [ETrainingLosses x t kw;
        EBackward (total_loss a (training_losses E x t kw))])
  /\ (forall ld,
        PyFloat.eqb (ld_prr ld) PyFloat.minus_one = false ->
        total_loss a ld
        = PyFloat.add (tensor_mean (ld_loss ld))
            (PyFloat.mul (prr_weight a) (ld_prr ld)))
  /\ (forall ld,
        PyFloat.eqb (ld_prr ld) PyFloat.minus_one = true ->
        total_loss a ld = tensor_mean (ld_loss ld)).
Proof.
  intros HT. split; [| split].
  - destruct (train_step_trace epoch st vd HT) as (t & tail & _ & Htr & Htail).
    exists (step_latent E (video vd)), t, (step_kwargs E a vd).
    rewrite Htr, !filter_app, (Forall_filter_nil _ _ Htail).
    destruct (extras a =? 3); reflexivity.
  - intros ld H. unfold total_loss, PyFloat.neqb.
    unfold PyFloat.eqb in H. now rewrite H.
  - intros ld H. unfold total_loss, PyFloat.neqb.
    unfold PyFloat.eqb in H. now rewrite H.
Qed.

End TrainStep.

Lemma backprop_loss_adds_weighted_prr_witness :
  TrainCond.total_loss (TrainDemo.train_args None None)
    (TrainDemo.losses (PyFloat.of_Z 5))
  = PyFloat.add (PyFloat.of_Z 2)
      (PyFloat.mul (PyFloat.decimal 1 1) (PyFloat.of_Z 5))
  /\ TrainCond.total_loss (TrainDemo.train_args None None)
       (TrainDemo.losses PyFloat.minus_one)
     = PyFloat.of_Z 2.
Proof.
  destruct (backprop_loss_adds_weighted_prr
              (TrainDemo.train_env 0 PyFloat.minus_one)
              (TrainDemo.train_args None None) 0 TrainDemo.start
              TrainDemo.batch)
    as (_ & Hplus & Hsentinel); [reflexivity |].
  split.
  - rewrite (Hplus (TrainDemo.losses (PyFloat.of_Z 5))); reflexivity.
  - rewrite (Hsentinel (TrainDemo.losses PyFloat.minus_one)); reflexivity.
Defined.

(** ** The draw of [torch.randint] as a function of the generator *)
Section Counting.

Lemma length_range (lo hi : Z) :
  List.length (range lo hi) = Z.to_nat (hi - lo).
Proof. unfold range. now rewrite length_map, length_seq. Qed.

Lemma length_cons_product (xs : list Z) (ws : list (list Z)) :
  List.length (flat_map (fun v => map (cons v) ws) xs)
  = (List.length xs * List.length ws)%nat.
Proof.
  induction xs as [| x rest IH]; cbn [flat_map List.length]; [reflexivity |].
  rewrite length_app, length_map, IH. lia.
Qed.

Lemma length_vectors (vals : list Z) (size : nat) :
  List.length (TrainCond.vectors vals size) = (List.length vals ^ size)%nat.
Proof.
  induction size as [| size IH]; cbn [TrainCond.vectors]; [reflexivity |].
  rewrite length_cons_product, IH. cbn [Nat.pow]. reflexivity.
Qed.

Lemma map_nth_all {A : Type} (l : list A) (d : A) :
  map (fun i => nth i l d) (seq 0 (List.length l)) = l.
Proof.
  induction l as [| x rest IH]; cbn [List.length seq map nth];
    [reflexivity |].
  f_equal. rewrite <- seq_shift, map_map. exact IH.
Qed.

Lemma length_filter_map {A B : Type} (p : B -> bool) (f : A -> B)
    (xs : list A) :
  List.length (filter p (map f xs))
  = List.length (filter (fun x => p (f x)) xs).
Proof.
  induction xs as [| x rest IH]; cbn [map filter]; [reflexivity |].
  destruct (p (f x)); cbn [List.length]; now rewrite IH.
Qed.

(** A test that singles out [v] finds it once in a list without
    repetition. *)
Lemma filter_finds_once {A : Type} (p : A -> bool) (v : A) (l : list A) :
  (forall w, p w = true <-> w = v) ->
  NoDup l -> In v l -> List.length (filter p l) = 1%nat.
Proof.
  intros Hp Hnd. induction Hnd as [| x rest Hx Hrest IH]; intros Hin;
    [destruct Hin |].
  cbn [filter]. destruct (p x) eqn:Hpx.
  - apply Hp in Hpx. subst x. cbn [List.length]. f_equal.
    assert (Hnone : filter p rest = []).
    { apply Forall_filter_nil. apply Forall_forall. intros w Hw.
      destruct (p w) eqn:Hpw; [| reflexivity].
      apply Hp in Hpw. subst w. contradiction. }
    now rewrite Hnone.
  - destruct Hin as [-> | Hin]; [| exact (IH Hin)].
    assert (Hv : p v = true) by now apply Hp. congruence.
Qed.

Lemma filter_keeps_all {A : Type} (l : list A) :
  filter (fun _ => true) l = l.
Proof. induction l as [| x rest IH]; cbn [filter]; now rewrite ?IH. Qed.

Lemma list_sum_cons (x : nat) (xs : list nat) :
  list_sum (x :: xs) = (x + list_sum xs)%nat.
Proof. reflexivity. Qed.

Lemma length_filter_flat_map {A B : Type} (p : B -> bool)
    (g : A -> list B) (xs : list A) :
  List.length (filter p (flat_map g xs))
  = list_sum (map (fun x => List.length (filter p (g x))) xs).
Proof.
  induction xs as [| x rest IH]; cbn [flat_map map]; [reflexivity |].
  now rewrite list_sum_cons, filter_app, length_app, IH.
Qed.

Lemma list_sum_constant {A : Type} (c : nat) (xs : list A) :
  list_sum (map (fun _ => c) xs) = (List.length xs * c)%nat.
Proof.
  induction xs as [| x rest IH]; cbn [map List.length]; [reflexivity |].
  rewrite list_sum_cons, IH. lia.
Qed.

Lemma list_sum_indicator (c : nat) (k : Z) (xs : list Z) :
  NoDup xs -> In k xs ->
  list_sum (map (fun v => if v =? k then c else 0%nat) xs) = c.
Proof.
  intros Hnd. induction Hnd as [| x rest Hx Hrest IH]; intros Hin;
    [destruct Hin |].
  cbn [map]. rewrite list_sum_cons.
  destruct (Z.eqb_spec x k) as [-> | Hne].
  - assert (Hzero : list_sum (map (fun v => if v =? k then c else 0%nat) rest)
                    = 0%nat).
    { clear IH Hrest Hin. induction rest as [| y rest IH]; [reflexivity |].
      cbn [map]. rewrite list_sum_cons.
      destruct (Z.eqb_spec y k) as [-> | _].
      - destruct Hx. now left.
      - rewrite IH; [reflexivity |]. intros H. apply Hx. now right. }
    rewrite Hzero. lia.
  - destruct Hin as [-> | Hin]; [contradiction |]. now rewrite IH.
Qed.

(** Among all vectors over [vals], entry [i] is [k] in one out of
    [length vals]. *)
Lemma count_vectors_with_entry (vals : list Z) (k : Z) :
  NoDup vals -> In k vals ->
  forall size i, (i < size)%nat ->
    List.length (filter (TrainSpec.entry_is i k) (TrainCond.vectors vals size))
    = (List.length vals ^ (size - 1))%nat.
Proof.
  intros Hnd Hin. induction size as [| size IH]; intros i Hi; [lia |].
  cbn [TrainCond.vectors]. rewrite length_filter_flat_map.
  replace (S size - 1)%nat with size by lia.
  destruct i as [| j].
  - rewrite (map_ext _ (fun v => if v =? k
                                 then List.length (TrainCond.vectors vals size)
                                 else 0%nat)).
    + rewrite (list_sum_indicator _ k vals Hnd Hin). apply length_vectors.
    + intros v. rewrite length_filter_map.
      unfold TrainSpec.entry_is. cbn [nth_error].
      destruct (v =? k).
      * now rewrite filter_keeps_all.
      * apply length_zero_iff_nil, Forall_filter_nil, Forall_forall.
        reflexivity.
  - rewrite (map_ext _ (fun _ => (List.length vals ^ (size - 1))%nat)).
    + rewrite list_sum_constant.
      destruct size as [| size']; [lia |].
      replace (S size' - 1)%nat with size' by lia. reflexivity.
    + intros v. rewrite length_filter_map.
      unfold TrainSpec.entry_is. cbn [nth_error].
      apply (IH j). lia.
Qed.

End Counting.

Section Draws.

Import TrainCond TrainSpec.

Variable E : env.
Variable a : args.

(** The draw, as the generator state picks it among the outcomes. *)
Lemma randint_eq (step low high : Z) (size : nat) :
  low < high ->
  randint E step low high size
  = ([], Ok (nth (rng E step mod List.length (randint_outcomes low high size))
               (randint_outcomes low high size) [])).
Proof.
  intros Hlt.
  destruct (randint_draws E step low high size Hlt) as (t & Hdraw & _).
  rewrite Hdraw. unfold randint in Hdraw.
  destruct (high <=? low); [discriminate |].
  destruct (nth_error _ _) as [t' |] eqn:Hnth; [| discriminate].
  injection Hdraw as <-. do 2 f_equal. symmetry.
  now apply nth_error_nth.
Qed.

Lemma timesteps_of_app (t1 t2 : list event) :
  timesteps_of (t1 ++ t2) = timesteps_of t1 ++ timesteps_of t2.
Proof.
  induction t1 as [| e rest IH]; cbn [timesteps_of app]; [reflexivity |].
  destruct e; cbn [app]; now rewrite IH.
Qed.

Lemma timesteps_of_none (t : list event) :
  Forall (fun e => is_loss_event e = false) t -> timesteps_of t = [].
Proof.
  induction 1 as [| e rest He _ IH]; cbn [timesteps_of]; [reflexivity |].
  destruct e; try discriminate; exact IH.
Qed.

(** The one timestep vector of a step is the generator's pick. *)
Lemma train_step_timesteps (epoch : Z) (st : state) (vd : video_data) :
  0 < num_timesteps E ->
  let outcomes :=
    randint_outcomes 0 (num_timesteps E) (Z.to_nat (dim0 (video vd))) in
  timesteps_of (trace (train_step E a epoch st vd))
  = [nth (rng E (train_steps st) mod List.length outcomes) outcomes []].
Proof.
  intros HT outcomes.
  pose proof (randint_eq (train_steps st) 0 (num_timesteps E)
                (Z.to_nat (dim0 (video vd))) HT) as Hdraw.
  fold outcomes in Hdraw.
  unfold train_step, encode_latent.
  destruct (extras a =? 3);
    repeat (rewrite ?trace_bind, ?outcome_bind;
            cbn [trace outcome emit ret fst snd app dim0];
            rewrite ?Hdraw);
    cbn [trace outcome fst snd app timesteps_of];
    f_equal.
  all: apply timesteps_of_none.
  all: apply Forall_app; split;
    [apply log_phase_events; intros; reflexivity |].
  all: match goal with
       | |- context [outcome ?m] => destruct (outcome m) as [st' | |]
       end; try constructor.
  all: rewrite ?trace_bind; apply Forall_app; split;
    [| destruct (outcome _); constructor].
  all: rewrite checkpoint_phase_trace;
    destruct (ckpt_every a =? 0); [constructor |];
    destruct (_ && _); [| constructor];
    destruct (rank E =? 0); repeat (constructor; try reflexivity).
Qed.

End Draws.

(** C5: a step calls the training loss exactly once, with one timestep
    per batch element, each in [0, T), and the draw is uniform.  The
    generator is in one of [T ^ batch] equally likely states; every vector
    over [0, T) is the draw of exactly one of them, and every batch
    element takes every value of [0, T) in [T ^ (batch - 1)] of them, one
    state out of [T]. *)
Theorem one_uniform_timestep_per_batch_element
    (E : TrainCond.env) (a : TrainCond.args) (epoch : Z)
    (st : TrainCond.state) (vd : TrainCond.video_data) :
  0 < TrainCond.num_timesteps E ->
  let batch_size := Z.to_nat (TrainCond.dim0 (TrainCond.video vd)) in
  let T := Z.to_nat (TrainCond.num_timesteps E) in
  let seeds := (T ^ batch_size)%nat in
  (exists x t kw,
     filter TrainSpec.is_training_losses
       (trace (TrainCond.train_step E a epoch st vd))
     = [TrainCond.ETrainingLosses x t kw]
     /\ TrainCond.dim0 x = TrainCond.dim0 (TrainCond.video vd)
     /\ List.length t = batch_size
     /\ Forall (fun ti => 0 <= ti < TrainCond.num_timesteps E) t
     /\ TrainSpec.timesteps_of
          (trace (TrainCond.train_step
                    (TrainSpec.reseed E
                       (TrainCond.rng E (TrainCond.train_steps st) mod seeds))
                    a epoch st vd))
        = [t])
  /\ (forall v,
        List.length v = batch_size ->
        Forall (fun ti => 0 <= ti < TrainCond.num_timesteps E) v ->
        List.length (TrainSpec.seeds_drawing E a epoch st vd seeds v) = 1%nat)
  /\ (forall i k,
        (i < batch_size)%nat ->
        0 <= k < TrainCond.num_timesteps E ->
        List.length (TrainSpec.seeds_with_entry E a epoch st vd seeds i k)
        = (T ^ (batch_size - 1))%nat).
Proof.
  intros HT batch_size T seeds.
  set (outcomes := TrainCond.randint_outcomes 0 (TrainCond.num_timesteps E)
                     batch_size).
  assert (Hchar : forall v,
             In v outcomes
             <-> List.length v = batch_size
                 /\ Forall (fun ti => 0 <= ti < TrainCond.num_timesteps E) v).
  { intros v. unfold outcomes, TrainCond.randint_outcomes.
    rewrite in_vectors.
    split; intros [Hl Hf]; (split; [exact Hl |]);
      (eapply Forall_impl; [| exact Hf]); intros x; apply in_range. }
  assert (Hnd : NoDup outcomes) by apply NoDup_vectors, NoDup_range.
  assert (Hlen : List.length outcomes = seeds).
  { unfold outcomes, TrainCond.randint_outcomes.
    rewrite length_vectors, length_range, Z.sub_0_r. reflexivity. }
  assert (Hpos : seeds <> 0%nat).
  { unfold seeds. apply Nat.pow_nonzero. unfold T. lia. }
  assert (Hstep : forall r,
             TrainSpec.timesteps_of
               (trace (TrainCond.train_step (TrainSpec.reseed E r)
                         a epoch st vd))
             = [nth (r mod seeds) outcomes []]).
  { intros r.
    rewrite (train_step_timesteps (TrainSpec.reseed E r) a epoch st vd HT).
    cbn [TrainSpec.reseed TrainCond.rng TrainCond.num_timesteps].
    fold batch_size. fold outcomes. now rewrite Hlen. }
  assert (Hpick : forall (p : list Z -> bool),
             List.length
               (filter (fun r => p (nth (r mod seeds) outcomes []))
                  (seq 0 seeds))
             = List.length (filter p outcomes)).
  { intros p.
    rewrite (filter_ext_in _ (fun r => p (nth r outcomes []))).
    - rewrite <- (length_filter_map p (fun r => nth r outcomes [])).
      now rewrite <- Hlen, map_nth_all.
    - intros r Hr%in_seq. rewrite Nat.mod_small by lia. reflexivity. }
  split; [| split].
  - destruct (train_step_trace E a epoch st vd HT)
      as (t & tail & Hin & Htr & Htail).
    exists (TrainSpec.step_latent E (TrainCond.video vd)), t,
      (TrainSpec.step_kwargs E a vd).
    split; [| split; [reflexivity |]].
    + rewrite Htr, !filter_app.
      assert (Hnil : filter TrainSpec.is_training_losses tail = []).
      { apply Forall_filter_nil. eapply Forall_impl; [| exact Htail].
        intros []; cbn; congruence. }
      rewrite Hnil. destruct (TrainCond.extras a =? 3); reflexivity.
    + destruct (proj1 (Hchar t) Hin) as [Hl Hf].
      split; [exact Hl |]. split; [exact Hf |].
      rewrite Hstep, Nat.Div0.mod_mod.
      pose proof (train_step_timesteps E a epoch st vd HT) as Hown.
      cbn zeta in Hown. fold batch_size in Hown. fold outcomes in Hown.
      rewrite Hlen in Hown. rewrite <- Hown, Htr, !timesteps_of_app.
      rewrite (timesteps_of_none tail Htail).
      destruct (TrainCond.extras a =? 3); reflexivity.
  - intros v Hl Hf. unfold TrainSpec.seeds_drawing.
    rewrite (filter_ext _
               (fun r => TrainSpec.timesteps_eqb
                           [nth (r mod seeds) outcomes []] [v]))
      by (intros r; now rewrite Hstep).
    rewrite (Hpick (fun w => TrainSpec.timesteps_eqb [w] [v])).
    apply (filter_finds_once _ v); [| exact Hnd | now apply Hchar].
    intros w. unfold TrainSpec.timesteps_eqb.
    destruct (list_eq_dec _ [w] [v]) as [Heq | Hne]; split;
      congruence.
  - intros i k Hi Hk. unfold TrainSpec.seeds_with_entry.
    rewrite (filter_ext _
               (fun r => TrainSpec.entry_is i k
                           (nth (r mod seeds) outcomes [])))
      by (intros r; now rewrite Hstep).
    rewrite (Hpick (TrainSpec.entry_is i k)).
    unfold outcomes, TrainCond.randint_outcomes.
    rewrite (count_vectors_with_entry _ k (NoDup_range _ _)); [| | exact Hi].
    + rewrite length_range, Z.sub_0_r. reflexivity.
    + apply in_range. lia.
Qed.

Lemma one_uniform_timestep_per_batch_element_witness :
  List.length
    (TrainSpec.seeds_drawing (TrainDemo.train_env 0 PyFloat.minus_one)
       (TrainDemo.train_args None None) 0 TrainDemo.start TrainDemo.batch
       16 [1; 2]) = 1%nat
  /\ List.length
       (TrainSpec.seeds_with_entry (TrainDemo.train_env 0 PyFloat.minus_one)
          (TrainDemo.train_args None None) 0 TrainDemo.start TrainDemo.batch
          16 1 3) = 4%nat
  /\ exists x t kw,
       filter TrainSpec.is_training_losses
         (trace (TrainCond.train_step
                   (TrainDemo.train_env 0 PyFloat.minus_one)
                   (TrainDemo.train_args None None) 0 TrainDemo.start
                   TrainDemo.batch))
       = [TrainCond.ETrainingLosses x t kw]
       /\ List.length t = 2%nat.
Proof.
  destruct (one_uniform_timestep_per_batch_element
              (TrainDemo.train_env 0 PyFloat.minus_one)
              (TrainDemo.train_args None None) 0 TrainDemo.start
              TrainDemo.batch)
    as ((x & t & kw & Hcall & _ & Hlen & _) & Hjoint & Hentry);
    [reflexivity |].
  split; [| split].
  - apply (Hjoint [1; 2]); [reflexivity |].
    repeat constructor; discriminate.
  - apply (Hentry 1%nat 3); [repeat constructor |].
    split; [discriminate | reflexivity].
  - exists x, t, kw. split; [exact Hcall | exact Hlen].
Defined.

(** The generator states behind a draw, computed on the concrete step:
    with four timesteps and a batch of two, state 6 draws [[1; 2]], and
    the second element is 3 in states 3, 7, 11 and 15. *)
Example demo_seeds_of_a_draw :
  TrainSpec.seeds_drawing (TrainDemo.train_env 0 PyFloat.minus_one)
    (TrainDemo.train_args None None) 0 TrainDemo.start TrainDemo.batch
    16 [1; 2] = [6%nat]
  /\ TrainSpec.seeds_with_entry (TrainDemo.train_env 0 PyFloat.minus_one)
       (TrainDemo.train_args None None) 0 TrainDemo.start TrainDemo.batch
       16 1 3 = [3%nat; 7%nat; 11%nat; 15%nat].
Proof. split; vm_compute; reflexivity. Qed.

(** ** Properties that hold of a trace piece by piece *)
Section TraceProperty.

Import TrainCond TrainSpec.

Variable Q : list event -> Prop.
Hypothesis Q_nil : Q [].
Hypothesis Q_app : forall t1 t2, Q t1 -> Q t2 -> Q (t1 ++ t2).

Lemma piecewise_bind {A B : Type} (m : M A) (f : A -> M B) :
  Q (trace m) -> (forall x, Q (trace (f x))) -> Q (trace (bind m f)).
Proof.
  intros Hm Hf. rewrite trace_bind. apply Q_app; [exact Hm |].
  destruct (outcome m); auto.
Qed.

Lemma piecewise_from_option {A : Type} (o : option A) (e : exn) :
  Q (trace (from_option (event := event) o e)).
Proof. rewrite from_option_silent. exact Q_nil. Qed.

Variable E : env.
Variable a : args.

Hypothesis Q_setup : forall e, is_setup e = true -> Q [e].

Lemma piecewise_filter_keys (model_dict items acc : dict pyval) :
  Q (trace (filter_keys model_dict items acc)).
Proof.
  revert acc. induction items as [| [k v] rest IH]; intros acc;
    cbn [filter_keys]; [exact Q_nil |].
  destruct (dict_mem k model_dict); [apply IH |].
  apply piecewise_bind; [apply Q_setup; reflexivity | intros _; apply IH].
Qed.

Lemma piecewise_load_state_dict (live : state_dict) (d : dict pyval) :
  Q (trace (load_state_dict live d)).
Proof.
  unfold load_state_dict.
  apply piecewise_bind; [apply Q_setup; reflexivity | intros _].
  destruct (loadable live d); exact Q_nil.
Qed.

Lemma piecewise_load_pretrained (live : state_dict) :
  Q (trace (load_pretrained E a live)).
Proof.
  unfold load_pretrained, unwrap_ema.
  destruct (truthy (pretrained a)) as [path |]; [| exact Q_nil].
  apply piecewise_bind; [apply Q_setup; reflexivity | intros _].
  apply piecewise_bind; [apply piecewise_from_option | intros checkpoint].
  apply piecewise_bind.
  { destruct (dict_mem _ checkpoint); [| exact Q_nil].
    apply piecewise_bind; [apply Q_setup; reflexivity | intros _].
    destruct (dict_get _ checkpoint) as [[p | d] |]; exact Q_nil. }
  intros items.
  apply piecewise_bind; [apply piecewise_filter_keys | intros kept].
  apply piecewise_bind.
  { destruct (_ =? 0); [exact Q_nil | apply Q_setup; reflexivity]. }
  intros _.
  apply piecewise_bind; [apply piecewise_load_state_dict | intros live'].
  apply piecewise_bind; [apply Q_setup; reflexivity | intros _; exact Q_nil].
Qed.

Lemma piecewise_resume_setup (live : state_dict) :
  Q (trace (resume_setup E a live)).
Proof.
  unfold resume_setup.
  apply piecewise_bind; [destruct (_ =? 0); exact Q_nil | intros _].
  destruct (truthy (resume_from_checkpoint a)) as [path |]; [| exact Q_nil].
  apply piecewise_bind; [apply Q_setup; reflexivity | intros _].
  apply piecewise_bind; [apply Q_setup; reflexivity | intros _].
  apply piecewise_bind; [apply piecewise_from_option | intros states].
  apply piecewise_bind; [apply piecewise_from_option | intros ema].
  apply piecewise_bind; [| intros live'; exact Q_nil].
  destruct ema; [exact Q_nil | apply piecewise_load_state_dict].
Qed.

Hypothesis Q_step :
  forall epoch st vd, Q (trace (train_step E a epoch st vd)).

Lemma piecewise_run_batches (epoch : Z) (batches : list video_data)
    (st : state) :
  Q (trace (run_batches E a epoch batches st)).
Proof.
  revert st. induction batches as [| vd rest IH]; intros st;
    cbn [run_batches]; [exact Q_nil |].
  apply piecewise_bind; [apply Q_step | intros st'; apply IH].
Qed.

Lemma piecewise_run_epochs (epochs : list Z) (st : state) :
  Q (trace (run_epochs E a epochs st)).
Proof.
  revert st. induction epochs as [| epoch rest IH]; intros st;
    cbn [run_epochs]; [exact Q_nil |].
  apply piecewise_bind; [apply Q_setup; reflexivity | intros _].
  apply piecewise_bind; [apply piecewise_run_batches | intros st'; apply IH].
Qed.


End TraceProperty.

Section StepProperty.

Import TrainCond TrainSpec.

Variable Q : list event -> Prop.
Hypothesis Q_nil : Q [].
Hypothesis Q_app : forall t1 t2, Q t1 -> Q t2 -> Q (t1 ++ t2).

Variable E : env.
Variable a : args.

Hypothesis Q_other : forall e, is_save e = false -> Q [e].
Hypothesis Q_checkpoint : forall st, Q (trace (checkpoint_phase E a st)).

Lemma piecewise_train_step (epoch : Z) (st : state) (vd : video_data) :
  Q (trace (train_step E a epoch st vd)).
Proof.
  assert (Hbind : forall (A B : Type) (m : M A) (f : A -> M B),
             Q (trace m) -> (forall x, Q (trace (f x))) ->
             Q (trace (bind m f))).
  { intros A B. exact (piecewise_bind Q Q_nil Q_app). }
  assert (Hemit : forall e, is_save e = false -> Q (trace (emit e))).
  { intros e He. apply Q_other. exact He. }
  unfold train_step, encode_latent.
  apply Hbind; [apply Hemit; reflexivity | intros _].
  apply Hbind.
  { apply Hbind; [apply Hemit; reflexivity | intros _; exact Q_nil]. }
  intros x. apply Hbind.
  { destruct (extras a =? 3); [| exact Q_nil].
    apply Hbind; [| intros c; exact Q_nil].
    apply Hbind; [apply Hemit; reflexivity | intros _; exact Q_nil]. }
  intros c. apply Hbind; [rewrite randint_silent; exact Q_nil | intros t].
  do 7 (apply Hbind; [apply Hemit; reflexivity | intros _]).
  apply Hbind.
  { unfold log_phase. destruct (log_every a =? 0); [exact Q_nil |].
    destruct (_ =? 0); [| exact Q_nil].
    do 3 (apply Hbind; [apply Hemit; reflexivity | intros _]).
    exact Q_nil. }
  intros st'. apply Hbind; [apply Q_checkpoint | intros _; exact Q_nil].
Qed.

End StepProperty.

Section Checkpoints.

Import TrainCond TrainSpec.

Variable E : env.
Variable a : args.



Lemma checkpoint_phase_saves (st : state) :
  Forall (save_ok E a) (trace (checkpoint_phase E a st)).
Proof.
  rewrite checkpoint_phase_trace.
  destruct (ckpt_every a =? 0); [constructor |].
  destruct (_ && _) eqn:Hdue; [| constructor].
  apply andb_prop in Hdue. destruct Hdue as [Hmod Hpos].
  destruct (rank E =? 0) eqn:Hrank; cbn [app].
  - constructor; [| repeat constructor].
    cbn. repeat split; lia.
  - repeat constructor.
Qed.



End Checkpoints.


(** The checkpoint predicates are not vacuous: rank 0 writes at steps 2,
    4 and 6 of the concrete run, another rank only meets the barriers. *)
Example demo_rank0_writes_three_checkpoints :
  map (fun e => match e with
                | TrainCond.ESave n _ => n
                | _ => 0
                end)
    (filter TrainSpec.is_save
       (trace (TrainCond.main (TrainDemo.train_env 0 PyFloat.minus_one)
                 (TrainDemo.train_args None None) TrainDemo.live)))
  = [2; 4; 6]
  /\ List.length
       (filter (fun e => match e with
                         | TrainCond.EBarrier => true
                         | _ => false
                         end)
          (trace (TrainCond.main (TrainDemo.train_env 1 PyFloat.minus_one)
                    (TrainDemo.train_args None None) TrainDemo.live)))
     = 3%nat.
Proof. split; vm_compute; reflexivity. Qed.

Section LatentScaling.

Import TrainCond TrainSpec.

Variable E : env.
Variable a : args.



End LatentScaling.

(** ** Properties of a trace that are kept by concatenation *)
Section Closed.

Context {event : Type}.

Variable Q : list event -> Prop.
Hypothesis Q_nil : Q [].
Hypothesis Q_app : forall t1 t2, Q t1 -> Q t2 -> Q (t1 ++ t2).





End Closed.

(** ** The latents between the codec and its users, in order *)
Section SampleCodec.

Import SampleCond SampleSpec.
Local Open Scope string_scope.

Variable E : env.
Variable a : args.






End SampleCodec.

Section TrainCodec.

Import TrainCond TrainSpec.

Variable E : env.
Variable a : args.





End TrainCodec.




(** The scans are not vacuous: the pass-through run decodes sixteen
    latents, each the unit latent its encoder answered, and the plain
    run hands every decode its sampler's result over the constant. *)
Example demo_run_decodes_sixteen_unit_latents :
  filter SampleSpec.is_decode
    (trace (SampleCond.main Demo.unit_env
              (Demo.sample_args PyFloat.one "ddim")))
  = repeat (SampleCond.EVaeDecode [PyFloat.one; PyFloat.one]) 16
  /\ filter SampleSpec.is_decode
       (trace (SampleCond.main Demo.sample_env
                 (Demo.sample_args PyFloat.one "ddim")))
     = map (fun idx =>
              SampleCond.EVaeDecode
                (tensor_div [PyFloat.of_Z idx] latent_scale))
         (range 1 17).
Proof. split; vm_compute; reflexivity. Qed.

Section Resume.

Import TrainCond TrainSpec.
Local Open Scope string_scope.

Variable E : env.
Variable a : args.

(** C7: when [resume_from_checkpoint] is set and the set-up returns, the
    step counter is 20000 and the first epoch is 20000 floor-divided by
    the number of update steps per epoch, whatever the checkpoint holds;
    and the set-up does return for every checkpoint with a loadable
    ["ema"] entry. *)
Theorem resume_sets_train_steps_to_20000 (live : state_dict)
    (path : string) :
  truthy (resume_from_checkpoint a) = Some path ->
  (forall st sch live',
     outcome (resume_setup E a live) = Ok (st, sch, live') ->
     train_steps st = 20000
     /\ first_epoch sch = 20000 / Z.of_nat (loader_len E))
  /\ (forall states d,
        loader_len E <> 0%nat ->
        torch_load E path = Some states ->
        dict_get "ema" states = Some (PDict d) ->
        loadable live (lift_state_dict d) = true ->
        exists st sch live',
          outcome (resume_setup E a live) = Ok (st, sch, live')).
Proof.
  intros Hresume. unfold resume_setup. rewrite Hresume. split.
  - intros st sch live'.
    destruct (Z.of_nat (loader_len E) =? 0)%Z; [discriminate |].
    rewrite !outcome_bind. cbn [outcome ret emit snd].
    destruct (torch_load E path) as [states |];
      cbn [from_option outcome ret raise snd]; [| discriminate].
    rewrite !outcome_bind.
    destruct (dict_get "ema" states) as [[p | d] |];
      cbn [from_option outcome ret raise snd]; try discriminate.
    rewrite !outcome_bind.
    destruct (outcome (load_state_dict live (lift_state_dict d)))
      as [l | |]; cbn [outcome ret snd]; try discriminate.
    intros [= <- <- <-]. split; reflexivity.
  - intros states d Hlen Hload Hema Hok.
    destruct (Z.of_nat (loader_len E) =? 0)%Z eqn:Hz; [lia |].
    rewrite !outcome_bind. cbn [outcome ret emit snd].
    rewrite Hload. cbn [from_option outcome ret snd].
    rewrite !outcome_bind. rewrite Hema.
    cbn [from_option outcome ret snd]. rewrite !outcome_bind.
    unfold load_state_dict. rewrite !outcome_bind, Hok.
    cbn [outcome ret emit snd]. eauto.
Qed.

End Resume.

Lemma resume_sets_train_steps_to_20000_witness :
  exists st sch live',
    outcome (TrainCond.resume_setup
               (TrainDemo.train_env 0 PyFloat.minus_one)
               (TrainDemo.train_args None (Some "ema.pt"%string))
               TrainDemo.live)
    = Ok (st, sch, live')
    /\ TrainCond.train_steps st = 20000
    /\ TrainCond.first_epoch sch = 6666.
Proof.
  destruct (resume_sets_train_steps_to_20000
              (TrainDemo.train_env 0 PyFloat.minus_one)
              (TrainDemo.train_args None (Some "ema.pt"%string))
              TrainDemo.live "ema.pt"%string)
    as [Hvalues Hreturns]; [reflexivity |].
  destruct (Hreturns
              [("ema"%string,
                TrainCond.PDict [("w"%string, TrainDemo.weight)])]
              [("w"%string, TrainDemo.weight)])
    as (st & sch & live' & Hok);
    [discriminate | reflexivity | reflexivity | reflexivity |].
  exists st, sch, live'. split; [exact Hok |].
  exact (Hvalues st sch live' Hok).
Defined.

Section Dicts.

Import TrainCond.

Context {V : Type}.
Implicit Types d upd : dict V.

Lemma dict_mem_cons (k k' : string) (v : V) d :
  dict_mem k ((k', v) :: d) = String.eqb k k' || dict_mem k d.
Proof. reflexivity. Qed.

Lemma dict_mem_set (k k' : string) (v : V) d :
  dict_mem k (dict_set k' v d) = String.eqb k k' || dict_mem k d.
Proof.
  induction d as [| [k0 v0] rest IH]; cbn [dict_set].
  - reflexivity.
  - destruct (String.eqb_spec k' k0) as [-> | Hne].
    + rewrite !dict_mem_cons. now destruct (String.eqb k k0).
    + rewrite !dict_mem_cons, IH.
      destruct (String.eqb k k'), (String.eqb k k0); reflexivity.
Qed.

Lemma dict_get_set_other (k k' : string) (v : V) d :
  String.eqb k k' = false -> dict_get k (dict_set k' v d) = dict_get k d.
Proof.
  intros Hne. induction d as [| [k0 v0] rest IH]; cbn [dict_set dict_get].
  - now rewrite Hne.
  - destruct (String.eqb_spec k' k0) as [-> | Hk]; cbn [dict_get].
    + now rewrite Hne.
    + now rewrite IH.
Qed.

(** [d.update(upd)] leaves every key that [upd] lacks as it was. *)
Lemma dict_update_get_other (k : string) d upd :
  dict_mem k upd = false -> dict_get k (dict_update d upd) = dict_get k d.
Proof.
  unfold dict_update. revert d.
  induction upd as [| [k' v] rest IH]; intros d Hk; cbn [fold_left].
  - reflexivity.
  - rewrite dict_mem_cons in Hk. apply orb_false_elim in Hk.
    destruct Hk as [Hne Hrest]. rewrite (IH _ Hrest).
    now apply dict_get_set_other.
Qed.

End Dicts.

Section Pretrained.

Import TrainCond TrainSpec.
Local Open Scope string_scope.

(** The filtering loop always finishes; it logs the keys the model lacks,
    in the checkpoint's order, and keeps the others. *)
Lemma filter_keys_spec (model_dict items acc : dict pyval) :
  exists kept,
    filter_keys model_dict items acc
    = (map (fun k => ELog (Ignoring k))
         (filter (fun k => negb (dict_mem k model_dict)) (keys items)),
       Ok kept)
    /\ forall k, dict_mem k kept
                 = dict_mem k acc
                   || (dict_mem k items && dict_mem k model_dict).
Proof.
  revert acc. induction items as [| [k0 v0] rest IH]; intros acc;
    cbn [filter_keys keys map filter fst].
  - exists acc. split; [reflexivity |]. intros k. cbn.
    now rewrite orb_false_r.
  - destruct (dict_mem k0 model_dict) eqn:Hmem; cbn [negb].
    + destruct (IH (dict_set k0 v0 acc)) as (kept & Heq & Hkeys).
      exists kept. split; [exact Heq |]. intros k.
      rewrite Hkeys, dict_mem_set, dict_mem_cons.
      destruct (String.eqb_spec k k0) as [-> | Hne]; cbn.
      * rewrite Hmem. now rewrite !orb_true_r.
      * now destruct (dict_mem k acc).
    + destruct (IH acc) as (kept & Heq & Hkeys).
      exists kept. unfold filter_keys in Heq |- *. fold filter_keys in Heq |- *.
      rewrite Heq. split; [reflexivity |]. intros k.
      rewrite Hkeys, dict_mem_cons.
      destruct (String.eqb_spec k k0) as [-> | Hne]; cbn; [| reflexivity].
      rewrite Hmem. cbn. now rewrite andb_false_r.
Qed.

(** Whatever the environment, an empty checkpoint mapping stops the load
    at the percentage line, before the model is touched. *)
Lemma load_pretrained_empty (E : env) (a : args) (live : state_dict)
    (path : string) :
  truthy (pretrained a) = Some path ->
  torch_load E path = Some [] ->
  load_pretrained E a live = ([ETorchLoad path], Raise ZeroDivisionError).
Proof.
  intros Hpre Hload. unfold load_pretrained. rewrite Hpre, Hload.
  reflexivity.
Qed.

(** A non-empty checkpoint is loaded by intersection: the dropped keys
    are logged in order, the kept keys are those the model has, and the
    dict handed to [load_state_dict] agrees with the live one on every
    key the checkpoint lacks. *)
Lemma load_pretrained_by_intersection (E : env) (a : args)
    (live : state_dict) (path : string) (checkpoint : dict pyval) :
  truthy (pretrained a) = Some path ->
  torch_load E path = Some checkpoint ->
  dict_mem "ema" checkpoint = false ->
  checkpoint <> [] ->
  exists kept,
    (forall k, dict_mem k kept
               = dict_mem k checkpoint && dict_mem k (lift_state_dict live))
    /\ (forall k, dict_mem k checkpoint = false ->
                  dict_get k (dict_update (lift_state_dict live) kept)
                  = dict_get k (lift_state_dict live))
    /\ exists tail,
         trace (load_pretrained E a live)
         = ETorchLoad path
           :: map (fun k => ELog (Ignoring k))
                (filter (fun k => negb (dict_mem k (lift_state_dict live)))
                   (keys checkpoint))
           ++ ELog (LoadedPercent (Z.of_nat (List.length kept))
                      (Z.of_nat (List.length checkpoint)))
           :: ELoadStateDict (dict_update (lift_state_dict live) kept)
           :: tail.
Proof.
  intros Hpre Hload Hema Hne.
  destruct (filter_keys_spec (lift_state_dict live) checkpoint [])
    as (kept & Hfilter & Hkeys).
  exists kept. split; [| split].
  - intros k. now rewrite Hkeys.
  - intros k Hk. apply dict_update_get_other.
    now rewrite Hkeys, Hk.
  - unfold load_pretrained. rewrite Hpre, Hload.
    assert (Hlen : (Z.of_nat (List.length checkpoint) =? 0)%Z = false).
    { destruct checkpoint; [contradiction | reflexivity]. }
    rewrite trace_bind. cbn [trace outcome emit fst snd app].
    rewrite trace_bind. cbn [trace outcome ret from_option fst snd app].
    unfold unwrap_ema. rewrite Hema.
    rewrite trace_bind. cbn [trace outcome ret fst snd app].
    rewrite trace_bind, Hfilter. cbn [trace outcome fst snd].
    rewrite trace_bind, Hlen. cbn [trace outcome emit fst snd app].
    unfold load_state_dict. rewrite !trace_bind.
    cbn [trace outcome emit fst snd app].
    eexists. reflexivity.
Qed.

(** C6, at an empty checkpoint: every key of the model is missing from
    it, and the load raises [ZeroDivisionError] instead of going on with
    the initialized parameters. *)
Theorem empty_checkpoint_load_raises :
  load_pretrained (TrainDemo.train_env 0 PyFloat.minus_one)
    (TrainDemo.train_args (Some "empty.pt") None) TrainDemo.live
  = ([ETorchLoad "empty.pt"], Raise ZeroDivisionError)
  /\ outcome (main (TrainDemo.train_env 0 PyFloat.minus_one)
                (TrainDemo.train_args (Some "empty.pt") None)
                TrainDemo.live)
     = Raise ZeroDivisionError.
Proof. split; vm_compute; reflexivity. Qed.

End Pretrained.

(** * Further properties of the sampling driver *)
Section LoopFacts.

Context {event : Type}.

(** A loop that finishes has finished every round, and its trace is the
    rounds' traces in order. *)
Lemma for_each_ok {A : Type} (xs : list A) (body : A -> prog event unit)
    (u : unit) :
  outcome (for_each xs body) = Ok u ->
  Forall (fun x => outcome (body x) = Ok tt) xs
  /\ trace (for_each xs body) = flat_map (fun x => trace (body x)) xs.
Proof.
  induction xs as [| x rest IH]; cbn [for_each flat_map].
  - intros _. split; [constructor | reflexivity].
  - rewrite outcome_bind, trace_bind.
    destruct (outcome (body x)) as [[] | |] eqn:Hx; try discriminate.
    intros Hrest. destruct (IH Hrest) as [Hall Htr].
    split; [now constructor | now rewrite Htr].
Qed.

(** A loop stops at its first failing round, with that round's failure,
    after the traces of the rounds before it and of the failing one. *)
Lemma for_each_stops {A : Type} (before after : list A) (x : A)
    (body : A -> prog event unit) :
  Forall (fun y => outcome (body y) = Ok tt) before ->
  (forall u, outcome (body x) <> Ok u) ->
  outcome (for_each (before ++ x :: after) body)
  = match outcome (body x) with
    | Ok _ => Ok tt
    | Exit code => Exit code
    | Raise e => Raise e
    end
  /\ trace (for_each (before ++ x :: after) body)
     = flat_map (fun y => trace (body y)) before ++ trace (body x).
Proof.
  intros Hbefore Hx. induction Hbefore as [| y rest Hy _ IH].
  - cbn [app flat_map]. split; [now apply for_each_first_fails |].
    cbn [for_each]. rewrite trace_bind.
    destruct (outcome (body x)) as [u | |];
      [destruct (Hx u); reflexivity | |]; now rewrite app_nil_r.
  - destruct IH as [IHo IHt]. cbn [app for_each flat_map].
    rewrite outcome_bind, trace_bind, Hy. split; [exact IHo |].
    now rewrite IHt, app_assoc.
Qed.

End LoopFacts.

Section SampleRunFacts.

Import SampleCond SampleSpec SampleRuns.
Local Open Scope string_scope.
Local Open Scope list_scope.

Variable E : env.
Variable a : args.

Lemma written_app (t1 t2 : list event) :
  written (t1 ++ t2) = written t1 ++ written t2.
Proof.
  induction t1 as [| e rest IH]; cbn [written app]; [reflexivity |].
  destruct (written_clip e); cbn [app]; now rewrite IH.
Qed.

Lemma written_none (t : list event) :
  Forall (fun e => is_output e = false) t -> written t = [].
Proof.
  induction 1 as [| e rest He _ IH]; cbn [written]; [reflexivity |].
  destruct e; try discriminate; exact IH.
Qed.

(** The whole trace of a clip whose mask is read and long enough, under
    a known method. *)
Lemma sample_clip_through (idx : Z) (vframes_m : list tensor)
    (start_frame_ind end_frame_ind : Z) (s : sampler) :
  read_video E idx = Some vframes_m ->
  temporal_sample E (num_frames a * frame_interval a)
    (Z.of_nat (List.length vframes_m))
  = (start_frame_ind, end_frame_ind) ->
  (end_frame_ind - start_frame_ind >=? num_frames a) = true ->
  sample_method a = method_name s ->
  negb (using_cfg a) || (0 <? num_classes a)%Z = true ->
  exists z kw fn,
    let c :=
      select_frames E vframes_m start_frame_ind (end_frame_ind - 1)
        (num_frames a) in
    let samples := run_sampler E s fn z false kw in
    let pixels := vae_decode E (tensor_div samples latent_scale) in
    outcome (setup_guidance E a idx (randn E idx)
               (tensor_mul (vae_encode E c) latent_scale))
    = Ok (z, kw, fn)
    /\ sample_clip E a idx
       = ([EReadVideo idx; EVaeEncode c]
          ++ (if using_cfg a then [EPrint "using cfg"] else [])
          ++ [ESampleLoop s fn z false kw; EPrint "samples.shape";
              EVaeDecode (tensor_div samples latent_scale)]
          ++ (if path_exists E (save_video_path a) then []
              else [EMakedirs (save_video_path a)])
          ++ [EPrint "samples.shape !!!"; EPrint "video_save_path";
              EWriteVideo (save_video_path a) idx (to_uint8 E pixels);
              EPrint "save path"],
          Ok tt).
Proof.
  intros Hv Hcrop Hlen Hs Hy.
  unfold sample_clip, setup_guidance, run_sample_method.
  rewrite Hv. cbn [bind from_option emit ret raise app].
  rewrite Hcrop, Hlen. cbn [bind from_option emit ret raise app].
  rewrite Hs.
  destruct (using_cfg a);
    [cbn in Hy; destruct (num_classes a <=? 0)%Z eqn:Hn; [lia |] |];
    destruct s, (path_exists E (save_video_path a));
    do 3 eexists; (split; [reflexivity |]); reflexivity.
Qed.

(** A clip that goes through had its mask read and long enough, and a
    known method. *)
Lemma sample_clip_ok (idx : Z) :
  outcome (sample_clip E a idx) = Ok tt ->
  exists vframes_m start_frame_ind end_frame_ind s,
    read_video E idx = Some vframes_m
    /\ temporal_sample E (num_frames a * frame_interval a)
         (Z.of_nat (List.length vframes_m))
       = (start_frame_ind, end_frame_ind)
    /\ (end_frame_ind - start_frame_ind >=? num_frames a) = true
    /\ sample_method a = method_name s
    /\ negb (using_cfg a) || (0 <? num_classes a)%Z = true.
Proof.
  intros Hok.
  assert (Hy : negb (using_cfg a) || (0 <? num_classes a)%Z = true).
  { destruct (using_cfg a) eqn:Hcfg; [| reflexivity].
    destruct (num_classes a <=? 0)%Z eqn:Hn; [| cbn; lia].
    destruct (sample_clip_empty_range E a idx Hcfg Hn) as [_ Hne].
    destruct (Hne tt). exact Hok. }
  destruct (read_video E idx) as [vframes_m |] eqn:Hv.
  2: { unfold sample_clip in Hok. rewrite Hv in Hok. discriminate. }
  destruct (temporal_sample E (num_frames a * frame_interval a)
              (Z.of_nat (List.length vframes_m))) as [s0 e0] eqn:Hcrop.
  destruct (e0 - s0 >=? num_frames a) eqn:Hlen.
  2: { unfold sample_clip in Hok. rewrite Hv in Hok.
       cbn [bind from_option emit ret raise app] in Hok.
       rewrite Hcrop, Hlen in Hok. discriminate. }
  exists vframes_m, s0, e0.
  destruct (String.eqb_spec (sample_method a) "ddim") as [Hd | Hd];
    [exists ddim_sample_loop; auto |].
  destruct (String.eqb_spec (sample_method a) "ddpm") as [Hp | Hp];
    [exists p_sample_loop; auto |].
  destruct (sample_clip_unknown E a idx Hd Hp) as [_ Hne].
  destruct (Hne tt). exact Hok.
Qed.

(** The set-up, once the checkpoint is there and holds ["ema"]. *)
Lemma main_after_prelude (path : string) (states : list string) :
  ckpt a = Some path ->
  torch_load E path = Some states ->
  existsb (String.eqb "ema") states = true ->
  trace (main E a)
  = prelude a path ++ trace (for_each (range 1 17) (sample_clip E a))
  /\ outcome (main E a) = outcome (for_each (range 1 17) (sample_clip E a)).
Proof.
  intros Hckpt Hload Hema. unfold main, prelude. rewrite Hckpt.
  split.
  - repeat (rewrite trace_bind;
            cbn [trace outcome emit ret from_option when fst snd]).
    rewrite Hload. cbn [trace outcome from_option ret fst snd].
    rewrite trace_bind, Hema. cbn [trace outcome ret fst snd].
    repeat (rewrite trace_bind;
            cbn [trace outcome emit ret from_option when fst snd]).
    destruct (use_compile a), (use_fp16 a);
      cbn [trace outcome emit ret when fst snd app];
      repeat (rewrite ?trace_bind, ?outcome_bind;
              cbn [trace outcome emit ret when fst snd app]);
      reflexivity.
  - repeat (rewrite outcome_bind;
            cbn [trace outcome emit ret from_option when fst snd]).
    destruct (use_compile a); cbn [outcome when emit ret snd];
      rewrite Hload; cbn [outcome from_option ret snd];
      rewrite outcome_bind, Hema; cbn [outcome ret snd];
      repeat (rewrite outcome_bind; cbn [outcome emit ret snd]);
      destruct (use_fp16 a); cbn [outcome when emit ret snd];
      repeat (rewrite outcome_bind; cbn [outcome emit ret snd]);
      reflexivity.
Qed.

(** A run that returns had its checkpoint, with the ["ema"] entry. *)
Lemma main_ok_loaded (u : unit) :
  outcome (main E a) = Ok u ->
  exists path states,
    ckpt a = Some path
    /\ torch_load E path = Some states
    /\ existsb (String.eqb "ema") states = true.
Proof.
  intros Hok. unfold main in Hok.
  destruct (ckpt a) as [path |]; [| discriminate].
  destruct (torch_load E path) as [states |] eqn:Hload.
  - destruct (existsb (String.eqb "ema") states) eqn:Hema.
    + exists path, states. auto.
    + exfalso. revert Hok.
      repeat (rewrite outcome_bind; cbn [outcome emit snd]).
      destruct (use_compile a); cbn [outcome when emit ret snd];
        repeat first [ rewrite outcome_bind
                     | progress cbn [outcome emit from_option ret raise snd]
                     | rewrite Hema ];
        discriminate.
  - exfalso. revert Hok.
    repeat (rewrite outcome_bind; cbn [outcome emit snd]).
    destruct (use_compile a); cbn [outcome when emit ret snd];
      repeat first [ rewrite outcome_bind
                   | progress cbn [outcome emit from_option ret raise snd] ];
      discriminate.
Qed.

End SampleRunFacts.

Lemma map_seq_offset {A : Type} (f g : nat -> A) (k len : nat) :
  (forall i, f (k + i)%nat = g i) -> map f (seq k len) = map g (seq 0 len).
Proof.
  revert k g. induction len as [| len IH]; intros k g H; cbn [seq map].
  - reflexivity.
  - f_equal.
    + rewrite <- (H 0%nat). f_equal. lia.
    + rewrite (IH (S k) (fun i => g (S i))).
      * now rewrite <- (seq_shift len 0), map_map.
      * intros i. rewrite <- H. f_equal. lia.
Qed.

Lemma range_split (lo j hi : Z) :
  lo <= j < hi -> range lo hi = range lo j ++ j :: range (j + 1) hi.
Proof.
  intros H. unfold range.
  replace (Z.to_nat (hi - lo))
    with (Z.to_nat (j - lo) + S (Z.to_nat (hi - (j + 1))))%nat by lia.
  rewrite seq_app, map_app. cbn [seq map]. f_equal.
  f_equal; [lia |].
  apply map_seq_offset. intros i. lia.
Qed.

Section SampleRunProperties.

Import SampleCond SampleSpec SampleRuns.
Local Open Scope string_scope.
Local Open Scope list_scope.

Variable E : env.
Variable a : args.


Lemma prelude_writes_nothing (path : string) : written (prelude a path) = [].
Proof. unfold prelude. destruct (use_compile a), (use_fp16 a); reflexivity. Qed.

Lemma clip_written (idx : Z) :
  outcome (sample_clip E a idx) = Ok tt ->
  written (trace (sample_clip E a idx)) = [(save_video_path a, idx)].
Proof.
  intros Hok.
  destruct (sample_clip_ok E a idx Hok)
    as (v & s0 & e0 & s & Hv & Hc & Hl & Hs & Hy).
  destruct (sample_clip_through E a idx v s0 e0 s Hv Hc Hl Hs Hy)
    as (z & kw & fn & _ & Heq).
  rewrite Heq. cbn [trace fst].
  destruct (using_cfg a), (path_exists E (save_video_path a)); reflexivity.
Qed.

(** A clip that fails has not written its video. *)
Lemma failed_clip_writes_nothing (idx : Z) (e : exn) :
  outcome (sample_clip E a idx) = Raise e ->
  written (trace (sample_clip E a idx)) = [].
Proof.
  intros Hfail.
  destruct (negb (using_cfg a) || (0 <? num_classes a)%Z) eqn:Hy.
  2: { apply written_none. apply orb_false_elim in Hy. destruct Hy as [Hc Hn].
       apply (sample_clip_empty_range E a idx).
       - now destruct (using_cfg a).
       - lia. }
  destruct (read_video E idx) as [v |] eqn:Hv.
  2: { unfold sample_clip. rewrite Hv. reflexivity. }
  destruct (temporal_sample E (num_frames a * frame_interval a)
              (Z.of_nat (List.length v))) as [s0 e0] eqn:Hc.
  destruct (e0 - s0 >=? num_frames a) eqn:Hl.
  2: { unfold sample_clip. rewrite Hv.
       cbn [bind from_option emit ret raise app].
       rewrite Hc, Hl. reflexivity. }
  destruct (String.eqb_spec (sample_method a) "ddim") as [Hd | Hd].
  { destruct (sample_clip_through E a idx v s0 e0 ddim_sample_loop
                Hv Hc Hl Hd Hy) as (z & kw & fn & _ & Heq).
    rewrite Heq in Hfail. discriminate. }
  destruct (String.eqb_spec (sample_method a) "ddpm") as [Hp | Hp].
  { destruct (sample_clip_through E a idx v s0 e0 p_sample_loop
                Hv Hc Hl Hp Hy) as (z & kw & fn & _ & Heq).
    rewrite Heq in Hfail. discriminate. }
  apply written_none. apply (sample_clip_unknown E a idx Hd Hp).
Qed.

Lemma clips_written (idxs : list Z) :
  Forall (fun idx => outcome (sample_clip E a idx) = Ok tt) idxs ->
  written (flat_map (fun idx => trace (sample_clip E a idx)) idxs)
  = map (fun idx => (save_video_path a, idx)) idxs.
Proof.
  induction 1 as [| idx rest Hidx _ IH]; cbn [flat_map map];
    [reflexivity |].
  now rewrite written_app, (clip_written idx Hidx), IH.
Qed.

(** X2: a run that returns has written exactly sixteen videos, for the
    clips 1 to 16 in this order, all under [save_video_path]. *)
Theorem finished_run_wrote_clips_in_order (u : unit) :
  outcome (main E a) = Ok u ->
  written (trace (main E a))
  = map (fun idx => (save_video_path a, idx)) (range 1 17).
Proof.
  intros Hok.
  destruct (main_ok_loaded E a u Hok) as (path & states & Hc & Hl & He).
  destruct (main_after_prelude E a path states Hc Hl He) as [Htr Hout].
  rewrite Hout in Hok. destruct (for_each_ok _ _ _ Hok) as [Hall Hloop].
  rewrite Htr, written_app, prelude_writes_nothing, Hloop.
  now apply clips_written.
Qed.

(** X3: a clip that goes through moves its data in one order: the mask
    is read, encoded, the sampler runs once on the scaled latent, the
    sampler's result over the constant is decoded, and the decoded pixels
    are what is written. *)
Theorem clip_data_flow (idx : Z) :
  outcome (sample_clip E a idx) = Ok tt ->
  exists c z kw fn s,
    kw_y_image kw = tensor_mul (vae_encode E c) latent_scale
    /\ filter is_pipeline (trace (sample_clip E a idx))
       = [EReadVideo idx;
          EVaeEncode c;
          ESampleLoop s fn z false kw;
          EVaeDecode
            (tensor_div (run_sampler E s fn z false kw) latent_scale);
          EWriteVideo (save_video_path a) idx
            (to_uint8 E
               (vae_decode E
                  (tensor_div (run_sampler E s fn z false kw)
                     latent_scale)))].
Proof.
  intros Hok.
  destruct (sample_clip_ok E a idx Hok)
    as (v & s0 & e0 & s & Hv & Hc & Hl & Hs & Hy).
  destruct (sample_clip_through E a idx v s0 e0 s Hv Hc Hl Hs Hy)
    as (z & kw & fn & Hg & Heq).
  cbn zeta in Hg, Heq.
  exists (select_frames E v s0 (e0 - 1) (num_frames a)), z, kw, fn, s.
  split.
  - apply setup_guidance_result in Hg. apply Hg.
  - rewrite Heq. cbn [trace fst].
    destruct (using_cfg a), (path_exists E (save_video_path a)); reflexivity.
Qed.

(** X4: the loop stops at the first clip that fails: the run ends with
    that clip's exception, having written the clips before it and no
    other. *)
Theorem first_failing_clip_stops_run (path : string) (states : list string)
    (j : Z) (e : exn) :
  ckpt a = Some path ->
  torch_load E path = Some states ->
  existsb (String.eqb "ema") states = true ->
  1 <= j < 17 ->
  Forall (fun i => outcome (sample_clip E a i) = Ok tt) (range 1 j) ->
  outcome (sample_clip E a j) = Raise e ->
  outcome (main E a) = Raise e
  /\ written (trace (main E a))
     = map (fun idx => (save_video_path a, idx)) (range 1 j).
Proof.
  intros Hc Hl He Hj Hbefore Hfail.
  destruct (main_after_prelude E a path states Hc Hl He) as [Htr Hout].
  assert (Hne : forall u, outcome (sample_clip E a j) <> Ok u).
  { intros u. rewrite Hfail. discriminate. }
  destruct (for_each_stops (range 1 j) (range (j + 1) 17) j
              (sample_clip E a) Hbefore Hne) as [Ho Ht].
  rewrite <- (range_split 1 j 17 Hj) in Ho, Ht.
  split.
  - rewrite Hout, Ho, Hfail. reflexivity.
  - rewrite Htr, written_app, prelude_writes_nothing, Ht, written_app.
    rewrite (failed_clip_writes_nothing j e Hfail), app_nil_r.
    now apply clips_written.
Qed.

(** X5: a checkpoint file without the ["ema"] entry ends the run with
    [KeyError] after the model has been built and before any clip is
    touched. *)
Theorem checkpoint_without_ema_raises (path : string) (states : list string) :
  ckpt a = Some path ->
  torch_load E path = Some states ->
  existsb (String.eqb "ema") states = false ->
  outcome (main E a) = Raise (KeyError "ema")
  /\ filter is_clip_work (trace (main E a)) = []
  /\ In (EGetModels (image_size a / 8)) (trace (main E a)).
Proof.
  intros Hc Hl He. unfold main. rewrite Hc.
  repeat first [ rewrite trace_bind | rewrite outcome_bind
               | progress cbn [trace outcome emit fst snd] ].
  destruct (use_compile a); cbn [trace outcome when emit ret fst snd];
    repeat first [ rewrite trace_bind | rewrite outcome_bind
                 | progress cbn [trace outcome emit from_option ret raise
                                 fst snd]
                 | rewrite Hl | rewrite He ];
    (split; [reflexivity |]); (split; [reflexivity |]);
    cbn; auto.
Qed.

(** X6: a checkpoint file that cannot be read ends the run with
    [FileNotFoundError] right after the load is attempted; the model has
    been built by then, nothing else has happened. *)
Theorem unreadable_checkpoint_raises (path : string) :
  ckpt a = Some path ->
  torch_load E path = None ->
  main E a
  = ([EPrint (model a); EGetModels (image_size a / 8)]
     ++ (if use_compile a then [ECompile] else [])
     ++ [ETorchLoad path],
     Raise FileNotFoundError).
Proof.
  intros Hc Hl. unfold main. rewrite Hc.
  cbn [bind emit app]. destruct (use_compile a);
    cbn [bind when emit ret app]; rewrite Hl; reflexivity.
Qed.

(** X7: a crop shorter than [num_frames] stops the clip on the assertion
    of line 138, before the codec is used. *)
Theorem short_crop_fails_assertion (idx : Z) (vframes_m : list tensor)
    (start_frame_ind end_frame_ind : Z) :
  read_video E idx = Some vframes_m ->
  temporal_sample E (num_frames a * frame_interval a)
    (Z.of_nat (List.length vframes_m))
  = (start_frame_ind, end_frame_ind) ->
  end_frame_ind - start_frame_ind < num_frames a ->
  sample_clip E a idx = ([EReadVideo idx], Raise AssertionError).
Proof.
  intros Hv Hc Hlt. unfold sample_clip. rewrite Hv.
  cbn [bind from_option emit ret raise app]. rewrite Hc.
  destruct (end_frame_ind - start_frame_ind >=? num_frames a) eqn:Hge;
    [lia | reflexivity].
Qed.

End SampleRunProperties.



Lemma finished_run_wrote_clips_in_order_witness :
  SampleRuns.written
    (trace (SampleCond.main Demo.sample_env
              (Demo.sample_args PyFloat.one "ddpm")))
  = map (fun idx => ("out/"%string, idx)) (range 1 17).
Proof.
  apply (finished_run_wrote_clips_in_order Demo.sample_env
           (Demo.sample_args PyFloat.one "ddpm") tt).
  reflexivity.
Defined.

Lemma clip_data_flow_witness :
  exists c z kw fn s,
    SampleCond.kw_y_image kw
    = tensor_mul (SampleCond.vae_encode Demo.sample_env c) latent_scale
    /\ filter SampleRuns.is_pipeline
         (trace (SampleCond.sample_clip Demo.sample_env
                   (Demo.sample_args (PyFloat.of_Z 4) "ddim") 3))
       = [SampleCond.EReadVideo 3;
          SampleCond.EVaeEncode c;
          SampleCond.ESampleLoop s fn z false kw;
          SampleCond.EVaeDecode
            (tensor_div
               (SampleCond.run_sampler Demo.sample_env s fn z false kw)
               latent_scale);
          SampleCond.EWriteVideo "out/" 3
            (SampleCond.to_uint8 Demo.sample_env
               (SampleCond.vae_decode Demo.sample_env
                  (tensor_div
                     (SampleCond.run_sampler Demo.sample_env s fn z false kw)
                     latent_scale)))].
Proof.
  apply (clip_data_flow Demo.sample_env
           (Demo.sample_args (PyFloat.of_Z 4) "ddim") 3).
  reflexivity.
Defined.

Lemma first_failing_clip_stops_run_witness :
  outcome (SampleCond.main (SampleRuns.env_missing_from 5)
             (Demo.sample_args PyFloat.one "ddim"))
  = Raise FileNotFoundError
  /\ SampleRuns.written
       (trace (SampleCond.main (SampleRuns.env_missing_from 5)
                 (Demo.sample_args PyFloat.one "ddim")))
     = [("out/"%string, 1); ("out/"%string, 2); ("out/"%string, 3);
        ("out/"%string, 4)].
Proof.
  apply (first_failing_clip_stops_run (SampleRuns.env_missing_from 5)
           (Demo.sample_args PyFloat.one "ddim") "ema.pt" ["ema"%string] 5
           FileNotFoundError).
  - reflexivity.
  - reflexivity.
  - reflexivity.
  - lia.
  - change (range 1 5) with [1; 2; 3; 4].
    repeat (constructor; [reflexivity |]). constructor.
  - reflexivity.
Defined.

Lemma checkpoint_without_ema_raises_witness :
  outcome (SampleCond.main SampleRuns.env_no_ema
             (SampleRuns.args_with_ckpt "raw.pt"))
  = Raise (KeyError "ema")
  /\ filter SampleRuns.is_clip_work
       (trace (SampleCond.main SampleRuns.env_no_ema
                 (SampleRuns.args_with_ckpt "raw.pt"))) = []
  /\ In (SampleCond.EGetModels (256 / 8))
       (trace (SampleCond.main SampleRuns.env_no_ema
                 (SampleRuns.args_with_ckpt "raw.pt"))).
Proof.
  apply (checkpoint_without_ema_raises SampleRuns.env_no_ema
           (SampleRuns.args_with_ckpt "raw.pt") "raw.pt"
           ["model"%string; "opt"%string]);
    reflexivity.
Defined.

Lemma unreadable_checkpoint_raises_witness :
  SampleCond.main Demo.sample_env (SampleRuns.args_with_ckpt "gone.pt")
  = ([SampleCond.EPrint "EnDora-XL/2"; SampleCond.EGetModels (256 / 8);
      SampleCond.ETorchLoad "gone.pt"],
     Raise FileNotFoundError).
Proof.
  apply (unreadable_checkpoint_raises Demo.sample_env
           (SampleRuns.args_with_ckpt "gone.pt") "gone.pt");
    reflexivity.
Defined.

Lemma short_crop_fails_assertion_witness :
  SampleCond.sample_clip SampleRuns.env_short_crop
    (Demo.sample_args PyFloat.one "ddim") 1
  = ([SampleCond.EReadVideo 1], Raise AssertionError).
Proof.
  apply (short_crop_fails_assertion SampleRuns.env_short_crop
           (Demo.sample_args PyFloat.one "ddim") 1
           [[PyFloat.one]; [PyFloat.one]] 0 1).
  - reflexivity.
  - reflexivity.
  - reflexivity.
Defined.

(** * Further properties of the training driver *)
Section StepEquations.

Import TrainCond TrainSpec TrainRuns.
Local Open Scope list_scope.

Variable E : env.
Variable a : args.

(** The log phase, when the interval is not zero. *)
Lemma log_phase_eq (epoch : Z) (st : state) :
  log_every a <> 0 ->
  log_phase a epoch st
  = if train_steps st mod log_every a =? 0
    then ([ESynchronize;
           EAllReduce (PyFloat.div (running_loss st)
                         (PyFloat.of_Z (log_steps st)));
           ELog (StepSummary (train_steps st) epoch
                   (PyFloat.div (running_loss st)
                      (PyFloat.of_Z (log_steps st))))],
          Ok {| train_steps := train_steps st; log_steps := 0;
                running_loss := PyFloat.of_Z 0 |})
    else ([], Ok st).
Proof.
  intros Hlog. unfold log_phase.
  destruct (log_every a =? 0) eqn:Hz; [lia |].
  destruct (_ =? 0); reflexivity.
Qed.

Lemma checkpoint_phase_outcome (st : state) :
  outcome (checkpoint_phase E a st)
  = if ckpt_every a =? 0 then Raise ZeroDivisionError else Ok tt.
Proof.
  unfold checkpoint_phase.
  destruct (ckpt_every a =? 0); [reflexivity |].
  destruct (_ && _); [| reflexivity].
  destruct (rank E =? 0); reflexivity.
Qed.

(** One step, up to the log and checkpoint phases. *)
Lemma train_step_eq (epoch : Z) (st : state) (vd : video_data) :
  0 < num_timesteps E ->
  exists t,
    In t (randint_outcomes 0 (num_timesteps E)
            (Z.to_nat (dim0 (video vd))))
    /\ let x := step_latent E (video vd) in
       let kw := step_kwargs E a vd in
       let loss := total_loss a (training_losses E x t kw) in
       let logged := log_phase a epoch (stepped st loss) in
       trace (train_step E a epoch st vd)
       = [EDinoLayers special_list; EVaeEncode (flat (video vd))]
         ++ (if extras a =? 3 then [EVaeEncode (flat (video_mask vd))]
             else [])
         ++ [ETrainingLosses x t kw; EBackward loss;
             EClipGradNorm (negb (train_steps st <? start_clip_iter a));
             EOptStep; ELrStep; EZeroGrad; EUpdateEma]
         ++ trace logged
         ++ match outcome logged with
            | Ok st' => trace (checkpoint_phase E a st')
            | _ => []
            end
       /\ outcome (train_step E a epoch st vd)
          = match outcome logged with
            | Ok st' =>
                match outcome (checkpoint_phase E a st') with
                | Ok _ => Ok st'
                | Exit code => Exit code
                | Raise e => Raise e
                end
            | Exit code => Exit code
            | Raise e => Raise e
            end.
Proof.
  intros HT.
  destruct (randint_draws E (train_steps st) 0 (num_timesteps E)
              (Z.to_nat (dim0 (video vd))) HT) as (t & Hdraw & Hin).
  exists t. split; [exact Hin |].
  unfold train_step, encode_latent, step_kwargs, step_latent, stepped.
  cbn zeta.
  destruct (extras a =? 3); split;
    repeat first [ rewrite trace_bind | rewrite outcome_bind
                 | progress cbn [trace outcome emit ret fst snd app dim0]
                 | rewrite Hdraw ];
    try reflexivity.
  all: match goal with
       | |- context [outcome (log_phase ?x ?y ?z)] =>
           destruct (outcome (log_phase x y z)) as [st' | |]
       end; try reflexivity.
  all: try (rewrite app_nil_r; reflexivity).
  all: rewrite ?trace_bind, ?outcome_bind;
    destruct (outcome (checkpoint_phase E a st')) as [[] | |];
    cbn [trace outcome ret fst snd]; rewrite ?app_nil_r; reflexivity.
Qed.

End StepEquations.

Section StepProperties.

Import TrainCond TrainSpec TrainRuns.
Local Open Scope list_scope.

Variable E : env.
Variable a : args.

Lemma log_phase_quiet (f : event -> bool) (epoch : Z) (st : state) :
  f ESynchronize = false ->
  (forall avg, f (EAllReduce avg) = false) ->
  (forall m, f (ELog m) = false) ->
  filter f (trace (log_phase a epoch st)) = [].
Proof.
  intros Hs Hr Hl. apply Forall_filter_nil.
  apply log_phase_events; auto.
Qed.

Lemma checkpoint_phase_quiet (f : event -> bool) (st : state) :
  (forall n c, f (ESave n c) = false) ->
  (forall m, f (ELog m) = false) ->
  f EBarrier = false ->
  filter f (trace (checkpoint_phase E a st)) = [].
Proof.
  intros Hs Hl Hb. rewrite checkpoint_phase_trace.
  destruct (ckpt_every a =? 0); [reflexivity |].
  destruct (_ && _); [| reflexivity].
  destruct (rank E =? 0); cbn [app filter]; now rewrite ?Hs, ?Hl, ?Hb.
Qed.

(** The tail of a step, after the optimizer events, is quiet for a
    filter that drops logs, reductions, writes and barriers. *)
Lemma step_tail_quiet (f : event -> bool) (epoch : Z) (st : state) :
  f ESynchronize = false ->
  (forall avg, f (EAllReduce avg) = false) ->
  (forall m, f (ELog m) = false) ->
  (forall n c, f (ESave n c) = false) ->
  f EBarrier = false ->
  filter f
    (trace (log_phase a epoch st)
     ++ match outcome (log_phase a epoch st) with
        | Ok st' => trace (checkpoint_phase E a st')
        | _ => []
        end) = [].
Proof.
  intros Hs Hr Hl Hw Hb. rewrite filter_app, log_phase_quiet by auto.
  destruct (outcome (log_phase a epoch st)); [| reflexivity | reflexivity].
  now apply checkpoint_phase_quiet.
Qed.

Lemma step_optimizer_events (epoch : Z) (st : state) (vd : video_data) :
  0 < num_timesteps E ->
  exists loss,
    filter is_optimizer (trace (train_step E a epoch st vd))
    = [EBackward loss;
       EClipGradNorm (start_clip_iter a <=? train_steps st);
       EOptStep; ELrStep; EZeroGrad; EUpdateEma].
Proof.
  intros HT.
  destruct (train_step_eq E a epoch st vd HT) as (t & _ & Htr & _).
  cbn zeta in Htr. eexists. rewrite Htr, !filter_app.
  rewrite <- filter_app, step_tail_quiet by reflexivity.
  rewrite Z.leb_antisym. destruct (extras a =? 3); reflexivity.
Qed.

(** X8: every step whose timestep draw succeeds runs the optimizer
    events once and in one order: backward, gradient-norm computation,
    optimizer step, scheduler step, gradient reset, EMA update; the norm
    is clipped exactly when the step counter has reached
    [start_clip_iter]. *)
Theorem step_runs_optimizer_in_order (epoch : Z) (st : state)
    (vd : video_data) :
  0 < num_timesteps E ->
  exists loss clip_grad,
    filter is_optimizer (trace (train_step E a epoch st vd))
    = [EBackward loss; EClipGradNorm clip_grad;
       EOptStep; ELrStep; EZeroGrad; EUpdateEma]
    /\ (clip_grad = true <-> start_clip_iter a <= train_steps st).
Proof.
  intros HT. destruct (step_optimizer_events epoch st vd HT) as (loss & H).
  exists loss, (start_clip_iter a <=? train_steps st).
  split; [exact H |]. apply Z.leb_le.
Qed.

Lemma step_outcome (epoch : Z) (st : state) (vd : video_data) :
  0 < num_timesteps E ->
  log_every a <> 0 ->
  ckpt_every a <> 0 ->
  exists loss,
    outcome (train_step E a epoch st vd)
    = Ok (if (train_steps st + 1) mod log_every a =? 0
          then {| train_steps := train_steps st + 1; log_steps := 0;
                  running_loss := PyFloat.of_Z 0 |}
          else stepped st loss).
Proof.
  intros HT Hlog Hckpt.
  destruct (train_step_eq E a epoch st vd HT) as (t & _ & _ & Hout).
  cbn zeta in Hout. eexists. rewrite Hout.
  rewrite (log_phase_eq a epoch _ Hlog). cbn [stepped train_steps].
  destruct (_ =? 0); cbn [outcome snd];
    rewrite checkpoint_phase_outcome;
    (destruct (ckpt_every a =? 0) eqn:Hz; [lia | reflexivity]).
Qed.

(** X9: with non-zero intervals a step whose draw succeeds returns with
    the step counter advanced by one; the running loss and its step count
    are reset when the new counter is a multiple of [log_every], and
    otherwise grow by one and by the loss of this step, the very value
    that was handed to [backward]: the total loss of the step's one call
    of [training_losses]. *)
Theorem step_updates_counters (epoch : Z) (st : state) (vd : video_data) :
  0 < num_timesteps E ->
  log_every a <> 0 ->
  ckpt_every a <> 0 ->
  exists st' x t kw,
    let loss := total_loss a (training_losses E x t kw) in
    filter is_loss_event (trace (train_step E a epoch st vd))
    = [ETrainingLosses x t kw; EBackward loss]
    /\ outcome (train_step E a epoch st vd) = Ok st'
    /\ train_steps st' = train_steps st + 1
    /\ (if (train_steps st + 1) mod log_every a =? 0
        then log_steps st' = 0 /\ running_loss st' = PyFloat.of_Z 0
        else log_steps st' = log_steps st + 1
             /\ running_loss st' = PyFloat.add (running_loss st) loss).
Proof.
  intros HT Hlog Hckpt.
  destruct (train_step_eq E a epoch st vd HT) as (t & _ & Htr & Hout).
  cbn zeta in Htr, Hout.
  rewrite (log_phase_eq a epoch _ Hlog) in Hout.
  cbn [stepped train_steps] in Hout.
  assert (Hcp : forall st0, outcome (checkpoint_phase E a st0) = Ok tt).
  { intros st0. rewrite checkpoint_phase_outcome.
    destruct (ckpt_every a =? 0) eqn:Hz; [lia | reflexivity]. }
  assert (Hloss :
            filter is_loss_event (trace (train_step E a epoch st vd))
            = [ETrainingLosses (step_latent E (video vd)) t
                 (step_kwargs E a vd);
               EBackward
                 (total_loss a
                    (training_losses E (step_latent E (video vd)) t
                       (step_kwargs E a vd)))]).
  { rewrite Htr, !filter_app.
    rewrite <- (filter_app _ (trace _)), step_tail_quiet by reflexivity.
    destruct (extras a =? 3); reflexivity. }
  destruct ((train_steps st + 1) mod log_every a =? 0) eqn:Hdue;
    cbn [outcome snd] in Hout; rewrite Hcp in Hout;
    eexists; exists (step_latent E (video vd)), t, (step_kwargs E a vd);
    cbn zeta; (split; [exact Hloss |]); (split; [exact Hout |]);
    cbn [train_steps log_steps running_loss stepped]; auto.
Qed.

(** X10: a zero [log_every] or [ckpt_every] makes the first step raise
    [ZeroDivisionError], and only after the weights have been updated:
    the six optimizer events have all happened, and no checkpoint is
    written. *)
Theorem zero_interval_raises_after_update (epoch : Z) (st : state)
    (vd : video_data) :
  0 < num_timesteps E ->
  log_every a = 0 \/ ckpt_every a = 0 ->
  outcome (train_step E a epoch st vd) = Raise ZeroDivisionError
  /\ (exists loss,
        filter is_optimizer (trace (train_step E a epoch st vd))
        = [EBackward loss;
           EClipGradNorm (start_clip_iter a <=? train_steps st);
           EOptStep; ELrStep; EZeroGrad; EUpdateEma])
  /\ saved_steps (trace (train_step E a epoch st vd)) = [].
Proof.
  intros HT Hzero. split; [| split].
  - destruct (train_step_eq E a epoch st vd HT) as (t & _ & _ & Hout).
    cbn zeta in Hout. rewrite Hout.
    destruct (Z.eq_dec (log_every a) 0) as [Hl | Hl].
    + unfold log_phase. rewrite Hl. reflexivity.
    + destruct Hzero as [Hz | Hz]; [contradiction |].
      rewrite (log_phase_eq a epoch _ Hl).
      destruct (_ =? 0); cbn [outcome snd];
        rewrite checkpoint_phase_outcome, Hz; reflexivity.
  - now apply step_optimizer_events.
  - destruct (train_step_eq E a epoch st vd HT) as (t & _ & Htr & _).
    cbn zeta in Htr. rewrite Htr.
    destruct (Z.eq_dec (log_every a) 0) as [Hl | Hl].
    + unfold log_phase. rewrite Hl. cbn [trace outcome raise fst snd].
      destruct (extras a =? 3); reflexivity.
    + destruct Hzero as [Hz | Hz]; [contradiction |].
      rewrite (log_phase_eq a epoch _ Hl).
      destruct (_ =? 0); cbn [trace outcome fst snd];
        rewrite checkpoint_phase_trace, Hz;
        destruct (extras a =? 3); reflexivity.
Qed.

(** X11: the conditioning a step uses is decided by [extras]: the mask
    is encoded, scaled and passed as [y_image] exactly when [extras] is 3;
    the video names are passed as [y] exactly when [extras] is 2, and
    [use_image_num] is passed otherwise. *)
Theorem step_conditioning_follows_extras (epoch : Z) (st : state)
    (vd : video_data) :
  0 < num_timesteps E ->
  exists x t kw,
    filter is_training_losses (trace (train_step E a epoch st vd))
    = [ETrainingLosses x t kw]
    /\ filter is_encode (trace (train_step E a epoch st vd))
       = EVaeEncode (flat (video vd))
         :: (if extras a =? 3 then [EVaeEncode (flat (video_mask vd))]
             else [])
    /\ kw_y_image kw
       = (if extras a =? 3
          then Some {| dim0 := dim0 (video_mask vd);
                       flat := tensor_mul
                                 (vae_encode E (flat (video_mask vd)))
                                 latent_scale |}
          else None)
    /\ kw_y kw = (if extras a =? 2 then Some (video_name vd) else None)
    /\ kw_use_image_num kw
       = (if extras a =? 2 then None else Some (use_image_num a))
    /\ kw_mode kw = mode a.
Proof.
  intros HT.
  destruct (train_step_eq E a epoch st vd HT) as (t & _ & Htr & _).
  cbn zeta in Htr.
  exists (step_latent E (video vd)), t, (step_kwargs E a vd).
  split; [| split; [| repeat split]].
  - rewrite Htr, !filter_app.
    rewrite <- (filter_app _ (trace _)), step_tail_quiet by reflexivity.
    destruct (extras a =? 3); reflexivity.
  - rewrite Htr, !filter_app.
    rewrite <- (filter_app _ (trace _)), step_tail_quiet by reflexivity.
    destruct (extras a =? 3); reflexivity.
Qed.

End StepProperties.

Section LoopProperties.

Import TrainCond TrainSpec TrainRuns.
Local Open Scope list_scope.

Variable E : env.
Variable a : args.

Hypothesis timesteps_positive : 0 < num_timesteps E.
Hypothesis log_every_nonzero : log_every a <> 0.
Hypothesis ckpt_every_nonzero : ckpt_every a <> 0.

Lemma steps_after_succ (s : Z) (k : nat) :
  steps_after s (S k) = (s + 1) :: steps_after (s + 1) k.
Proof.
  unfold steps_after. cbn [seq map]. f_equal.
  rewrite <- seq_shift, map_map. apply map_ext. intros i. lia.
Qed.

Lemma saved_steps_app (t1 t2 : list event) :
  saved_steps (t1 ++ t2) = saved_steps t1 ++ saved_steps t2.
Proof.
  induction t1 as [| e rest IH]; cbn [saved_steps app]; [reflexivity |].
  destruct e; cbn [app]; now rewrite IH.
Qed.

Lemma saved_steps_none (t : list event) :
  Forall (fun e => is_save e = false) t -> saved_steps t = [].
Proof.
  induction 1 as [| e rest He _ IH]; cbn [saved_steps]; [reflexivity |].
  destruct e; try discriminate; exact IH.
Qed.

(** What one step writes and where it waits. *)
Lemma step_saves (epoch : Z) (st : state) (vd : video_data) :
  saved_steps (trace (train_step E a epoch st vd))
  = (if due a (train_steps st + 1) && (rank E =? 0)
     then [train_steps st + 1] else [])
  /\ filter is_barrier (trace (train_step E a epoch st vd))
     = (if due a (train_steps st + 1) then [EBarrier] else []).
Proof.
  destruct (train_step_eq E a epoch st vd timesteps_positive)
    as (t & _ & Htr & _).
  cbn zeta in Htr. rewrite Htr.
  rewrite (log_phase_eq a epoch _ log_every_nonzero).
  cbn [stepped train_steps]. unfold due.
  destruct (_ =? 0); cbn [trace outcome fst snd train_steps];
    rewrite checkpoint_phase_trace;
    cbn [train_steps];
    (destruct (ckpt_every a =? 0) eqn:Hz; [lia |]);
    destruct (_ && _), (rank E =? 0), (extras a =? 3); split; reflexivity.
Qed.

Lemma run_batches_outcome (epoch : Z) (batches : list video_data)
    (st : state) :
  exists st',
    outcome (run_batches E a epoch batches st) = Ok st'
    /\ train_steps st' = train_steps st + Z.of_nat (List.length batches).
Proof.
  revert st. induction batches as [| vd rest IH]; intros st;
    cbn [run_batches].
  - exists st. split; [reflexivity | cbn; lia].
  - destruct (step_outcome E a epoch st vd timesteps_positive
                log_every_nonzero ckpt_every_nonzero) as (loss & Hstep).
    rewrite outcome_bind, Hstep.
    match goal with
    | |- context [run_batches E a epoch rest ?s] =>
        destruct (IH s) as (st' & Hok & Hsteps);
        assert (Hs : train_steps s = train_steps st + 1)
          by (destruct ((train_steps st + 1) mod log_every a =? 0);
              reflexivity)
    end.
    exists st'. split; [exact Hok |].
    rewrite Hsteps, Hs. cbn [List.length]. lia.
Qed.

(** X12: a pass over the batches of an epoch never stops early: with
    non-zero intervals and a working timestep draw it returns, one step
    per batch, so the step counter grows by the number of batches; there
    is no test against [max_train_steps] inside an epoch. *)
Theorem epoch_takes_one_step_per_batch (epoch : Z)
    (batches : list video_data) (st : state) :
  exists st',
    outcome (run_batches E a epoch batches st) = Ok st'
    /\ train_steps st' = train_steps st + Z.of_nat (List.length batches)
    /\ List.length (filter is_training_losses
                      (trace (run_batches E a epoch batches st)))
       = List.length batches.
Proof.
  destruct (run_batches_outcome epoch batches st) as (st' & Hok & Hsteps).
  exists st'. split; [exact Hok |]. split; [exact Hsteps |].
  clear st' Hok Hsteps. revert st.
  induction batches as [| vd rest IH]; intros st; cbn [run_batches];
    [reflexivity |].
  destruct (step_outcome E a epoch st vd timesteps_positive
              log_every_nonzero ckpt_every_nonzero) as (loss & Hstep).
  destruct (train_step_trace E a epoch st vd timesteps_positive)
    as (t & tail & _ & Htr & Htail).
  rewrite trace_bind, Hstep, filter_app, length_app, IH.
  rewrite Htr, !filter_app.
  assert (Hnil : filter is_training_losses tail = []).
  { apply Forall_filter_nil. eapply Forall_impl; [| exact Htail].
    intros []; cbn; congruence. }
  rewrite Hnil. destruct (extras a =? 3); reflexivity.
Qed.

(** X13: over the batches of an epoch, rank 0 writes a checkpoint at
    every step count in the pass that is a positive multiple of
    [ckpt_every], in order and nowhere else; a process of any rank meets
    exactly one barrier per such step. *)
Theorem checkpoints_cover_every_due_step (epoch : Z)
    (batches : list video_data) (st : state) :
  let steps := steps_after (train_steps st) (List.length batches) in
  saved_steps (trace (run_batches E a epoch batches st))
  = (if rank E =? 0 then filter (due a) steps else [])
  /\ List.length (filter is_barrier
                    (trace (run_batches E a epoch batches st)))
     = List.length (filter (due a) steps).
Proof.
  cbn zeta. revert st. induction batches as [| vd rest IH]; intros st;
    cbn [run_batches List.length].
  - split; [now destruct (rank E =? 0) | reflexivity].
  - destruct (step_outcome E a epoch st vd timesteps_positive
                log_every_nonzero ckpt_every_nonzero) as (loss & Hstep).
    destruct (step_saves epoch st vd) as [Hsave Hbar].
    rewrite trace_bind, Hstep, saved_steps_app, filter_app, length_app.
    rewrite Hsave, Hbar, steps_after_succ. cbn [filter].
    match goal with
    | |- context [run_batches E a epoch rest ?s] =>
        destruct (IH s) as [IHs IHb];
        assert (Hs : train_steps s = train_steps st + 1)
          by (destruct ((train_steps st + 1) mod log_every a =? 0);
              reflexivity)
    end.
    rewrite IHs, IHb, Hs.
    destruct (due a (train_steps st + 1)), (rank E =? 0);
      split; reflexivity.
Qed.

End LoopProperties.

Lemma range_empty (lo hi : Z) : hi <= lo -> range lo hi = [].
Proof.
  intros H. unfold range. replace (Z.to_nat (hi - lo)) with 0%nat by lia.
  reflexivity.
Qed.



Lemma ceil_div_le (m n q : Z) :
  0 < n -> m <= n * q -> TrainCond.ceil_div m n <= q.
Proof.
  intros Hn Hm. unfold TrainCond.ceil_div.
  assert (- q <= (- m) / n); [| lia].
  apply Z.div_le_lower_bound; lia.
Qed.

Section WholeRuns.

Import TrainCond TrainSpec TrainRuns.
Local Open Scope list_scope.

Variable E : env.
Variable a : args.



(** X15: a resumed run whose [max_train_steps] does not exceed the last
    whole epoch below the hard-wired 20000 steps trains nothing: it loads
    the checkpoint, takes no step and returns with the counter at
    20000. *)
Theorem resumed_run_past_budget_trains_nothing (live : state_dict)
    (path : string) (states : dict pyval) (d : state_dict) :
  truthy (pretrained a) = None ->
  truthy (resume_from_checkpoint a) = Some path ->
  loader_len E <> 0%nat ->
  torch_load E path = Some states ->
  dict_get "ema" states = Some (PDict d) ->
  loadable live (lift_state_dict d) = true ->
  max_train_steps a
  <= Z.of_nat (loader_len E) * (20000 / Z.of_nat (loader_len E)) ->
  exists st,
    outcome (main E a live) = Ok st
    /\ train_steps st = 20000
    /\ filter is_training_losses (trace (main E a live)) = [].
Proof.
  intros Hpre Hres Hn Hload Hema Hok Hbudget.
  assert (Hempty : range (20000 / Z.of_nat (loader_len E))
                     (ceil_div (max_train_steps a)
                        (Z.of_nat (loader_len E))) = []).
  { apply range_empty. apply ceil_div_le; lia. }
  unfold main, load_pretrained, resume_setup, load_state_dict.
  rewrite Hpre, Hres.
  destruct (Z.of_nat (loader_len E) =? 0) eqn:Hz; [lia |].
  eexists. split; [| split].
  - repeat first [ rewrite outcome_bind
                 | progress cbn [outcome ret emit from_option snd
                                 first_epoch num_train_epochs]
                 | rewrite Hload | rewrite Hema | rewrite Hok ].
    unfold resumed_train_steps. rewrite Hempty. reflexivity.
  - reflexivity.
  - repeat first [ rewrite trace_bind | rewrite outcome_bind
                 | progress cbn [trace outcome ret emit from_option fst snd
                                 first_epoch num_train_epochs]
                 | rewrite Hload | rewrite Hema | rewrite Hok ].
    unfold resumed_train_steps. rewrite Hempty. reflexivity.
Qed.

(** X16: with an empty loader the set-up divides by zero at line 213:
    the run raises [ZeroDivisionError] before any step and before a resume
    checkpoint is opened. *)
Theorem empty_loader_raises (live : state_dict) :
  truthy (pretrained a) = None ->
  loader_len E = 0%nat ->
  main E a live = ([], Raise ZeroDivisionError).
Proof.
  intros Hpre Hn. unfold main, load_pretrained, resume_setup.
  rewrite Hpre, Hn. reflexivity.
Qed.

End WholeRuns.

Section Ranks.

Import TrainCond TrainSpec TrainRuns.
Local Open Scope list_scope.

Variable E : env.
Variable a : args.
Variable r : Z.








End Ranks.

Lemma step_runs_optimizer_in_order_witness :
  exists loss clip_grad,
    filter TrainRuns.is_optimizer
      (trace (TrainCond.train_step (TrainDemo.train_env 0 PyFloat.minus_one)
                (TrainRuns.args_with_intervals 2 2) 0 TrainDemo.start
                TrainDemo.batch))
    = [TrainCond.EBackward loss; TrainCond.EClipGradNorm clip_grad;
       TrainCond.EOptStep; TrainCond.ELrStep; TrainCond.EZeroGrad;
       TrainCond.EUpdateEma]
    /\ (clip_grad = true <-> 2 <= 0).
Proof.
  apply (step_runs_optimizer_in_order
           (TrainDemo.train_env 0 PyFloat.minus_one)
           (TrainRuns.args_with_intervals 2 2) 0 TrainDemo.start
           TrainDemo.batch).
  reflexivity.
Defined.

Lemma step_updates_counters_witness :
  exists st',
    outcome (TrainCond.train_step (TrainDemo.train_env 0 PyFloat.minus_one)
               (TrainRuns.args_with_intervals 2 2) 0 TrainDemo.start
               TrainDemo.batch) = Ok st'
    /\ TrainCond.train_steps st' = 1
    /\ TrainCond.log_steps st' = 1
    /\ TrainCond.running_loss st' = PyFloat.of_Z 2.
Proof.
  destruct (step_updates_counters
              (TrainDemo.train_env 0 PyFloat.minus_one)
              (TrainRuns.args_with_intervals 2 2) 0 TrainDemo.start
              TrainDemo.batch)
    as (st' & x & t & kw & _ & Hok & Hsteps & Hlog & Hloss);
    [reflexivity | discriminate | discriminate |].
  exists st'. split; [exact Hok |]. split; [exact Hsteps |].
  split; [exact Hlog |]. rewrite Hloss. vm_compute. reflexivity.
Defined.

Lemma zero_interval_raises_after_update_witness :
  outcome (TrainCond.train_step (TrainDemo.train_env 0 PyFloat.minus_one)
             (TrainRuns.args_with_intervals 0 2) 0 TrainDemo.start
             TrainDemo.batch)
  = Raise ZeroDivisionError
  /\ outcome (TrainCond.train_step
                (TrainDemo.train_env 0 PyFloat.minus_one)
                (TrainRuns.args_with_intervals 2 0) 0 TrainDemo.start
                TrainDemo.batch)
     = Raise ZeroDivisionError.
Proof.
  split.
  - apply (zero_interval_raises_after_update
             (TrainDemo.train_env 0 PyFloat.minus_one)
             (TrainRuns.args_with_intervals 0 2) 0 TrainDemo.start
             TrainDemo.batch); [reflexivity | left; reflexivity].
  - apply (zero_interval_raises_after_update
             (TrainDemo.train_env 0 PyFloat.minus_one)
             (TrainRuns.args_with_intervals 2 0) 0 TrainDemo.start
             TrainDemo.batch); [reflexivity | right; reflexivity].
Defined.

Lemma step_conditioning_follows_extras_witness :
  exists x t kw,
    filter TrainSpec.is_training_losses
      (trace (TrainCond.train_step (TrainDemo.train_env 0 PyFloat.minus_one)
                (TrainRuns.args_with_intervals 2 2) 0 TrainDemo.start
                TrainDemo.batch))
    = [TrainCond.ETrainingLosses x t kw]
    /\ TrainCond.kw_y kw = None
    /\ TrainCond.kw_use_image_num kw = Some 0.
Proof.
  destruct (step_conditioning_follows_extras
              (TrainDemo.train_env 0 PyFloat.minus_one)
              (TrainRuns.args_with_intervals 2 2) 0 TrainDemo.start
              TrainDemo.batch)
    as (x & t & kw & Hcall & _ & _ & Hy & Hnum & _); [reflexivity |].
  exists x, t, kw. split; [exact Hcall |]. split; [exact Hy | exact Hnum].
Defined.

Lemma epoch_takes_one_step_per_batch_witness :
  exists st',
    outcome (TrainCond.run_batches (TrainDemo.train_env 0 PyFloat.minus_one)
               (TrainRuns.args_with_intervals 2 2) 0
               [TrainDemo.batch; TrainDemo.batch; TrainDemo.batch]
               TrainDemo.start) = Ok st'
    /\ TrainCond.train_steps st' = 0 + 3.
Proof.
  destruct (epoch_takes_one_step_per_batch
              (TrainDemo.train_env 0 PyFloat.minus_one)
              (TrainRuns.args_with_intervals 2 2))
    with (epoch := 0)
         (batches := [TrainDemo.batch; TrainDemo.batch; TrainDemo.batch])
         (st := TrainDemo.start)
    as (st' & Hok & Hsteps & _);
    [reflexivity | discriminate | discriminate |].
  exists st'. split; [exact Hok | exact Hsteps].
Defined.

Lemma checkpoints_cover_every_due_step_witness :
  TrainRuns.saved_steps
    (trace (TrainCond.run_batches (TrainDemo.train_env 0 PyFloat.minus_one)
              (TrainRuns.args_with_intervals 2 2) 0
              [TrainDemo.batch; TrainDemo.batch; TrainDemo.batch;
               TrainDemo.batch; TrainDemo.batch] TrainDemo.start))
  = [2; 4].
Proof.
  apply (checkpoints_cover_every_due_step
           (TrainDemo.train_env 0 PyFloat.minus_one)
           (TrainRuns.args_with_intervals 2 2));
    [reflexivity | discriminate | discriminate].
Defined.


Lemma resumed_run_past_budget_trains_nothing_witness :
  exists st,
    outcome (TrainCond.main (TrainDemo.train_env 0 PyFloat.minus_one)
               (TrainDemo.train_args None (Some "ema.pt"%string))
               TrainDemo.live) = Ok st
    /\ TrainCond.train_steps st = 20000
    /\ filter TrainSpec.is_training_losses
         (trace (TrainCond.main (TrainDemo.train_env 0 PyFloat.minus_one)
                   (TrainDemo.train_args None (Some "ema.pt"%string))
                   TrainDemo.live)) = [].
Proof.
  apply (resumed_run_past_budget_trains_nothing
           (TrainDemo.train_env 0 PyFloat.minus_one)
           (TrainDemo.train_args None (Some "ema.pt"%string))
           TrainDemo.live "ema.pt"%string
           [("ema"%string, TrainCond.PDict [("w"%string, TrainDemo.weight)])]
           [("w"%string, TrainDemo.weight)]);
    first [reflexivity | discriminate].
Defined.

Lemma empty_loader_raises_witness :
  TrainCond.main TrainRuns.empty_loader_env
    (TrainDemo.train_args None (Some "ema.pt"%string)) TrainDemo.live
  = ([], Raise ZeroDivisionError).
Proof.
  apply (empty_loader_raises TrainRuns.empty_loader_env
           (TrainDemo.train_args None (Some "ema.pt"%string))
           TrainDemo.live);
    reflexivity.
Defined.

(** * Loading by intersection, value by value *)
Section DictValues.

Import TrainCond.
Local Open Scope list_scope.

Context {V : Type}.
Implicit Types d upd : dict V.

Lemma dict_mem_in (k : string) d : dict_mem k d = true <-> In k (keys d).
Proof.
  unfold dict_mem. rewrite existsb_exists. split.
  - intros (k' & Hin & Heq). apply String.eqb_eq in Heq. now subst.
  - intros Hin. exists k. split; [exact Hin | apply String.eqb_refl].
Qed.

Lemma dict_get_none (k : string) d :
  dict_mem k d = false -> dict_get k d = None.
Proof.
  induction d as [| [k' v] rest IH]; [reflexivity |].
  rewrite dict_mem_cons. cbn [dict_get].
  destruct (String.eqb k k'); [discriminate | exact IH].
Qed.

Lemma dict_get_some (k : string) d :
  dict_mem k d = true -> exists v, dict_get k d = Some v.
Proof.
  induction d as [| [k' v] rest IH]; [discriminate |].
  rewrite dict_mem_cons. cbn [dict_get].
  destruct (String.eqb k k'); [now exists v | exact IH].
Qed.

Lemma dict_get_in (k : string) (v : V) d :
  dict_get k d = Some v -> In (k, v) d.
Proof.
  induction d as [| [k' v'] rest IH]; [discriminate |]. cbn [dict_get].
  destruct (String.eqb_spec k k') as [-> | Hne].
  - intros [= ->]. now left.
  - intros H. right. now apply IH.
Qed.

Lemma in_dict_get (k : string) (v : V) d :
  NoDup (keys d) -> In (k, v) d -> dict_get k d = Some v.
Proof.
  induction d as [| [k' v'] rest IH]; [intros _ [] |].
  cbn [keys map fst dict_get]. intros Hnd Hin.
  apply NoDup_cons_iff in Hnd. destruct Hnd as [Hfresh Hnd].
  destruct Hin as [[= -> ->] | Hin].
  - now rewrite String.eqb_refl.
  - destruct (String.eqb_spec k k') as [-> | Hne]; [| now apply IH].
    destruct Hfresh. change (In k' (keys rest)).
    apply (in_map fst) in Hin. exact Hin.
Qed.

Lemma dict_get_set_same (k : string) (v : V) d :
  dict_get k (dict_set k v d) = Some v.
Proof.
  induction d as [| [k' v'] rest IH]; cbn [dict_set dict_get].
  - now rewrite String.eqb_refl.
  - destruct (String.eqb_spec k k') as [-> | Hne]; cbn [dict_get].
    + now rewrite String.eqb_refl.
    + destruct (String.eqb_spec k k'); [contradiction | exact IH].
Qed.

Lemma keys_dict_set (k : string) (v : V) d :
  keys (dict_set k v d) = if dict_mem k d then keys d else keys d ++ [k].
Proof.
  induction d as [| [k' v'] rest IH]; [reflexivity |].
  cbn [dict_set]. rewrite dict_mem_cons.
  destruct (String.eqb k k'); [reflexivity |]. cbn [orb].
  change (keys ((k', v') :: dict_set k v rest))
    with (k' :: keys (dict_set k v rest)).
  rewrite IH. now destruct (dict_mem k rest).
Qed.

Lemma NoDup_keys_dict_set (k : string) (v : V) d :
  NoDup (keys d) -> NoDup (keys (dict_set k v d)).
Proof.
  intros Hnd. rewrite keys_dict_set.
  destruct (dict_mem k d) eqn:Hmem; [exact Hnd |].
  apply NoDup_app; [exact Hnd | repeat constructor; intros [] |].
  intros k' Hin [<- | []].
  apply dict_mem_in in Hin. congruence.
Qed.

(** [d.update(upd)]: a key of [upd] takes its value there, any other
    key keeps its own. *)
Lemma dict_update_get (k : string) d upd :
  NoDup (keys upd) ->
  dict_get k (dict_update d upd)
  = match dict_get k upd with
    | Some v => Some v
    | None => dict_get k d
    end.
Proof.
  unfold dict_update. revert d.
  induction upd as [| [k0 v0] rest IH]; intros d Hnd; [reflexivity |].
  cbn [keys map fst] in Hnd. apply NoDup_cons_iff in Hnd.
  destruct Hnd as [Hfresh Hnd].
  cbn [fold_left fst snd dict_get]. rewrite (IH _ Hnd).
  destruct (String.eqb_spec k k0) as [-> | Hne].
  - rewrite dict_get_none.
    + apply dict_get_set_same.
    + destruct (dict_mem k0 rest) eqn:Hmem; [| reflexivity].
      apply dict_mem_in in Hmem. contradiction.
  - rewrite dict_get_set_other; [reflexivity |].
    now apply String.eqb_neq.
Qed.

(** [d.update(upd)] adds no key when [d] has all the keys of [upd]. *)
Lemma dict_update_keys d upd :
  (forall k, dict_mem k upd = true -> dict_mem k d = true) ->
  keys (dict_update d upd) = keys d.
Proof.
  unfold dict_update. revert d.
  induction upd as [| [k0 v0] rest IH]; intros d Hsub; [reflexivity |].
  cbn [fold_left fst snd].
  assert (Hk0 : dict_mem k0 d = true).
  { apply Hsub. rewrite dict_mem_cons, String.eqb_refl. reflexivity. }
  rewrite IH.
  - rewrite keys_dict_set, Hk0. reflexivity.
  - intros k Hk. rewrite dict_mem_set. apply orb_true_iff. right.
    apply Hsub. rewrite dict_mem_cons, Hk. apply orb_true_r.
Qed.

End DictValues.

Section PretrainedValues.

Import TrainCond TrainSpec.
Local Open Scope list_scope.

Lemma keys_lift (d : state_dict) : keys (lift_state_dict d) = keys d.
Proof.
  unfold keys, lift_state_dict. rewrite map_map. apply map_ext.
  intros [k v]. reflexivity.
Qed.

Lemma dict_mem_lift (k : string) (d : state_dict) :
  dict_mem k (lift_state_dict d) = dict_mem k d.
Proof. unfold dict_mem. now rewrite keys_lift. Qed.

Lemma dict_get_lift (k : string) (d : state_dict) :
  dict_get k (lift_state_dict d) = option_map PTensor (dict_get k d).
Proof.
  induction d as [| [k' v] rest IH]; [reflexivity |].
  cbn [lift_state_dict map fst snd dict_get].
  destruct (String.eqb k k'); [reflexivity | exact IH].
Qed.

Lemma dict_get_map_values {V W : Type} (f : V -> W) (k : string)
    (d : dict V) :
  dict_get k (map (fun kv => (fst kv, f (snd kv))) d)
  = option_map f (dict_get k d).
Proof.
  induction d as [| [k' v] rest IH]; [reflexivity |].
  cbn [map fst snd dict_get].
  destruct (String.eqb k k'); [reflexivity | exact IH].
Qed.

Lemma keys_map_values {V W : Type} (f : V -> W) (d : dict V) :
  keys (map (fun kv => (fst kv, f (snd kv))) d) = keys d.
Proof.
  unfold keys. rewrite map_map. apply map_ext. intros [k v]. reflexivity.
Qed.

(** The filtering loop over a checkpoint with distinct keys: the kept
    dict holds, under each key the model has, the checkpoint's value. *)
Lemma filter_keys_values (model_dict items acc : dict pyval) :
  NoDup (keys items) ->
  NoDup (keys acc) ->
  exists kept,
    outcome (filter_keys model_dict items acc) = Ok kept
    /\ NoDup (keys kept)
    /\ forall k,
         dict_get k kept
         = match (if dict_mem k model_dict then dict_get k items
                  else None) with
           | Some v => Some v
           | None => dict_get k acc
           end.
Proof.
  revert acc. induction items as [| [k0 v0] rest IH]; intros acc Hitems Hacc.
  - exists acc. split; [reflexivity |]. split; [exact Hacc |].
    intros k. cbn [dict_get]. now destruct (dict_mem k model_dict).
  - cbn [keys map fst] in Hitems. apply NoDup_cons_iff in Hitems.
    destruct Hitems as [Hfresh Hrest]. cbn [filter_keys].
    assert (Hk0 : dict_get k0 rest = None).
    { apply dict_get_none. destruct (dict_mem k0 rest) eqn:Hm; [| reflexivity].
      apply dict_mem_in in Hm. contradiction. }
    destruct (dict_mem k0 model_dict) eqn:Hmem.
    + destruct (IH (dict_set k0 v0 acc) Hrest
                  (NoDup_keys_dict_set k0 v0 acc Hacc))
        as (kept & Hok & Hnd & Hget).
      exists kept. split; [exact Hok |]. split; [exact Hnd |].
      intros k. rewrite Hget. cbn [dict_get].
      destruct (String.eqb_spec k k0) as [-> | Hne].
      * rewrite Hmem, Hk0. apply dict_get_set_same.
      * rewrite dict_get_set_other; [reflexivity |].
        now apply String.eqb_neq.
    + destruct (IH acc Hrest Hacc) as (kept & Hok & Hnd & Hget).
      exists kept. rewrite outcome_bind. cbn [outcome emit snd].
      split; [exact Hok |]. split; [exact Hnd |].
      intros k. rewrite Hget. cbn [dict_get].
      destruct (String.eqb_spec k k0) as [-> | Hne]; [| reflexivity].
      now rewrite Hmem.
Qed.

End PretrainedValues.

Section PretrainedLoad.

Import TrainCond TrainSpec.
Local Open Scope list_scope.

Variable E : env.
Variable a : args.
Variable live : state_dict.
Variable path : string.
Variables checkpoint items : dict pyval.

Hypothesis pretrained_set : truthy (pretrained a) = Some path.
Hypothesis file_loads : torch_load E path = Some checkpoint.
Hypothesis unwrapped : outcome (unwrap_ema checkpoint) = Ok items.
Hypothesis items_nonempty : items <> [].
Hypothesis item_keys_distinct : NoDup (keys items).

Lemma list_Z_eqb_eq (xs ys : list Z) : list_Z_eqb xs ys = true <-> xs = ys.
Proof.
  unfold list_Z_eqb. destruct (list_eq_dec Z.eq_dec xs ys); split;
    congruence.
Qed.

(** The dict handed to [load_state_dict], and what the load then does. *)
Lemma load_pretrained_merged :
  exists merged,
    keys merged = keys live
    /\ (forall k,
          dict_get k merged
          = match dict_get k live with
            | Some q =>
                match dict_get k items with
                | Some v => Some v
                | None => Some (PTensor q)
                end
            | None => None
            end)
    /\ outcome (load_pretrained E a live)
       = if loadable live merged
         then Ok (map (fun kv => (fst kv,
                                  match snd kv with
                                  | PTensor p => p
                                  | PDict _ => {| p_shape := []; p_data := [] |}
                                  end)) merged)
         else Raise (RuntimeError "load_state_dict").
Proof.
  destruct (filter_keys_values (lift_state_dict live) items []
              item_keys_distinct (NoDup_nil _))
    as (kept & Hkept & Hnd & Hget).
  exists (dict_update (lift_state_dict live) kept).
  assert (Hsub : forall k, dict_mem k kept = true ->
                           dict_mem k (lift_state_dict live) = true).
  { intros k Hk. apply dict_get_some in Hk. destruct Hk as (v & Hv).
    rewrite Hget in Hv. cbn [dict_get] in Hv.
    destruct (dict_mem k (lift_state_dict live)); [reflexivity |].
    discriminate. }
  split; [| split].
  - rewrite (dict_update_keys _ _ Hsub). apply keys_lift.
  - intros k. rewrite (dict_update_get _ _ _ Hnd), Hget, dict_get_lift.
    rewrite dict_mem_lift. cbn [dict_get].
    destruct (dict_mem k live) eqn:Hmem.
    + destruct (dict_get_some k live Hmem) as (q & Hq). rewrite Hq.
      cbn [option_map]. now destruct (dict_get k items).
    + now rewrite (dict_get_none k live Hmem).
  - unfold load_pretrained. rewrite pretrained_set, file_loads.
    assert (Hlen : (Z.of_nat (List.length items) =? 0) = false).
    { destruct items; [contradiction | reflexivity]. }
    rewrite outcome_bind. cbn [outcome emit snd].
    rewrite outcome_bind. cbn [outcome from_option ret snd].
    rewrite outcome_bind, unwrapped.
    rewrite outcome_bind, Hkept.
    rewrite outcome_bind, Hlen. cbn [outcome emit snd].
    unfold load_state_dict. rewrite !outcome_bind. cbn [outcome emit snd].
    destruct (loadable live _); reflexivity.
Qed.

End PretrainedLoad.

Section PretrainedTheorems.

Import TrainCond TrainSpec.
Local Open Scope list_scope.

(** X18: loading pretrained weights whose shared entries fit.  When the
    checkpoint mapping (the ["ema"] entry if there is one) is not empty
    and every entry under a key of the model is a tensor of the model's
    shape, the load returns; the model keeps its keys in their order;
    each parameter the checkpoint names takes the checkpoint's tensor and
    every other parameter keeps its value. *)
Theorem pretrained_load_overwrites_shared_keys (E : env) (a : args)
    (live : state_dict) (path : string) (checkpoint items : dict pyval) :
  truthy (pretrained a) = Some path ->
  torch_load E path = Some checkpoint ->
  outcome (unwrap_ema checkpoint) = Ok items ->
  items <> [] ->
  NoDup (keys live) ->
  NoDup (keys items) ->
  (forall k v q,
     dict_get k items = Some v -> dict_get k live = Some q ->
     exists p, v = PTensor p /\ p_shape p = p_shape q) ->
  exists live',
    outcome (load_pretrained E a live) = Ok live'
    /\ keys live' = keys live
    /\ forall k,
         dict_get k live'
         = match dict_get k live, dict_get k items with
           | Some q, Some (PTensor p) => Some p
           | kept, _ => kept
           end.
Proof.
  intros Hpre Hload Hunwrap Hne Hlive Hitems Hfit.
  destruct (load_pretrained_merged E a live path checkpoint items
              Hpre Hload Hunwrap Hne Hitems)
    as (merged & Hkeys & Hget & Hout).
  assert (Hloadable : loadable live merged = true).
  { unfold loadable. rewrite Hkeys.
    destruct (list_eq_dec string_dec (keys live) (keys live));
      [| contradiction]. cbn [andb].
    apply forallb_forall. intros [k v] Hin. cbn [fst snd].
    assert (Hv : dict_get k merged = Some v).
    { apply in_dict_get; [now rewrite Hkeys | exact Hin]. }
    rewrite Hget in Hv.
    destruct (dict_get k live) as [q |] eqn:Hq; [| discriminate].
    destruct (dict_get k items) as [w |] eqn:Hw.
    - injection Hv as ->.
      destruct (Hfit k v q Hw Hq) as (p & -> & Hshape).
      now apply list_Z_eqb_eq.
    - injection Hv as <-. now apply list_Z_eqb_eq. }
  rewrite Hloadable in Hout.
  pose (tensor_of := fun v => match v with
                              | PTensor p => p
                              | PDict _ => {| p_shape := []; p_data := [] |}
                              end).
  exists (map (fun kv => (fst kv, tensor_of (snd kv))) merged).
  split; [exact Hout |].
  split; [now rewrite keys_map_values |].
  intros k. rewrite dict_get_map_values, Hget.
  destruct (dict_get k live) as [q |] eqn:Hq; [| reflexivity].
  destruct (dict_get k items) as [w |] eqn:Hw; [| reflexivity].
  destruct (Hfit k w q Hw Hq) as (p & -> & _). reflexivity.
Qed.

(** X19: the filter looks at names only.  An entry of the checkpoint
    under a key of the model that is not a tensor of the model's shape is
    kept by the filter and makes the strict load raise. *)
Theorem pretrained_shape_mismatch_raises (E : env) (a : args)
    (live : state_dict) (path : string) (checkpoint items : dict pyval)
    (k : string) (v : pyval) (q : param) :
  truthy (pretrained a) = Some path ->
  torch_load E path = Some checkpoint ->
  outcome (unwrap_ema checkpoint) = Ok items ->
  NoDup (keys live) ->
  NoDup (keys items) ->
  dict_get k items = Some v ->
  dict_get k live = Some q ->
  (forall p, v = PTensor p -> p_shape p <> p_shape q) ->
  outcome (load_pretrained E a live) = Raise (RuntimeError "load_state_dict").
Proof.
  intros Hpre Hload Hunwrap Hlive Hitems Hv Hq Hbad.
  assert (Hne : items <> []).
  { intros ->. discriminate. }
  destruct (load_pretrained_merged E a live path checkpoint items
              Hpre Hload Hunwrap Hne Hitems)
    as (merged & Hkeys & Hget & Hout).
  assert (Hloadable : loadable live merged = false).
  { unfold loadable. apply andb_false_iff. right.
    destruct (forallb _ merged) eqn:Hall; [| reflexivity].
    rewrite forallb_forall in Hall.
    assert (Hin : In (k, v) merged).
    { apply dict_get_in. now rewrite Hget, Hq, Hv. }
    specialize (Hall _ Hin). cbn [fst snd] in Hall. rewrite Hq in Hall.
    destruct v as [p | d]; [| discriminate].
    apply list_Z_eqb_eq in Hall. destruct (Hbad p eq_refl Hall). }
  now rewrite Hloadable in Hout.
Qed.

End PretrainedTheorems.

Lemma pretrained_load_overwrites_shared_keys_witness :
  exists live',
    outcome (TrainCond.load_pretrained
               (TrainDemo.train_env 0 PyFloat.minus_one)
               (TrainDemo.train_args (Some "ema.pt"%string) None)
               [("b"%string, TrainRuns.bias); ("w"%string, TrainRuns.stale)])
    = Ok live'
    /\ TrainCond.dict_get "w" live' = Some TrainDemo.weight
    /\ TrainCond.dict_get "b" live' = Some TrainRuns.bias.
Proof.
  destruct (pretrained_load_overwrites_shared_keys
              (TrainDemo.train_env 0 PyFloat.minus_one)
              (TrainDemo.train_args (Some "ema.pt"%string) None)
              [("b"%string, TrainRuns.bias); ("w"%string, TrainRuns.stale)]
              "ema.pt"%string
              [("ema"%string,
                TrainCond.PDict [("w"%string, TrainDemo.weight)])]
              [("w"%string, TrainCond.PTensor TrainDemo.weight)])
    as (live' & Hok & _ & Hget).
  - reflexivity.
  - reflexivity.
  - reflexivity.
  - discriminate.
  - repeat constructor; cbn; intuition discriminate.
  - repeat constructor; cbn; intuition discriminate.
  - intros k v q Hv Hq. cbn [TrainCond.dict_get] in Hv.
    destruct (String.eqb_spec k "w") as [-> | Hne]; [| discriminate].
    injection Hv as <-. injection Hq as <-.
    eexists. split; reflexivity.
  - exists live'. split; [exact Hok |].
    split; [exact (Hget "w"%string) | exact (Hget "b"%string)].
Defined.

Lemma pretrained_shape_mismatch_raises_witness :
  outcome (TrainCond.load_pretrained
             (TrainDemo.train_env 0 PyFloat.minus_one)
             (TrainDemo.train_args (Some "ema.pt"%string) None)
             [("w"%string, TrainRuns.bias)])
  = Raise (RuntimeError "load_state_dict").
Proof.
  apply (pretrained_shape_mismatch_raises
           (TrainDemo.train_env 0 PyFloat.minus_one)
           (TrainDemo.train_args (Some "ema.pt"%string) None)
           [("w"%string, TrainRuns.bias)] "ema.pt"%string
           [("ema"%string, TrainCond.PDict [("w"%string, TrainDemo.weight)])]
           [("w"%string, TrainCond.PTensor TrainDemo.weight)]
           "w"%string (TrainCond.PTensor TrainDemo.weight) TrainRuns.bias).
  - reflexivity.
  - reflexivity.
  - reflexivity.
  - repeat constructor; cbn; intuition discriminate.
  - repeat constructor; cbn; intuition discriminate.
  - reflexivity.
  - reflexivity.
  - intros p [= <-]. discriminate.
Defined.

(** * The loader of the feature extractor *)
Section Replace.

Import LoadModel.
Local Open Scope string_scope.

Lemma remove_from_skip (old p s : string) :
  remove_from old (String.length p) (p ++ s) = remove_from old 0 s.
Proof.
  induction p as [| c p IH]; [reflexivity |]. exact IH.
Qed.

Lemma prefix_append (p s : string) : String.prefix p (p ++ s) = true.
Proof.
  induction p as [| c p IH]; cbn; [now destruct s |].
  destruct (Ascii.ascii_dec c c); [exact IH | contradiction].
Qed.

(** Cutting starts over after an occurrence at the front. *)
Lemma remove_all_prefix (old s : string) :
  remove_all old (old ++ s) = remove_all old s.
Proof.
  destruct old as [| c old]; [reflexivity |].
  unfold remove_all. cbn [append remove_from].
  change (String c (old ++ s)) with (String c old ++ s).
  rewrite prefix_append. cbn [String.length Nat.sub].
  rewrite Nat.sub_0_r. apply remove_from_skip.
Qed.

Lemma remove_all_absent (old s : string) :
  occurs old s = false -> remove_all old s = s.
Proof.
  destruct old as [| c old]; [reflexivity |]. unfold remove_all.
  induction s as [| d s IH]; [reflexivity |].
  cbn [occurs remove_from]. intros H. apply orb_false_elim in H.
  destruct H as [Hp Hrest]. rewrite Hp. f_equal. now apply IH.
Qed.

Lemma remove_all_step (old : string) (c : Ascii.ascii) (s : string) :
  String.prefix old (String c s) = false ->
  remove_all old (String c s) = String c (remove_all old s).
Proof.
  destruct old as [| d old]; [reflexivity |]. unfold remove_all.
  cbn [remove_from]. now intros ->.
Qed.

End Replace.

Section RenameKeys.

Import TrainCond LoadModel.
Local Open Scope string_scope.

Lemma find_none_absent (old s : string) :
  find old s = None -> occurs old s = false.
Proof.
  induction s as [| c s IH]; cbn [find occurs].
  - destruct (String.prefix old ""); [discriminate | reflexivity].
  - destruct (String.prefix old (String c s)); [discriminate |].
    destruct (find old s); [discriminate |]. intros _. now apply IH.
Qed.

(** X20: [k.replace(old, "")] cuts at the first occurrence wherever it
    is, not only at the front of the key, and goes on behind it; a key
    without an occurrence is returned as it is. *)
Theorem replace_cuts_at_first_occurrence (old a b : string) :
  (find old b = None -> remove_all old b = b)
  /\ (find old (a ++ old ++ b) = Some (String.length a) ->
      remove_all old (a ++ old ++ b) = a ++ remove_all old b).
Proof.
  split.
  - intros H. apply remove_all_absent. now apply find_none_absent.
  - induction a as [| c a IH]; cbn [append String.length].
    + intros _. apply remove_all_prefix.
    + cbn [find].
      destruct (String.prefix old (String c (a ++ old ++ b))) eqn:Hp;
        [discriminate |].
      destruct (find old (a ++ old ++ b)) as [i |] eqn:Hf;
        [| discriminate].
      cbn [option_map]. intros [= ->].
      rewrite (remove_all_step old c _ Hp). f_equal. now apply IH.
Qed.

Lemma occurs_module_backbone (k : string) :
  occurs "module." ("backbone." ++ k) = occurs "module." k.
Proof. reflexivity. Qed.

(** X21: the prefixes a wrapped model puts on its keys are stripped: a
    key free of both markers comes back from [module.backbone.k],
    [module.k], [backbone.k] and [k] alike. *)
Theorem wrapper_prefixes_are_stripped (k : string) :
  occurs "module." k = false ->
  occurs "backbone." k = false ->
  rename_key ("module.backbone." ++ k) = k
  /\ rename_key ("module." ++ k) = k
  /\ rename_key ("backbone." ++ k) = k
  /\ rename_key k = k.
Proof.
  intros Hm Hb. unfold rename_key.
  assert (Hbk : remove_all "module." ("backbone." ++ k) = "backbone." ++ k).
  { apply remove_all_absent. now rewrite occurs_module_backbone. }
  repeat split.
  - change ("module.backbone." ++ k) with ("module." ++ "backbone." ++ k).
    rewrite remove_all_prefix, Hbk, remove_all_prefix.
    now apply remove_all_absent.
  - rewrite remove_all_prefix, (remove_all_absent _ _ Hm).
    now apply remove_all_absent.
  - rewrite Hbk, remove_all_prefix. now apply remove_all_absent.
  - rewrite (remove_all_absent _ _ Hm). now apply remove_all_absent.
Qed.

Context {V : Type}.

Lemma rename_fold_other (f : string -> string) (key : string)
    (items acc : dict V) :
  Forall (fun kv => f (fst kv) <> key) items ->
  dict_get key
    (fold_left (fun acc kv => dict_set (f (fst kv)) (snd kv) acc) items acc)
  = dict_get key acc.
Proof.
  intros Hother. revert acc.
  induction Hother as [| [k v] rest Hk _ IH]; intros acc; [reflexivity |].
  cbn [fold_left fst snd]. rewrite IH. apply dict_get_set_other.
  apply String.eqb_neq. cbn [fst] in Hk. congruence.
Qed.

Lemma rename_fold_distinct (f : string -> string) (items acc : dict V) :
  NoDup (keys acc) -> NoDup (keys
    (fold_left (fun acc kv => dict_set (f (fst kv)) (snd kv) acc) items acc)).
Proof.
  revert acc. induction items as [| [k v] rest IH]; intros acc Hacc;
    [exact Hacc |].
  cbn [fold_left fst snd]. apply IH. now apply NoDup_keys_dict_set.
Qed.

(** X22: when two keys of the checkpoint are renamed to the same key,
    the entry that comes later in the checkpoint is the one kept; the
    renamed dict has each key once. *)
Theorem later_entry_wins_on_collision (f : string -> string)
    (before after : dict V) (k : string) (v : V) :
  Forall (fun kv => f (fst kv) <> f k) after ->
  dict_get (f k) (rename_with f (before ++ (k, v) :: after)%list) = Some v
  /\ NoDup (keys (rename_with f (before ++ (k, v) :: after)%list)).
Proof.
  intros Hafter. unfold rename_with. split.
  - rewrite fold_left_app. cbn [fold_left fst snd].
    rewrite (rename_fold_other f (f k) after _ Hafter).
    apply dict_get_set_same.
  - apply rename_fold_distinct. constructor.
Qed.

Lemma dict_set_fresh (k : string) (v : V) (d : dict V) :
  dict_mem k d = false -> dict_set k v d = (d ++ [(k, v)])%list.
Proof.
  induction d as [| [k' v'] rest IH]; [reflexivity |].
  rewrite dict_mem_cons. cbn [dict_set app].
  destruct (String.eqb k k'); [discriminate |]. cbn [orb].
  intros H. now rewrite IH.
Qed.

Lemma rename_fold_fresh (f : string -> string) (items acc : dict V) :
  NoDup (keys acc ++ map f (keys items))%list ->
  fold_left (fun acc kv => dict_set (f (fst kv)) (snd kv) acc) items acc
  = (acc ++ map (fun kv => (f (fst kv), snd kv)) items)%list.
Proof.
  revert acc. induction items as [| [k v] rest IH]; intros acc Hnd.
  - cbn. now rewrite app_nil_r.
  - cbn [fold_left fst snd keys map] in *.
    assert (Hfresh : dict_mem (f k) acc = false).
    { destruct (dict_mem (f k) acc) eqn:Hm; [| reflexivity].
      apply dict_mem_in in Hm. apply NoDup_remove_2 in Hnd.
      destruct Hnd. apply in_or_app. now left. }
    rewrite (dict_set_fresh _ _ _ Hfresh), IH.
    + now rewrite <- app_assoc.
    + unfold keys in *. rewrite map_app. cbn [map fst].
      rewrite <- app_assoc. exact Hnd.
Qed.

(** Renaming keys that stay distinct keeps the entries in place. *)
Lemma rename_with_distinct (f : string -> string) (d : dict V) :
  NoDup (map f (keys d)) ->
  rename_with f d = map (fun kv => (f (fst kv), snd kv)) d.
Proof.
  intros Hnd. unfold rename_with. now rewrite rename_fold_fresh.
Qed.

End RenameKeys.

Section LoadModelProperties.

Import TrainCond LoadModel.
Local Open Scope string_scope.

Lemma append_inj (p a b : string) : p ++ a = p ++ b -> a = b.
Proof.
  induction p as [| c p IH]; cbn [append]; [auto |].
  intros [= H]. now apply IH.
Qed.

Lemma NoDup_map_append (p : string) (ks : list string) :
  NoDup ks -> NoDup (map (append p) ks).
Proof.
  intros H. apply Injective_map_NoDup; [| exact H].
  intros a b. apply append_inj.
Qed.

(** X23: renaming undoes the wrapping.  A state dict with distinct keys
    free of both markers, saved by a wrapped model under
    [module.backbone.] keys, comes back from the two renaming passes as it
    was: same keys, same order, same values. *)
Theorem rename_undoes_wrapping {V : Type} (d : dict V) :
  NoDup (keys d) ->
  Forall (fun k => occurs "module." k = false
                   /\ occurs "backbone." k = false) (keys d) ->
  rename_keys (wrapped d) = d.
Proof.
  intros Hnd Hclean.
  assert (Hpass1 : rename_with (remove_all "module.") (wrapped d)
                   = map (fun kv => ("backbone." ++ fst kv, snd kv)) d).
  { assert (Hkeys : map (remove_all "module.") (keys (wrapped d))
                    = map (append "backbone.") (keys d)).
    { unfold keys, wrapped. rewrite !map_map. apply map_ext_in.
      intros [k v] Hin. cbn [fst].
      change ("module.backbone." ++ k) with ("module." ++ "backbone." ++ k).
      rewrite remove_all_prefix. apply remove_all_absent.
      rewrite occurs_module_backbone.
      rewrite Forall_forall in Hclean.
      apply (Hclean k). change (In (fst (k, v)) (map fst d)).
      now apply in_map. }
    rewrite rename_with_distinct.
    - unfold wrapped. rewrite map_map. apply map_ext_in.
      intros [k v] Hin. cbn [fst snd]. f_equal.
      change ("module.backbone." ++ k) with ("module." ++ "backbone." ++ k).
      rewrite remove_all_prefix. apply remove_all_absent.
      rewrite occurs_module_backbone.
      rewrite Forall_forall in Hclean.
      apply (Hclean k). change (In (fst (k, v)) (map fst d)).
      now apply in_map.
    - rewrite Hkeys. now apply NoDup_map_append. }
  unfold rename_keys. rewrite Hpass1.
  assert (Hback : forall kv, In kv d ->
                    remove_all "backbone." ("backbone." ++ fst kv) = fst kv).
  { intros [k v] Hin. cbn [fst]. rewrite remove_all_prefix.
    apply remove_all_absent. rewrite Forall_forall in Hclean.
    apply (Hclean k). change (In (fst (k, v)) (map fst d)).
    now apply in_map. }
  rewrite rename_with_distinct.
  - rewrite map_map. rewrite <- (map_id d) at 2. apply map_ext_in.
    intros [k v] Hin. cbn [fst snd]. f_equal. exact (Hback (k, v) Hin).
  - unfold keys. rewrite !map_map. cbn [fst].
    replace (map (fun x => remove_all "backbone." ("backbone." ++ fst x)) d)
      with (map fst d); [exact Hnd |].
    apply map_ext_in. intros kv Hin. symmetry. now apply Hback.
Qed.

Lemma dict_get_map_keyed {V W : Type} (g : string -> V -> W) (k : string)
    (d : dict V) :
  dict_get k (map (fun kv => (fst kv, g (fst kv) (snd kv))) d)
  = option_map (g k) (dict_get k d).
Proof.
  induction d as [| [k' v] rest IH]; [reflexivity |].
  cbn [map fst snd dict_get].
  destruct (String.eqb_spec k k') as [-> | Hne]; [reflexivity | exact IH].
Qed.

(** X24: [load_model] tolerates a checkpoint whose keys do not match the
    model.  Whenever the file loads and every renamed entry that shares a
    key with the model has the model's shape, the call returns; it prints
    the model's keys the renamed checkpoint lacks and the renamed keys the
    model lacks; each parameter the renamed checkpoint names takes the
    checkpoint's tensor and every other parameter keeps its value. *)
Theorem load_model_reports_key_mismatches
    (torch_load : string -> option state_dict) (fresh : state_dict)
    (pretrained_path : string) (file : state_dict) :
  torch_load pretrained_path = Some file ->
  fits fresh (rename_keys file) = true ->
  exists model,
    load_model torch_load fresh pretrained_path
    = ([EVitSmall 8 0; EFreeze; EEval; ETo; ETorchLoad pretrained_path;
        ELoadStateDict (rename_keys file);
        EPrint pretrained_path
          {| missing_keys :=
               filter (fun k => negb (dict_mem k (rename_keys file)))
                 (keys fresh);
             unexpected_keys :=
               filter (fun k => negb (dict_mem k fresh))
                 (keys (rename_keys file)) |}],
       Ok model)
    /\ keys model = keys fresh
    /\ forall k,
         dict_get k model
         = match dict_get k fresh, dict_get k (rename_keys file) with
           | Some q, Some p => Some p
           | kept, _ => kept
           end.
Proof.
  intros Hfile Hfits.
  pose (pick := fun (k : string) (q : param) =>
                  match dict_get k (rename_keys file) with
                  | Some p => p
                  | None => q
                  end).
  exists (map (fun kv => (fst kv, pick (fst kv) (snd kv))) fresh).
  split; [| split].
  - unfold load_model, load_state_dict_lenient. rewrite Hfile.
    cbn [bind emit from_option ret app]. rewrite Hfits. reflexivity.
  - unfold keys. rewrite map_map. reflexivity.
  - intros k. rewrite dict_get_map_keyed. unfold pick.
    destruct (dict_get k fresh); [| reflexivity]. cbn [option_map].
    now destruct (dict_get k (rename_keys file)).
Qed.

End LoadModelProperties.

Lemma replace_cuts_at_first_occurrence_witness :
  LoadModel.remove_all "module." "cls_token" = "cls_token"%string
  /\ LoadModel.remove_all "module." "blocks.module.w"
     = ("blocks." ++ LoadModel.remove_all "module." "w")%string.
Proof.
  split.
  - apply (replace_cuts_at_first_occurrence "module." "" "cls_token").
    reflexivity.
  - apply (replace_cuts_at_first_occurrence "module." "blocks." "w").
    reflexivity.
Defined.

Lemma wrapper_prefixes_are_stripped_witness :
  LoadModel.rename_key "module.backbone.cls_token" = "cls_token"%string
  /\ LoadModel.rename_key "module.cls_token" = "cls_token"%string
  /\ LoadModel.rename_key "backbone.cls_token" = "cls_token"%string
  /\ LoadModel.rename_key "cls_token" = "cls_token"%string.
Proof.
  apply (wrapper_prefixes_are_stripped "cls_token"); reflexivity.
Defined.

Lemma later_entry_wins_on_collision_witness :
  TrainCond.dict_get "w"
    (LoadModel.rename_with (LoadModel.remove_all "module.")
       [("w"%string, 1); ("module.w"%string, 2); ("b"%string, 3)])
  = Some 2.
Proof.
  apply (later_entry_wins_on_collision (LoadModel.remove_all "module.")
           [("w"%string, 1)] [("b"%string, 3)] "module.w"%string 2).
  repeat constructor. intros H. vm_compute in H. discriminate H.
Defined.

Lemma rename_undoes_wrapping_witness :
  LoadModel.rename_keys (LoadModel.wrapped LoadModel.vit_trained)
  = LoadModel.vit_trained.
Proof.
  apply (rename_undoes_wrapping LoadModel.vit_trained).
  - repeat constructor; cbn; intuition discriminate.
  - repeat constructor.
Defined.

Lemma load_model_reports_key_mismatches_witness :
  exists model,
    outcome (LoadModel.load_model LoadModel.files LoadModel.vit "dino.pth")
    = Ok model
    /\ TrainCond.dict_get "cls_token" model = Some TrainRuns.stale.
Proof.
  destruct (load_model_reports_key_mismatches LoadModel.files LoadModel.vit
              "dino.pth" (LoadModel.wrapped LoadModel.vit_trained))
    as (model & Hrun & _ & Hget); [reflexivity | reflexivity |].
  exists model. split.
  - now rewrite Hrun.
  - exact (Hget "cls_token"%string).
Defined.

(** * The set-up of the training script *)
Section ScriptFacts.

Import TrainScript.
Local Open Scope list_scope.

Lemma trace_lift {E' A : Type} (inj : E' -> event) (m : prog E' A) :
  trace (lift inj m) = map inj (trace m).
Proof. reflexivity. Qed.

Lemma outcome_lift {E' A : Type} (inj : E' -> event) (m : prog E' A) :
  outcome (lift inj m) = outcome m.
Proof. reflexivity. Qed.

Lemma Forall_lift {E' A : Type} (P : event -> Prop) (inj : E' -> event)
    (m : prog E' A) :
  Forall (fun e => P (inj e)) (trace m) -> Forall P (trace (lift inj m)).
Proof. intros H. rewrite trace_lift. now apply Forall_map. Qed.

Variable E : env.
Variable a : args.
Variable P : event -> Prop.

Hypothesis P_setup :
  forall e, is_train e = false -> is_unfreeze e = false ->
            touches_files e = false -> P e.
Hypothesis P_folder :
  Forall P (trace (experiment_folder E a (TrainCond.rank (base E)))).
Hypothesis P_unfreeze :
  forall name i, fixed_spatial a = true ->
                 ends_with "attn_temp" name = true -> P (EUnfreeze name i).
Hypothesis P_train_setup :
  forall e, TrainSpec.is_setup e = true -> P (ETrain e).
Hypothesis P_train_step :
  forall epoch st vd,
    Forall (fun e => P (ETrain e))
      (trace (TrainCond.train_step (base E) (train a) epoch st vd)).

Lemma unfreeze_temporal_events :
  fixed_spatial a = true -> Forall P (trace (unfreeze_temporal E)).
Proof.
  intros Hfs. unfold unfreeze_temporal.
  step_trace; [step_trace; now apply P_setup |].
  step_trace; [| step_trace; now apply P_setup].
  apply Forall_for_each. intros [name n] _. cbn [fst snd].
  destruct (ends_with "attn_temp" name) eqn:Hend; cbn [when];
    [| apply Forall_silent; reflexivity].
  apply Forall_for_each. intros i _.
  step_trace; [step_trace; now apply P_setup |].
  step_trace. now apply P_unfreeze.
Qed.

Lemma load_model_events :
  Forall P (trace (lift EDino
                     (LoadModel.load_model (dino_files E) (dino_fresh E)
                        (pretrained_weights a)))).
Proof.
  apply Forall_lift. apply Forall_forall. intros e _. now apply P_setup.
Qed.

Lemma load_pretrained_events :
  Forall P (trace (lift ETrain
                     (TrainCond.load_pretrained (base E) (train a)
                        (model_fresh E)))).
Proof.
  apply Forall_lift.
  apply (piecewise_load_pretrained (Forall (fun e => P (ETrain e)))).
  - constructor.
  - intros t1 t2 H1 H2. apply Forall_app. now split.
  - intros e He. constructor; [now apply P_train_setup | constructor].
Qed.

Lemma prepare_events : Forall P (trace (prepare E a)).
Proof.
  unfold prepare.
  step_trace; [destruct (cuda_available E); step_trace |].
  do 5 (step_trace; [step_trace; now apply P_setup |]).
  step_trace; [exact P_folder |].
  step_trace; [destruct (_ =? 0); step_trace |].
  do 2 (step_trace; [step_trace; now apply P_setup |]).
  step_trace as dino Hdino; [apply load_model_events |].
  do 2 (step_trace; [step_trace; now apply P_setup |]).
  step_trace as bound Hbound.
  { destruct (TrainCond.extras (train a) =? 78).
    - step_trace; [step_trace; now apply P_setup | step_trace].
    - do 3 (step_trace; [step_trace; now apply P_setup |]). step_trace. }
  step_trace as live Hlive; [apply load_pretrained_events |].
  step_trace; [step_trace; step_trace; now apply P_setup |].
  step_trace.
  { step_trace. step_trace; step_trace; now apply P_setup. }
  step_trace.
  { step_trace. step_trace; step_trace; now apply P_setup. }
  step_trace.
  { assert (Hcase : forall b, fixed_spatial a = b ->
                      Forall P (trace (when b (unfreeze_temporal E)))).
    { intros [|] Hb; cbn [when];
        [now apply unfreeze_temporal_events
        | apply Forall_silent; reflexivity]. }
    now apply Hcase. }
  do 4 (step_trace; [step_trace; now apply P_setup |]).
  step_trace; [destruct bound; step_trace; now apply P_setup |].
  do 8 (step_trace; [step_trace; now apply P_setup |]).
  step_trace.
Qed.

Lemma train_loops_events (live : TrainCond.state_dict) :
  Forall P (trace (lift ETrain (train_loops (base E) (train a) live))).
Proof.
  apply Forall_lift. unfold train_loops.
  set (Q := Forall (fun e => P (ETrain e))).
  assert (Qnil : Q []) by constructor.
  assert (Qapp : forall t1 t2, Q t1 -> Q t2 -> Q (t1 ++ t2)).
  { intros t1 t2 H1 H2. apply Forall_app. now split. }
  assert (Qsetup : forall e, TrainSpec.is_setup e = true -> Q [e]).
  { intros e He. constructor; [now apply P_train_setup | constructor]. }
  apply (piecewise_bind Q Qnil Qapp).
  - apply (piecewise_resume_setup Q Qnil Qapp (base E) (train a) Qsetup).
  - intros [[st sch] l].
    apply (piecewise_run_epochs Q Qnil Qapp (base E) (train a) Qsetup).
    exact P_train_step.
Qed.

Lemma main_events_script : Forall P (trace (main E a)).
Proof.
  unfold main.
  step_trace as live Hlive; [apply prepare_events |].
  step_trace as st Hst; [apply train_loops_events |].
  step_trace; [step_trace; now apply P_setup |].
  step_trace; [step_trace; now apply P_train_setup |].
  step_trace; [step_trace; now apply P_setup | step_trace].
Qed.

End ScriptFacts.

Section ScriptOutcomes.

Import TrainScript.
Local Open Scope list_scope.

Lemma train_events_app (t1 t2 : list event) :
  train_events (t1 ++ t2) = train_events t1 ++ train_events t2.
Proof.
  induction t1 as [| e rest IH]; cbn [train_events app]; [reflexivity |].
  destruct e; cbn [app]; now rewrite IH.
Qed.

Lemma train_events_none (t : list event) :
  Forall (fun e => is_train e = false) t -> train_events t = [].
Proof.
  induction 1 as [| e rest He _ IH]; cbn [train_events]; [reflexivity |].
  destruct e; try discriminate; exact IH.
Qed.

Lemma train_events_lift {A : Type} (m : TrainCond.M A) :
  train_events (trace (lift ETrain m)) = trace m.
Proof.
  rewrite trace_lift. induction (trace m) as [| e rest IH];
    cbn [map train_events]; [reflexivity | now rewrite IH].
Qed.

Lemma train_events_dino {A : Type} (m : LoadModel.M A) :
  train_events (trace (lift EDino m)) = [].
Proof.
  rewrite trace_lift. induction (trace m) as [| e rest IH];
    cbn [map train_events]; [reflexivity | exact IH].
Qed.

Variable E : env.
Variable a : args.

Lemma for_each_returns {A : Type} (xs : list A) (body : A -> M unit) :
  (forall x, outcome (body x) = Ok tt) -> outcome (for_each xs body) = Ok tt.
Proof.
  intros H. induction xs as [| x rest IH]; cbn [for_each]; [reflexivity |].
  now rewrite outcome_bind, H.
Qed.

Lemma unfreeze_temporal_returns : outcome (unfreeze_temporal E) = Ok tt.
Proof.
  unfold unfreeze_temporal. rewrite !outcome_bind. cbn [outcome emit snd].
  rewrite for_each_returns; [reflexivity |].
  intros [name n]. cbn [fst snd].
  destruct (ends_with "attn_temp" name); [| reflexivity]. cbn [when].
  apply for_each_returns. intros i. reflexivity.
Qed.

Lemma unfreeze_temporal_quiet : train_events (trace (unfreeze_temporal E)) = [].
Proof.
  apply train_events_none. unfold unfreeze_temporal.
  step_trace; [step_trace; reflexivity |].
  step_trace; [| step_trace; reflexivity].
  apply Forall_for_each. intros [name n] _. cbn [fst snd].
  destruct (ends_with "attn_temp" name); cbn [when];
    [| apply Forall_silent; reflexivity].
  apply Forall_for_each. intros i _.
  step_trace; [step_trace; reflexivity | step_trace; reflexivity].
Qed.

Lemma experiment_folder_returns (rank : Z) :
  outcome (experiment_folder E a rank) = Ok tt
  /\ train_events (trace (experiment_folder E a rank)) = [].
Proof.
  unfold experiment_folder. destruct (rank =? 0); split; reflexivity.
Qed.

(** The set-up, once it is past its own failure points: it ends as the
    pretrained load ends and adds no event of the loop component. *)
Lemma prepare_past_checks (dino : TrainCond.state_dict) :
  cuda_available E = true ->
  image_size a mod 8 = 0 ->
  outcome (LoadModel.load_model (dino_files E) (dino_fresh E)
             (pretrained_weights a)) = Ok dino ->
  TrainCond.extras (train a) <> 78 ->
  outcome (prepare E a)
  = outcome (TrainCond.load_pretrained (base E) (train a) (model_fresh E))
  /\ train_events (trace (prepare E a))
     = trace (TrainCond.load_pretrained (base E) (train a) (model_fresh E)).
Proof.
  intros Hcuda Hsize Hdino Hextras.
  assert (Hx : (TrainCond.extras (train a) =? 78) = false) by lia.
  assert (Hs : (image_size a mod 8 =? 0) = true) by lia.
  destruct (experiment_folder_returns (TrainCond.rank (base E)))
    as [Hfo Hft].
  unfold prepare. rewrite Hcuda, Hs, Hx.
  pose proof unfreeze_temporal_returns as Hur.
  pose proof unfreeze_temporal_quiet as Huq.
  split.
  - repeat first [ rewrite outcome_bind
                 | progress cbn [outcome emit ret snd]
                 | rewrite Hfo | rewrite outcome_lift | rewrite Hdino ].
    destruct (outcome (TrainCond.load_pretrained _ _ _)) as [live | |];
      [| reflexivity | reflexivity].
    destruct (use_compile a),
      (enable_xformers_memory_efficient_attention a),
      (gradient_checkpointing a), (fixed_spatial a);
      cbn [when];
      repeat first [ rewrite outcome_bind
                   | progress cbn [outcome emit ret snd]
                   | rewrite Hur ];
      reflexivity.
  - repeat first [ rewrite trace_bind | rewrite outcome_bind
                 | rewrite train_events_app
                 | progress cbn [trace outcome emit ret fst snd
                                 train_events app]
                 | rewrite Hfo | rewrite Hft
                 | rewrite outcome_lift | rewrite Hdino
                 | rewrite train_events_dino
                 | rewrite train_events_lift ].
    destruct (outcome (TrainCond.load_pretrained _ _ _)) as [live | |];
      cbn [train_events]; rewrite ?app_nil_r; try reflexivity.
    destruct (use_compile a),
      (enable_xformers_memory_efficient_attention a),
      (gradient_checkpointing a), (fixed_spatial a);
      cbn [when];
      repeat first [ rewrite trace_bind | rewrite outcome_bind
                   | rewrite train_events_app
                   | progress cbn [trace outcome emit ret fst snd
                                   train_events app]
                   | rewrite Hur | rewrite Huq ];
      rewrite ?app_nil_r; reflexivity.
Qed.

End ScriptOutcomes.

Section ScriptProperties.

Import TrainScript.
Local Open Scope list_scope.

Variable E : env.
Variable a : args.

Lemma bind_ok_inv {event A B : Type} (m : prog event A)
    (f : A -> prog event B) (y : B) :
  outcome (bind m f) = Ok y ->
  exists x, outcome m = Ok x /\ outcome (f x) = Ok y.
Proof.
  rewrite outcome_bind. destruct (outcome m) as [x | |]; try discriminate.
  intros H. now exists x.
Qed.

Lemma bind_failed {event A B : Type} (m : prog event A)
    (f : A -> prog event B) :
  (forall x, outcome m <> Ok x) ->
  trace (bind m f) = trace m
  /\ outcome (bind m f) = match outcome m with
                          | Ok _ => Raise AssertionError
                          | Exit code => Exit code
                          | Raise e => Raise e
                          end.
Proof.
  intros H. rewrite trace_bind, outcome_bind.
  destruct (outcome m) as [x | |]; [destruct (H x); reflexivity | |];
    now rewrite app_nil_r.
Qed.

Lemma suffix_refl {A : Type} (s : list A) : exists before, s = before ++ s.
Proof. now exists []. Qed.

Lemma suffix_cons {A : Type} (x : A) (t s : list A) :
  (exists before, t = before ++ s) -> exists before, x :: t = before ++ s.
Proof. intros (b & ->). now exists (x :: b). Qed.

Lemma suffix_app {A : Type} (t1 t2 s : list A) :
  (exists before, t2 = before ++ s) -> exists before, t1 ++ t2 = before ++ s.
Proof. intros (b & ->). exists (t1 ++ b). now rewrite app_assoc. Qed.

(** With [extras = 78] the set-up does not return. *)
Lemma prepare_extras_78 (live : TrainCond.state_dict) :
  TrainCond.extras (train a) = 78 -> outcome (prepare E a) <> Ok live.
Proof.
  intros Hx Hok. unfold prepare in Hok. rewrite Hx in Hok.
  cbn [Z.eqb Pos.eqb] in Hok.
  repeat match type of Hok with
         | outcome (bind _ _) = Ok _ =>
             apply bind_ok_inv in Hok; destruct Hok as (? & ? & Hok)
         end.
  repeat match goal with
         | H : outcome (bind _ _) = Ok _ |- _ =>
             apply bind_ok_inv in H; destruct H as (? & ? & H)
         end.
  repeat match goal with
         | H : outcome (ret false) = Ok ?b |- _ =>
             injection H as <-
         end.
  discriminate.
Qed.

Lemma folder_has_no_step (rank : Z) :
  Forall (fun e => is_step e = false) (trace (experiment_folder E a rank)).
Proof.
  unfold experiment_folder. destruct (rank =? 0);
    repeat (constructor; [reflexivity |]); constructor.
Qed.

(** X26: with [extras = 78] training never happens.  The branch that
    loads the VAE from [pretrained_model_path] leaves [s_vae_m] unbound,
    and line 167 uses it: the script cannot return and takes no training
    step; when the set-up gets that far, it dies on the unbound variable
    after the optimizer is created and before the dataset is built. *)
Theorem extras_78_never_trains :
  TrainCond.extras (train a) = 78 ->
  (forall st, outcome (main E a) <> Ok st)
  /\ filter is_step (trace (main E a)) = []
  /\ (forall dino live,
        cuda_available E = true ->
        image_size a mod 8 = 0 ->
        outcome (LoadModel.load_model (dino_files E) (dino_fresh E)
                   (pretrained_weights a)) = Ok dino ->
        outcome (TrainCond.load_pretrained (base E) (train a) (model_fresh E))
        = Ok live ->
        outcome (main E a) = Raise (UnboundLocalError "s_vae_m")
        /\ exists before,
             trace (main E a)
             = before ++ [EDDP; ELog ModelParameters; EAdamW; EFreezeVae]).
Proof.
  intros Hx.
  assert (Hnever : forall live, outcome (prepare E a) <> Ok live).
  { intros live. now apply prepare_extras_78. }
  destruct (bind_failed (prepare E a)
              (fun live =>
                 bind (lift ETrain (train_loops (base E) (train a) live))
                   (fun st =>
                      bind (emit EModelEval)
                        (fun _ =>
                           bind (emit (ETrain (TrainCond.ELog TrainCond.Done)))
                             (fun _ => bind (emit ECleanup)
                                         (fun _ => ret st)))))
              Hnever) as [Htr Hout].
  change (trace (main E a) = trace (prepare E a)) in Htr.
  split; [| split].
  - intros st Hok. unfold main in Hok. apply bind_ok_inv in Hok.
    destruct Hok as (live & Hlive & _). exact (Hnever live Hlive).
  - rewrite Htr. apply Forall_filter_nil.
    apply (prepare_events E a (fun e => is_step e = false)).
    + intros [] H1 H2 H3; try reflexivity; discriminate.
    + apply folder_has_no_step.
    + intros name i _ _. reflexivity.
    + intros [] He; try discriminate; reflexivity.
  - intros dino live Hcuda Hsize Hdino Hlive.
    assert (Hs : (image_size a mod 8 =? 0) = true) by lia.
    destruct (experiment_folder_returns E a (TrainCond.rank (base E)))
      as [Hfo _].
    pose proof (unfreeze_temporal_returns E) as Hur.
    assert (Hprep : outcome (prepare E a)
                    = Raise (UnboundLocalError "s_vae_m")).
    { unfold prepare. rewrite Hcuda, Hs, Hx. cbn [Z.eqb Pos.eqb].
      repeat first [ rewrite outcome_bind
                   | progress cbn [outcome emit ret snd]
                   | rewrite Hfo | rewrite outcome_lift
                   | rewrite Hdino | rewrite Hlive ].
      destruct (use_compile a),
        (enable_xformers_memory_efficient_attention a),
        (gradient_checkpointing a), (fixed_spatial a);
        cbn [when];
        repeat first [ rewrite outcome_bind
                     | progress cbn [outcome emit ret raise snd]
                     | rewrite Hur ];
        reflexivity. }
    split.
    + unfold main. now rewrite outcome_bind, Hprep.
    + rewrite Htr. unfold prepare. rewrite Hcuda, Hs, Hx.
      cbn [Z.eqb Pos.eqb].
      repeat first [ rewrite trace_bind | rewrite outcome_bind
                   | progress cbn [trace outcome emit ret fst snd]
                   | rewrite Hfo | rewrite outcome_lift
                   | rewrite Hdino | rewrite Hlive ].
      destruct (use_compile a),
        (enable_xformers_memory_efficient_attention a),
        (gradient_checkpointing a), (fixed_spatial a);
        cbn [when];
        repeat first [ rewrite trace_bind | rewrite outcome_bind
                     | progress cbn [trace outcome emit ret raise fst snd]
                     | rewrite Hur ];
        repeat first [ apply suffix_refl | apply suffix_cons
                     | apply suffix_app ].
Qed.

(** X25: an [image_size] that 8 does not divide stops the script on the
    assertion of line 98 before any model is built; by then rank 0 has
    already created the experiment folder, another rank has touched no
    file. *)
Theorem bad_image_size_fails_before_model :
  cuda_available E = true ->
  image_size a mod 8 <> 0 ->
  outcome (main E a) = Raise AssertionError
  /\ filter builds_model (trace (main E a)) = []
  /\ filter touches_files (trace (main E a))
     = if TrainCond.rank (base E) =? 0
       then [EMakedirs (results_dir a);
             EMakedirs
               (experiment_dir_of E
                  (results_dir a ++ "/" ++ "001" ++ "-"
                   ++ dash_slashes (model a) ++ "-"
                   ++ ("F" ++ str (num_frames a) ++ "S"
                       ++ str (frame_interval a))
                   ++ "-" ++ dataset a)
                ++ "/checkpoints")%string;
             ESaveConfig
               (path_join
                  (experiment_dir_of E
                     (results_dir a ++ "/" ++ "001" ++ "-"
                      ++ dash_slashes (model a) ++ "-"
                      ++ ("F" ++ str (num_frames a) ++ "S"
                          ++ str (frame_interval a))
                      ++ "-" ++ dataset a)%string)
                  "config.yaml")]
       else [].
Proof.
  intros Hcuda Hsize.
  assert (Hs : (image_size a mod 8 =? 0) = false) by lia.
  unfold main, prepare, experiment_folder. rewrite Hcuda, Hs.
  destruct (TrainCond.rank (base E) =? 0);
    cbn [bind emit ret raise app]; repeat split; reflexivity.
Qed.

Lemma folder_of_other_rank :
  (TrainCond.rank (base E) =? 0) = false ->
  Forall (fun e => touches_files e = false)
    (trace (experiment_folder E a (TrainCond.rank (base E)))).
Proof.
  intros Hrank. unfold experiment_folder. rewrite Hrank.
  repeat constructor.
Qed.

(** X27: a process of non-zero rank writes nothing at all: over the
    whole script it creates no directory, saves no config and writes no
    checkpoint. *)
Theorem other_ranks_touch_no_file :
  (TrainCond.rank (base E) =? 0) = false ->
  filter touches_files (trace (main E a)) = [].
Proof.
  intros Hrank. apply Forall_filter_nil.
  apply (main_events_script E a (fun e => touches_files e = false)).
  - intros e _ _ H. exact H.
  - now apply folder_of_other_rank.
  - intros name i _ _. reflexivity.
  - intros [] He; try discriminate; reflexivity.
  - intros epoch st vd.
    eapply Forall_impl;
      [| apply (piecewise_train_step
                  (Forall (TrainSpec.save_ok (base E) (train a))))].
    + intros [] H; try reflexivity. destruct H as (H0 & _). lia.
    + constructor.
    + intros t1 t2 H1 H2. apply Forall_app. now split.
    + intros [] He; try discriminate; repeat constructor.
    + apply checkpoint_phase_saves.
Qed.

(** X28: the loop component is the script seen through its own events.
    When the set-up passes its checks (a GPU, an [image_size] that 8
    divides, a loadable feature extractor, [extras] other than 78), the
    script ends as [TrainCond.main] ends and its events of the loop
    component are, in order, the trace of [TrainCond.main]. *)
Theorem script_refines_to_loop (dino : TrainCond.state_dict) :
  cuda_available E = true ->
  image_size a mod 8 = 0 ->
  outcome (LoadModel.load_model (dino_files E) (dino_fresh E)
             (pretrained_weights a)) = Ok dino ->
  TrainCond.extras (train a) <> 78 ->
  train_events (trace (main E a))
  = trace (TrainCond.main (base E) (train a) (model_fresh E))
  /\ outcome (main E a)
     = outcome (TrainCond.main (base E) (train a) (model_fresh E)).
Proof.
  intros Hcuda Hsize Hdino Hx.
  destruct (prepare_past_checks E a dino Hcuda Hsize Hdino Hx)
    as [Hout Htr].
  unfold main, TrainCond.main, train_loops.
  rewrite !trace_bind, !outcome_bind, train_events_app, Htr, Hout.
  destruct (outcome (TrainCond.load_pretrained _ _ _)) as [live | |];
    cbn [train_events]; [| split; reflexivity ..].
  rewrite !trace_bind, !outcome_bind, train_events_app, train_events_lift.
  rewrite outcome_lift, !trace_bind, !outcome_bind.
  destruct (outcome (TrainCond.resume_setup _ _ _))
    as [[[st sch] l] | |]; cbn [train_events];
    rewrite ?app_nil_r; [| split; reflexivity ..].
  rewrite !trace_bind, !outcome_bind.
  destruct (outcome (TrainCond.run_epochs _ _ _ _)) as [st' | |];
    repeat first [ rewrite trace_bind | rewrite outcome_bind
                 | progress cbn [trace outcome emit ret fst snd
                                 train_events app] ];
    rewrite ?app_nil_r, <- ?app_assoc; split; reflexivity.
Qed.

Lemma unfrozen_none (t : list event) :
  Forall (fun e => is_unfreeze e = false) t -> unfrozen t = [].
Proof.
  induction 1 as [| e rest He _ IH]; cbn [unfrozen]; [reflexivity |].
  destruct e; try discriminate; exact IH.
Qed.

Lemma freezing_lift {E' A : Type} (inj : E' -> event) (m : prog E' A) :
  (forall e, is_freezing (inj e) = false) ->
  filter is_freezing (trace (lift inj m)) = [].
Proof.
  intros H. rewrite trace_lift. apply Forall_filter_nil.
  apply Forall_map, Forall_forall. intros e _. apply H.
Qed.

Lemma freezing_module (name : string) (idxs : list nat) :
  filter is_freezing
    (trace (for_each idxs
              (fun i => bind (emit (ELog (OnlyTrain name)))
                          (fun _ => emit (EUnfreeze name i)))))
  = map (EUnfreeze name) idxs.
Proof.
  induction idxs as [| i rest IH]; [reflexivity |].
  cbn [for_each map]. rewrite trace_bind, outcome_bind.
  cbn [outcome emit snd]. rewrite filter_app, IH, trace_bind.
  reflexivity.
Qed.

(** Lines 147-157 on their own: the model is frozen, then the
    parameters of the temporal modules are unfrozen in order. *)
Lemma unfreeze_temporal_freezing :
  filter is_freezing (trace (unfreeze_temporal E))
  = EFreezeModel
    :: map (fun p => EUnfreeze (fst p) (snd p)) (temporal_params E).
Proof.
  unfold unfreeze_temporal, temporal_params.
  rewrite !trace_bind, !filter_app. cbn [trace outcome emit fst snd].
  cbn [filter is_freezing app]. f_equal.
  assert (Hend : forall (r : result unit),
             filter is_freezing match r with
                                | Ok _ => [ELog OnlyTrainModules]
                                | _ => []
                                end = []).
  { intros [| |]; reflexivity. }
  rewrite filter_app, Hend, app_nil_r.
  induction (named_modules E) as [| [name n] rest IH]; [reflexivity |].
  cbn [for_each flat_map fst snd].
  rewrite trace_bind, filter_app, map_app.
  assert (Hbody : outcome (when (ends_with "attn_temp" name)
                             (for_each (seq 0 n)
                                (fun i =>
                                   bind (emit (ELog (OnlyTrain name)))
                                     (fun _ => emit (EUnfreeze name i)))))
                  = Ok tt).
  { destruct (ends_with "attn_temp" name); [| reflexivity]. cbn [when].
    apply for_each_returns. intros i. reflexivity. }
  rewrite Hbody, IH. f_equal.
  destruct (ends_with "attn_temp" name); [| reflexivity]. cbn [when].
  rewrite freezing_module, map_map. reflexivity.
Qed.

Lemma unfrozen_of_freezing (t : list event) :
  unfrozen (filter is_freezing t) = unfrozen t.
Proof.
  induction t as [| e rest IH]; [reflexivity |].
  destruct e; cbn [filter is_freezing unfrozen]; now rewrite ?IH.
Qed.

Lemma unfrozen_of_unfreezes (ps : list (string * nat)) :
  unfrozen (map (fun p => EUnfreeze (fst p) (snd p)) ps) = ps.
Proof.
  induction ps as [| [name i] rest IH]; cbn [map unfrozen fst snd];
    now rewrite ?IH.
Qed.

Lemma folder_freezes_nothing (rank : Z) :
  filter is_freezing (trace (experiment_folder E a rank)) = [].
Proof. unfold experiment_folder. destruct (rank =? 0); reflexivity. Qed.

(** X29: [fixed_spatial] decides what the script trains.  With the flag
    off the script unfreezes nothing selectively.  With the flag on, a
    script whose set-up gets to line 147 freezes the whole model once and
    then unfreezes exactly the parameters of the modules whose name ends
    with [attn_temp], module by module in the order of [named_modules],
    and nothing else in the whole run. *)
Theorem fixed_spatial_unfreezes_temporal_modules :
  (fixed_spatial a = false -> unfrozen (trace (main E a)) = [])
  /\ (forall dino live,
        fixed_spatial a = true ->
        cuda_available E = true ->
        image_size a mod 8 = 0 ->
        outcome (LoadModel.load_model (dino_files E) (dino_fresh E)
                   (pretrained_weights a)) = Ok dino ->
        outcome (TrainCond.load_pretrained (base E) (train a) (model_fresh E))
        = Ok live ->
        filter is_freezing (trace (main E a))
        = EFreezeModel
          :: map (fun p => EUnfreeze (fst p) (snd p)) (temporal_params E)
        /\ unfrozen (trace (main E a)) = temporal_params E).
Proof.
  split.
  - intros Hoff. apply unfrozen_none.
    apply (main_events_script E a (fun e => is_unfreeze e = false)).
    + intros e _ H _. exact H.
    + unfold experiment_folder.
      destruct (TrainCond.rank (base E) =? 0); repeat constructor.
    + intros name i Hon. congruence.
    + intros e _. reflexivity.
    + intros epoch st vd. apply Forall_forall. intros e _. reflexivity.
  - intros dino live Hon Hcuda Hsize Hdino Hlive.
    assert (Hfreezing :
              filter is_freezing (trace (main E a))
              = EFreezeModel
                :: map (fun p => EUnfreeze (fst p) (snd p))
                     (temporal_params E)).
    { assert (Hs : (image_size a mod 8 =? 0) = true) by lia.
      destruct (experiment_folder_returns E a (TrainCond.rank (base E)))
        as [Hfo _].
      pose proof (folder_freezes_nothing (TrainCond.rank (base E))) as Hff.
      pose proof (unfreeze_temporal_returns E) as Hur.
      pose proof unfreeze_temporal_freezing as Hfu.
      assert (Hdq : forall (A : Type) (m : LoadModel.M A),
                 filter is_freezing (trace (lift EDino m)) = []).
      { intros A m. now apply freezing_lift. }
      assert (Htq : forall (A : Type) (m : TrainCond.M A),
                 filter is_freezing (trace (lift ETrain m)) = []).
      { intros A m. now apply freezing_lift. }
      unfold main, prepare. rewrite Hcuda, Hs, Hon. cbn [when].
      destruct (TrainCond.extras (train a) =? 78),
        (use_compile a), (enable_xformers_memory_efficient_attention a),
        (gradient_checkpointing a);
        cbn [when];
        repeat first [ rewrite trace_bind | rewrite outcome_bind
                     | rewrite filter_app
                     | progress cbn [trace outcome emit ret raise fst snd
                                     filter is_freezing app]
                     | rewrite Hfo | rewrite Hff
                     | rewrite outcome_lift | rewrite Hdino | rewrite Hlive
                     | rewrite Hdq | rewrite Htq
                     | rewrite Hur | rewrite Hfu ];
        rewrite ?app_nil_r; try reflexivity.
      all: destruct (outcome (train_loops _ _ _)) as [st | |];
        repeat first [ rewrite trace_bind | rewrite outcome_bind
                     | rewrite filter_app
                     | progress cbn [trace outcome emit ret raise fst snd
                                     filter is_freezing app] ];
        rewrite ?app_nil_r; reflexivity. }
    split; [exact Hfreezing |].
    rewrite <- unfrozen_of_freezing, Hfreezing. cbn [unfrozen].
    apply unfrozen_of_unfreezes.
Qed.

End ScriptProperties.

Lemma bad_image_size_fails_before_model_witness :
  outcome (TrainScript.main (TrainScript.demo_env 1 true)
             (TrainScript.demo_args 250 3 false))
  = Raise AssertionError
  /\ filter TrainScript.builds_model
       (trace (TrainScript.main (TrainScript.demo_env 1 true)
                 (TrainScript.demo_args 250 3 false))) = []
  /\ filter TrainScript.touches_files
       (trace (TrainScript.main (TrainScript.demo_env 1 true)
                 (TrainScript.demo_args 250 3 false))) = [].
Proof.
  apply (bad_image_size_fails_before_model (TrainScript.demo_env 1 true)
           (TrainScript.demo_args 250 3 false));
    [reflexivity | discriminate].
Defined.

Lemma extras_78_never_trains_witness :
  outcome (TrainScript.main (TrainScript.demo_env 0 true)
             (TrainScript.demo_args 256 78 false))
  = Raise (UnboundLocalError "s_vae_m")
  /\ filter TrainScript.is_step
       (trace (TrainScript.main (TrainScript.demo_env 0 true)
                 (TrainScript.demo_args 256 78 false))) = [].
Proof.
  destruct (extras_78_never_trains (TrainScript.demo_env 0 true)
              (TrainScript.demo_args 256 78 false))
    as (_ & Hsteps & Hdies); [reflexivity |].
  split; [| exact Hsteps].
  eapply Hdies; reflexivity.
Defined.

Lemma other_ranks_touch_no_file_witness :
  filter TrainScript.touches_files
    (trace (TrainScript.main (TrainScript.demo_env 1 true)
              (TrainScript.demo_args 256 3 true))) = [].
Proof.
  apply (other_ranks_touch_no_file (TrainScript.demo_env 1 true)
           (TrainScript.demo_args 256 3 true)).
  reflexivity.
Defined.

Lemma script_refines_to_loop_witness :
  TrainScript.train_events
    (trace (TrainScript.main (TrainScript.demo_env 0 true)
              (TrainScript.demo_args 256 3 true)))
  = trace (TrainCond.main (TrainDemo.train_env 0 PyFloat.minus_one)
             (TrainScript.demo_train_args 3) TrainDemo.live)
  /\ outcome (TrainScript.main (TrainScript.demo_env 0 true)
                (TrainScript.demo_args 256 3 true))
     = outcome (TrainCond.main (TrainDemo.train_env 0 PyFloat.minus_one)
                  (TrainScript.demo_train_args 3) TrainDemo.live).
Proof.
  eapply (script_refines_to_loop (TrainScript.demo_env 0 true)
            (TrainScript.demo_args 256 3 true));
    [reflexivity | reflexivity | reflexivity | discriminate].
Defined.

Lemma fixed_spatial_unfreezes_temporal_modules_witness :
  TrainScript.unfrozen
    (trace (TrainScript.main (TrainScript.demo_env 0 true)
              (TrainScript.demo_args 256 3 false))) = []
  /\ TrainScript.unfrozen
       (trace (TrainScript.main (TrainScript.demo_env 0 true)
                 (TrainScript.demo_args 256 3 true)))
     = [("blocks.0.attn_temp"%string, 0%nat);
        ("blocks.0.attn_temp"%string, 1%nat);
        ("blocks.1.attn_temp"%string, 0%nat)].
Proof.
  split.
  - apply (fixed_spatial_unfreezes_temporal_modules
             (TrainScript.demo_env 0 true)
             (TrainScript.demo_args 256 3 false)).
    reflexivity.
  - eapply (fixed_spatial_unfreezes_temporal_modules
              (TrainScript.demo_env 0 true)
              (TrainScript.demo_args 256 3 true));
      reflexivity.
Defined.
